(** * Order lifecycle and pricing pipeline of the console e-commerce system

    A shallow embedding of [src/models.py], [src/services.py],
    [src/repositories.py], [src/validators.py] and the checkout sequence of
    [src/ui.py], followed by the properties of the order lifecycle.

    Python values are represented as follows.
    - [float] is IEEE 754 binary64, exactly the kernel's primitive floats.
    - [int] is [Z]; [str] is [string] (ASCII text); [None]-able attributes
      are [option].
    - A [Product] and the list held by [Order.order_lines] are heap objects:
      they are reached through references, so that two attributes holding the
      same object see each other's updates.
    - [uuid.uuid4()] and [datetime.now()] draw from two oracles stored in the
      world; [input()] pops a line of the world's standard input.
    - The orders file is represented by what [json.loads] makes of its text. *)

From Stdlib Require Import ZArith String Ascii List Bool Lia.
From Stdlib Require Import Floats.
From stdpp Require Import base option list gmap strings pretty.

Local Open Scope string_scope.
Local Open Scope list_scope.
Local Open Scope Z_scope.

(** ** Python primitives *)

Module Py.

(** Exceptions the modelled code can raise.  [NoSuchObject] is the model's
    own: a reference that is not allocated, which Python rules out. *)
Inductive exn : Type :=
| EOFError
| IndexError
| OverflowError
| NoSuchObject.

Inductive result (A : Type) : Type :=
| Ok (a : A)
| Raise (e : exn).
Arguments Ok {A} a.
Arguments Raise {A} e.

(** State and exception monad: a computation over a store [S]. *)
Definition M (S A : Type) : Type := S -> result (A * S).

Definition ret {S A} (a : A) : M S A := fun s => Ok (a, s).

Definition bind {S A B} (c : M S A) (k : A -> M S B) : M S B :=
  fun s => match c s with
           | Ok (a, s') => k a s'
           | Raise e => Raise e
           end.

Definition raise {S A} (e : exn) : M S A := fun _ => Raise e.

Definition gets {S A} (f : S -> A) : M S A := fun s => Ok (f s, s).

Definition modify {S} (f : S -> S) : M S unit := fun s => Ok (tt, f s).

Definition lift {S A} (r : result A) : M S A :=
  fun s => match r with
           | Ok a => Ok (a, s)
           | Raise e => Raise e
           end.

(** A heap read: [NoSuchObject] when the reference is not allocated. *)
Definition deref {S A} (o : option A) : M S A :=
  fun s => match o with
           | Some a => Ok (a, s)
           | None => Raise NoSuchObject
           end.

(** *** float *)

Definition zero : float := 0%float.

(** [float(n)] for an [int n]: rounded to nearest even, [OverflowError]
    when the rounded value is out of range. *)
Definition float_of_int (n : Z) : result float :=
  let f := SF2Prim (binary_normalize prec emax n 0 false) in
  match classify f with
  | PInf | NInf => Raise OverflowError
  | _ => Ok f
  end.

(** [x * n] with [x] a float and [n] an int: the int is converted first. *)
Definition mul_float_int (x : float) (n : Z) : result float :=
  match float_of_int n with
  | Ok y => Ok (x * y)%float
  | Raise e => Raise e
  end.

(** [sum(xs)]: starts from [0] and adds the items from left to right.
    (CPython 3.12 and later also carry a correction term through a sum of
    floats; the sum of no items is [0] either way.) *)
Definition sum (xs : list float) : float :=
  fold_left PrimFloat.add xs zero.

(** *** str *)

(** [s[:n]] *)
Definition prefix (n : nat) (s : string) : string := substring 0 n s.

Definition upper_ascii (c : ascii) : ascii :=
  let n := nat_of_ascii c in
  if (97 <=? n)%nat && (n <=? 122)%nat then ascii_of_nat (n - 32) else c.

(** [s.upper()] *)
Fixpoint upper (s : string) : string :=
  match s with
  | EmptyString => EmptyString
  | String c s' => String (upper_ascii c) (upper s')
  end.

(** Whitespace as [str.strip()] and [int()] see it (ASCII range). *)
Definition isspace (c : ascii) : bool :=
  let n := nat_of_ascii c in
  ((9 <=? n)%nat && (n <=? 13)%nat) || ((28 <=? n)%nat && (n <=? 32)%nat).

Fixpoint lstrip (s : string) : string :=
  match s with
  | String c s' => if isspace c then lstrip s' else s
  | EmptyString => EmptyString
  end.

Fixpoint rstrip (s : string) : string :=
  match s with
  | EmptyString => EmptyString
  | String c s' =>
      match rstrip s' with
      | EmptyString => if isspace c then EmptyString else String c EmptyString
      | r => String c r
      end
  end.

(** [s.strip()] *)
Definition strip (s : string) : string := rstrip (lstrip s).

Definition digit_of (c : ascii) : option Z :=
  let n := nat_of_ascii c in
  if (48 <=? n)%nat && (n <=? 57)%nat then Some (Z.of_nat (n - 48)) else None.

(** Decimal digits with single underscores between them. [acc] is the value
    read so far and [after_digit] tells whether the previous character was
    a digit. *)
Fixpoint digits (s : string) (acc : Z) (after_digit : bool) : option Z :=
  match s with
  | EmptyString => if after_digit then Some acc else None
  | String c s' =>
      match digit_of c with
      | Some d => digits s' (10 * acc + d) true
      | None =>
          if Ascii.eqb c "_"%char && after_digit
          then match s' with
               | String c' _ =>
                   match digit_of c' with
                   | Some _ => digits s' acc false
                   | None => None
                   end
               | EmptyString => None
               end
          else None
      end
  end.

(** [int(s)] in base 10; [None] stands for [ValueError]. *)
Definition int_of_str (s : string) : option Z :=
  match strip s with
  | String "-"%char s' => Z.opp <$> digits s' 0 false
  | String "+"%char s' => digits s' 0 false
  | s' => digits s' 0 false
  end.

(** [str(n)]: decimal text of an int. *)
Definition str_of_int (n : Z) : string := pretty n.

(** *** list *)

(** [[f(x) for x in l]] where [f] can raise: the first exception wins. *)
Fixpoint traverse {A B} (f : A -> result B) (l : list A) : result (list B) :=
  match l with
  | [] => Ok []
  | x :: l' =>
      match f x with
      | Ok y => match traverse f l' with
                | Ok ys => Ok (y :: ys)
                | Raise e => Raise e
                end
      | Raise e => Raise e
      end
  end.

(** [l[i]], negative indices counting from the end. *)
Definition index {A} (l : list A) (i : Z) : result A :=
  let n := Z.of_nat (length l) in
  let j := if i <? 0 then i + n else i in
  if (0 <=? j) && (j <? n)
  then match l !! Z.to_nat j with
       | Some x => Ok x
       | None => Raise IndexError
       end
  else Raise IndexError.

(** [[f(x) for x in l]] for an [f] with effects. *)
Fixpoint mapM {S A B} (f : A -> M S B) (l : list A) : M S (list B) :=
  match l with
  | [] => ret []
  | x :: l' =>
      bind (f x) (fun y => bind (mapM f l') (fun ys => ret (y :: ys)))
  end.

End Py.

Declare Scope py_scope.
Delimit Scope py_scope with py.
Notation "'let*' x ':=' c1 'in' c2" := (Py.bind c1 (fun x => c2))
  (at level 10, x binder, c1 at level 100, c2 at level 200) : py_scope.
Local Open Scope py_scope.

(** ** Heap objects and stored records *)

(** A reference to a heap object. *)
Abbreviation ref := positive (only parsing).

Module Address.
Record t : Type := mk
  { street : string; city : string; postal_code : string; country : string }.
End Address.

Module Customer.
Record t : Type := mk
  { customer_id : string;
    name : string;
    email : string;
    password : string;
    address : Address.t;
    created_at : string }.
End Customer.

Module Product.
Record t : Type := mk
  { product_id : string;
    name : string;
    description : string;
    price : float;
    quantity_available : Z }.

(** [product.price = p] *)
Definition set_price (p : float) (self : t) : t :=
  mk (product_id self) (name self) (description self) p (quantity_available self).
End Product.

(** The dictionaries that the [to_dict] methods build and that the orders file
    stores, one record per shape, with the keys as fields. *)
Module Json.
Module OrderLine.
Record t : Type := mk
  { product_id : string;
    product_name : string;
    quantity : Z;
    unit_price : float;
    line_total : float }.
End OrderLine.

Module Invoice.
Record t : Type := mk
  { invoice_id : string;
    order_id : string;
    customer_id : string;
    invoice_date : string;
    due_date : string;
    items : list OrderLine.t;
    subtotal : float;
    tax_amount : float;
    total_amount : float }.
End Invoice.

Module Shipment.
Record t : Type := mk
  { shipment_id : string;
    order_id : string;
    tracking_number : string;
    status : string;
    created_at : string }.
End Shipment.

Module Order.
Record t : Type := mk
  { order_id : string;
    customer_id : string;
    order_lines : list OrderLine.t;
    subtotal : float;
    tax_amount : float;
    shipping_cost : float;
    total_amount : float;
    status : string;
    created_at : string;
    invoice : option Invoice.t;
    shipment : option Shipment.t }.
End Order.
End Json.

Module OrderLine.
Record t : Type := mk
  { product : ref;
    quantity : Z;
    unit_price : float }.

Definition get_line_total (self : t) : Py.result float :=
  Py.mul_float_int (unit_price self) (quantity self).

(** [to_dict] reads the product object; [products] is the heap of products. *)
Definition to_dict (products : gmap ref Product.t) (self : t)
  : Py.result Json.OrderLine.t :=
  match products !! product self with
  | None => Py.Raise Py.NoSuchObject
  | Some p =>
      match get_line_total self with
      | Py.Ok total =>
          Py.Ok (Json.OrderLine.mk (Product.product_id p) (Product.name p)
                   (quantity self) (unit_price self) total)
      | Py.Raise e => Py.Raise e
      end
  end.
End OrderLine.

(** ** The world *)

(** What [json.loads] makes of the text of the orders file. *)
Inductive file_content : Type :=
| Unparsed (text : string)
    (** a text on which [json.loads] raises [JSONDecodeError], or the empty text *)
| Parsed (records : list Json.Order.t)
    (** a text that [json.loads] reads as this list of dictionaries *).

(** A printed line: literal text and amounts shown with two decimals. *)
Inductive chunk : Type :=
| Text (s : string)
| Money (x : float).

Record World : Type := mkWorld
  { uuids : nat -> string;        (** the values [uuid.uuid4()] will return *)
    uuid_count : nat;             (** how many were drawn *)
    times : nat -> string;        (** the values [datetime.now().isoformat()] will return *)
    time_count : nat;
    products : gmap ref Product.t;          (** [Product] objects *)
    lists : gmap ref (list OrderLine.t);    (** list objects holding order lines *)
    orders_file : file_content;
    stdin : list string;
    stdout : list (list chunk) }.

Abbreviation M := (Py.M World).

Module Sys.
Definition set_uuid_count (n : nat) (w : World) : World :=
  mkWorld (uuids w) n (times w) (time_count w) (products w) (lists w)
    (orders_file w) (stdin w) (stdout w).
Definition set_time_count (n : nat) (w : World) : World :=
  mkWorld (uuids w) (uuid_count w) (times w) n (products w) (lists w)
    (orders_file w) (stdin w) (stdout w).
Definition set_products (ps : gmap ref Product.t) (w : World) : World :=
  mkWorld (uuids w) (uuid_count w) (times w) (time_count w) ps (lists w)
    (orders_file w) (stdin w) (stdout w).
Definition set_lists (ls : gmap ref (list OrderLine.t)) (w : World) : World :=
  mkWorld (uuids w) (uuid_count w) (times w) (time_count w) (products w) ls
    (orders_file w) (stdin w) (stdout w).
Definition set_orders_file (f : file_content) (w : World) : World :=
  mkWorld (uuids w) (uuid_count w) (times w) (time_count w) (products w) (lists w)
    f (stdin w) (stdout w).
Definition set_stdin (i : list string) (w : World) : World :=
  mkWorld (uuids w) (uuid_count w) (times w) (time_count w) (products w) (lists w)
    (orders_file w) i (stdout w).
Definition set_stdout (o : list (list chunk)) (w : World) : World :=
  mkWorld (uuids w) (uuid_count w) (times w) (time_count w) (products w) (lists w)
    (orders_file w) (stdin w) o.

(** [str(uuid.uuid4())] *)
Definition uuid4 : M string :=
  fun w => Py.Ok (uuids w (uuid_count w), set_uuid_count (S (uuid_count w)) w).

(** [datetime.now().isoformat()] *)
Definition now : M string :=
  fun w => Py.Ok (times w (time_count w), set_time_count (S (time_count w)) w).

(** A new list object with the given items. *)
Definition new_list (items : list OrderLine.t) : M ref :=
  fun w => let r := fresh (dom (lists w)) in
           Py.Ok (r, set_lists (<[r := items]> (lists w)) w).

Definition read_list (r : ref) : M (list OrderLine.t) :=
  fun w => Py.deref (lists w !! r) w.

(** [l.append(x)] on the list object [r] *)
Definition append (r : ref) (x : OrderLine.t) : M unit :=
  let* l := read_list r in
  Py.modify (fun w => set_lists (<[r := l ++ [x]]> (lists w)) w).

Definition read_product (r : ref) : M Product.t :=
  fun w => Py.deref (products w !! r) w.

(** [input()]: the next line of standard input, [EOFError] at its end. *)
Definition input : M string :=
  fun w => match stdin w with
           | [] => Py.Raise Py.EOFError
           | l :: rest => Py.Ok (l, set_stdin rest w)
           end.

Definition print (line : list chunk) : M unit :=
  Py.modify (fun w => set_stdout (stdout w ++ [line]) w).
End Sys.

(** ** models.py *)

Module CartItem.
Record t : Type := mk
  { product : ref;
    quantity : Z }.

Definition get_subtotal (self : t) : M float :=
  let* p := Sys.read_product (product self) in
  Py.lift (Py.mul_float_int (Product.price p) (quantity self)).
End CartItem.

Module ShoppingCart.
Record t : Type := mk
  { items : list CartItem.t;
    customer_id : string }.

Definition __init__ (customer_id : string) : t := mk [] customer_id.

(** The loop of [add_item]: [Some items'] when an item of the product was
    found and its quantity increased, [None] when the loop ran to its end. *)
Fixpoint add_item_loop (product : ref) (quantity : Z)
    (items : list CartItem.t) : M (option (list CartItem.t)) :=
  match items with
  | [] => Py.ret None
  | item :: rest =>
      let* p := Sys.read_product (CartItem.product item) in
      let* q := Sys.read_product product in
      if String.eqb (Product.product_id p) (Product.product_id q)
      then Py.ret (Some (CartItem.mk (CartItem.product item)
                           (CartItem.quantity item + quantity) :: rest))
      else
        let* r := add_item_loop product quantity rest in
        Py.ret (cons item <$> r)
  end.

Definition add_item (self : t) (product : ref) (quantity : Z) : M t :=
  let* found := add_item_loop product quantity (items self) in
  match found with
  | Some items' => Py.ret (mk items' (customer_id self))
  | None => Py.ret (mk (items self ++ [CartItem.mk product quantity]) (customer_id self))
  end.

Definition get_subtotal (self : t) : M float :=
  let* subtotals := Py.mapM CartItem.get_subtotal (items self) in
  Py.ret (Py.sum subtotals).

Definition clear (self : t) : t := mk [] (customer_id self).

Definition is_empty (self : t) : bool :=
  Nat.eqb (length (items self)) 0.
End ShoppingCart.

Module Invoice.
Record t : Type := mk
  { invoice_id : string;
    order_id : string;
    customer_id : string;
    invoice_date : string;
    due_date : string;
    items : ref;          (** the list object passed as [order_lines] *)
    subtotal : float;
    tax_amount : float;
    total_amount : float }.

Definition __init__ (order_id customer_id : string) (order_lines : ref)
    (subtotal tax_amount total_amount : float) : M t :=
  let* invoice_id := Sys.uuid4 in
  let* invoice_date := Sys.now in
  let* due_date := Sys.now in
  Py.ret (mk invoice_id order_id customer_id invoice_date due_date
            order_lines subtotal tax_amount total_amount).

Definition to_dict (self : t) : M Json.Invoice.t :=
  let* lines := Sys.read_list (items self) in
  let* ps := Py.gets products in
  let* ds := Py.lift (Py.traverse (OrderLine.to_dict ps) lines) in
  Py.ret (Json.Invoice.mk (invoice_id self) (order_id self) (customer_id self)
            (invoice_date self) (due_date self) ds
            (subtotal self) (tax_amount self) (total_amount self)).

Definition from_dict (data : Json.Invoice.t) : M t :=
  let* no_lines := Sys.new_list [] in
  let* invoice :=
    __init__ (Json.Invoice.order_id data) (Json.Invoice.customer_id data) no_lines
      (Json.Invoice.subtotal data) (Json.Invoice.tax_amount data)
      (Json.Invoice.total_amount data) in
  Py.ret (mk (Json.Invoice.invoice_id data) (order_id invoice) (customer_id invoice)
            (Json.Invoice.invoice_date data) (Json.Invoice.due_date data)
            (items invoice) (subtotal invoice) (tax_amount invoice)
            (total_amount invoice)).
End Invoice.

Module Shipment.
Record t : Type := mk
  { shipment_id : string;
    order_id : string;
    tracking_number : string;
    status : string;
    created_at : string }.

Definition __init__ (order_id : string) : M t :=
  let* shipment_id := Sys.uuid4 in
  let tracking_number := "TRACK-" +:+ Py.upper (Py.prefix 8 shipment_id) in
  let* created_at := Sys.now in
  Py.ret (mk shipment_id order_id tracking_number "Pending" created_at).

Definition get_latest_status (self : t) : string := status self.

Definition to_dict (self : t) : Json.Shipment.t :=
  Json.Shipment.mk (shipment_id self) (order_id self) (tracking_number self)
    (status self) (created_at self).

Definition from_dict (data : Json.Shipment.t) : M t :=
  let* shipment := __init__ (Json.Shipment.order_id data) in
  Py.ret (mk (Json.Shipment.shipment_id data) (order_id shipment)
            (Json.Shipment.tracking_number data) (Json.Shipment.status data)
            (Json.Shipment.created_at data)).
End Shipment.

Module Order.
Record t : Type := mk
  { order_id : string;
    customer_id : string;
    order_lines : ref;     (** the list object holding the lines *)
    subtotal : float;
    tax_amount : float;
    shipping_cost : float;
    total_amount : float;
    status : string;
    created_at : string;
    invoice : option Invoice.t;
    shipment : option Shipment.t }.

Definition __init__ (customer_id : string) : M t :=
  let* order_id := Sys.uuid4 in
  let* order_lines := Sys.new_list [] in
  let* created_at := Sys.now in
  Py.ret (mk order_id customer_id order_lines Py.zero Py.zero Py.zero Py.zero
            "Pending" created_at None None).

Definition add_line (self : t) (order_line : OrderLine.t) : M unit :=
  Sys.append (order_lines self) order_line.

Definition calculate_totals (self : t) (tax_rate shipping_cost : float) : M t :=
  let* lines := Sys.read_list (order_lines self) in
  let* totals := Py.lift (Py.traverse OrderLine.get_line_total lines) in
  let subtotal := Py.sum totals in
  let tax_amount := (subtotal * tax_rate)%float in
  let total_amount := (subtotal + tax_amount + shipping_cost)%float in
  Py.ret (mk (order_id self) (customer_id self) (order_lines self)
            subtotal tax_amount shipping_cost total_amount
            (status self) (created_at self) (invoice self) (shipment self)).

Definition set_status (self : t) (status : string) : t :=
  mk (order_id self) (customer_id self) (order_lines self)
    (subtotal self) (tax_amount self) (shipping_cost self) (total_amount self)
    status (created_at self) (invoice self) (shipment self).

(** [order.invoice = invoice] *)
Definition set_invoice (self : t) (invoice : Invoice.t) : t :=
  mk (order_id self) (customer_id self) (order_lines self)
    (subtotal self) (tax_amount self) (shipping_cost self) (total_amount self)
    (status self) (created_at self) (Some invoice) (shipment self).

(** [order.shipment = shipment] *)
Definition set_shipment (self : t) (shipment : Shipment.t) : t :=
  mk (order_id self) (customer_id self) (order_lines self)
    (subtotal self) (tax_amount self) (shipping_cost self) (total_amount self)
    (status self) (created_at self) (invoice self) (Some shipment).

Definition to_dict (self : t) : M Json.Order.t :=
  let* lines := Sys.read_list (order_lines self) in
  let* ps := Py.gets products in
  let* ds := Py.lift (Py.traverse (OrderLine.to_dict ps) lines) in
  let* inv :=
    match invoice self with
    | Some i => let* d := Invoice.to_dict i in Py.ret (Some d)
    | None => Py.ret None
    end in
  let shp := Shipment.to_dict <$> shipment self in
  Py.ret (Json.Order.mk (order_id self) (customer_id self) ds
            (subtotal self) (tax_amount self) (shipping_cost self)
            (total_amount self) (status self) (created_at self) inv shp).

(** Every key is present in a stored dictionary, so each [data.get(key,
    default)] yields the stored value, and [float(x)] of a stored number
    is that number.  The [order_lines] key is not read. *)
Definition from_dict (data : Json.Order.t) : M t :=
  let* order := __init__ (Json.Order.customer_id data) in
  let* inv :=
    match Json.Order.invoice data with
    | Some d => let* i := Invoice.from_dict d in Py.ret (Some i)
    | None => Py.ret (invoice order)
    end in
  let* shp :=
    match Json.Order.shipment data with
    | Some d => let* s := Shipment.from_dict d in Py.ret (Some s)
    | None => Py.ret (shipment order)
    end in
  Py.ret (mk (Json.Order.order_id data) (customer_id order) (order_lines order)
            (Json.Order.subtotal data) (Json.Order.tax_amount data)
            (Json.Order.shipping_cost data) (Json.Order.total_amount data)
            (Json.Order.status data) (Json.Order.created_at data) inv shp).
End Order.

(** ** services.py *)

Module PricingService.
Record t : Type := mk
  { tax_rate : float;
    shipping_cost : float }.

Definition __init__ (tax_rate shipping_cost : float) : t := mk tax_rate shipping_cost.

Definition calculate_order_total (self : t) (order : Order.t) : M Order.t :=
  Order.calculate_totals order (tax_rate self) (shipping_cost self).

Definition get_tax_amount (self : t) (subtotal : float) : float :=
  (subtotal * tax_rate self)%float.

Definition get_total_with_tax_and_shipping (self : t) (subtotal : float) : float :=
  let tax := get_tax_amount self subtotal in
  (subtotal + tax + shipping_cost self)%float.
End PricingService.

(** The abstract class [PaymentGateway]: a gateway prints its lines and
    answers with [(success, transaction_id)]; it touches nothing else. *)
Module PaymentGateway.
Record t : Type := mk
  { process_payment : float -> string -> list (list chunk) * (bool * string) }.

(** Calling [gateway.process_payment(amount, order_id)]. *)
Definition call (gateway : t) (amount : float) (order_id : string)
  : M (bool * string) :=
  let '(lines, answer) := process_payment gateway amount order_id in
  let* _ := Py.modify (fun w => Sys.set_stdout (stdout w ++ lines) w) in
  Py.ret answer.
End PaymentGateway.

Definition CreditCardGateway : PaymentGateway.t :=
  PaymentGateway.mk (fun amount order_id =>
    ([[Text "Processing credit card payment of $"; Money amount; Text "..."]],
     (true, "CC-" +:+ Py.prefix 8 order_id +:+ "-SUCCESS"))).

Definition DigitalWalletGateway : PaymentGateway.t :=
  PaymentGateway.mk (fun amount order_id =>
    ([[Text "Processing digital wallet payment of $"; Money amount; Text "..."]],
     (true, "DW-" +:+ Py.prefix 8 order_id +:+ "-SUCCESS"))).

Definition BankTransferGateway : PaymentGateway.t :=
  PaymentGateway.mk (fun amount order_id =>
    ([[Text "Processing bank transfer of $"; Money amount; Text "..."]],
     (true, "BT-" +:+ Py.prefix 8 order_id +:+ "-SUCCESS"))).

Module PaymentService.
(** [payment_gateways] is a dict: an association list in insertion order. *)
Record t : Type := mk
  { payment_gateways : list (string * PaymentGateway.t) }.

Definition __init__ : t :=
  mk [("credit_card", CreditCardGateway);
      ("digital_wallet", DigitalWalletGateway);
      ("bank_transfer", BankTransferGateway)].

(** [d.get(key)] on the association list *)
Fixpoint lookup (key : string) (d : list (string * PaymentGateway.t))
  : option PaymentGateway.t :=
  match d with
  | [] => None
  | (k, g) :: d' => if String.eqb k key then Some g else lookup key d'
  end.

Definition process_order_payment (self : t) (order : Order.t)
    (payment_method : string) : M (bool * string) :=
  match lookup payment_method (payment_gateways self) with
  | None => Py.ret (false, "Invalid payment method: " +:+ payment_method)
  | Some gateway =>
      let* '(success, transaction_id) :=
        PaymentGateway.call gateway (Order.total_amount order) (Order.order_id order) in
      let* _ :=
        if success
        then Sys.print [Text ("Payment approved! Transaction ID: " +:+ transaction_id)]
        else Sys.print [Text ("Payment failed! Transaction ID: " +:+ transaction_id)] in
      Py.ret (success, transaction_id)
  end.

Definition get_available_payment_methods (self : t) : list string :=
  fst <$> payment_gateways self.
End PaymentService.

(** ** repositories.py *)

(** The repository of the orders file.  [__init__] creates the file when it
    is missing, so the repository always has a file to read. *)
Module OrderRepository.

Definition _load_all : M (list Json.Order.t) :=
  let* content := Py.gets orders_file in
  match content with
  | Unparsed "" => Py.ret []           (* [... if content else []] *)
  | Unparsed _ => Py.ret []            (* [except json.JSONDecodeError] *)
  | Parsed records => Py.ret records
  end.

Definition _write_all (orders : list Json.Order.t) : M unit :=
  Py.modify (Sys.set_orders_file (Parsed orders)).

(** The loop of [save]: the index of the first stored order with this id. *)
Fixpoint save_loop (order_id : string) (i : nat) (orders : list Json.Order.t)
  : option nat :=
  match orders with
  | [] => None
  | o :: rest =>
      if String.eqb (Json.Order.order_id o) order_id
      then Some i
      else save_loop order_id (S i) rest
  end.

Definition save (order : Order.t) : M unit :=
  let* orders := _load_all in
  match save_loop (Order.order_id order) 0 orders with
  | Some i =>
      let* d := Order.to_dict order in
      _write_all (<[i := d]> orders)
  | None =>
      let* d := Order.to_dict order in
      _write_all (orders ++ [d])
  end.

Fixpoint find_by_id_loop (order_id : string) (orders : list Json.Order.t)
  : M (option Order.t) :=
  match orders with
  | [] => Py.ret None
  | o :: rest =>
      if String.eqb (Json.Order.order_id o) order_id
      then let* order := Order.from_dict o in Py.ret (Some order)
      else find_by_id_loop order_id rest
  end.

Definition find_by_id (order_id : string) : M (option Order.t) :=
  let* orders := _load_all in
  find_by_id_loop order_id orders.

Fixpoint find_by_customer_id_loop (customer_id : string)
    (orders : list Json.Order.t) (customer_orders : list Order.t)
  : M (list Order.t) :=
  match orders with
  | [] => Py.ret customer_orders
  | o :: rest =>
      if String.eqb (Json.Order.customer_id o) customer_id
      then
        let* order := Order.from_dict o in
        find_by_customer_id_loop customer_id rest (customer_orders ++ [order])
      else find_by_customer_id_loop customer_id rest customer_orders
  end.

Definition find_by_customer_id (customer_id : string) : M (list Order.t) :=
  let* orders := _load_all in
  find_by_customer_id_loop customer_id orders [].

Definition get_all : M (list Order.t) :=
  let* orders_data := _load_all in
  Py.mapM Order.from_dict orders_data.
End OrderRepository.

(** ** validators.py *)

Module InputValidator.
Definition validate_menu_choice (choice_str : string) (max_option : Z)
  : bool * Z * string :=
  if String.eqb choice_str "" || String.eqb (Py.strip choice_str) ""
  then (false, 0, "Choice cannot be blank.")
  else
    match Py.int_of_str (Py.strip choice_str) with
    | Some choice =>
        if (choice <? 0) || (max_option <? choice)
        then (false, 0, "Please enter a number between 0 and "
                          +:+ Py.str_of_int max_option +:+ ".")
        else (true, choice, "")
    | None => (false, 0, "Please enter a valid number.")
    end.
End InputValidator.

(** ** ui.py: the checkout sequence *)

Module ApplicationController.
(** The session and the services that [checkout] uses.  The orders
    repository is the orders file of the world. *)
Record t : Type := mk
  { pricing_service : PricingService.t;
    payment_service : PaymentService.t;
    current_user : option Customer.t;
    current_cart : option ShoppingCart.t }.

Definition __init__ (tax_rate shipping_cost : float) : t :=
  mk (PricingService.__init__ tax_rate shipping_cost) PaymentService.__init__
    None None.

Definition set_current_cart (self : t) (cart : ShoppingCart.t) : t :=
  mk (pricing_service self) (payment_service self) (current_user self) (Some cart).

(** Where [checkout] returns, with its local [order] and the answer of
    [process_order_payment] as they are at that point. *)
Inductive checkout_exit : Type :=
| NotLoggedIn
| CartEmpty
| PaymentFailed (order : Order.t) (payment : bool * string)
| Completed (order : Order.t) (payment : bool * string).

(** Step 2: [for cart_item in self.current_cart.items: ...] *)
Fixpoint add_lines (order : Order.t) (items : list CartItem.t) : M unit :=
  match items with
  | [] => Py.ret tt
  | cart_item :: rest =>
      let* p := Sys.read_product (CartItem.product cart_item) in
      let order_line :=
        OrderLine.mk (CartItem.product cart_item) (CartItem.quantity cart_item)
          (Product.price p) in
      let* _ := Order.add_line order order_line in
      add_lines order rest
  end.

(** The [while True] loop that asks for a menu choice.  Every iteration
    consumes a line of input, so [fuel] above the number of lines left is
    never used up. *)
Fixpoint ask_choice (fuel : nat) (max_option : Z) : M Z :=
  match fuel with
  | O => Py.raise Py.EOFError
  | S fuel' =>
      let* line := Sys.input in
      let '(is_valid, choice, _) :=
        InputValidator.validate_menu_choice (Py.strip line) max_option in
      if is_valid then Py.ret choice else ask_choice fuel' max_option
  end.

Definition select_choice (max_option : Z) : M Z :=
  let* lines := Py.gets stdin in
  ask_choice (S (length lines)) max_option.

(** [checkout], without the lines it prints itself. *)
Definition checkout (self : t) : M (checkout_exit * t) :=
  match current_user self, current_cart self with
  | Some user, Some cart =>
      if ShoppingCart.is_empty cart then Py.ret (CartEmpty, self)
      else
        (* Step 1 *)
        let* order := Order.__init__ (Customer.customer_id user) in
        (* Step 2 *)
        let* _ := add_lines order (ShoppingCart.items cart) in
        (* Step 3 *)
        let* order :=
          PricingService.calculate_order_total (pricing_service self) order in
        (* Step 4 *)
        let payment_methods :=
          PaymentService.get_available_payment_methods (payment_service self) in
        let* choice := select_choice (Z.of_nat (length payment_methods)) in
        let* selected_method := Py.lift (Py.index payment_methods (choice - 1)) in
        let* payment :=
          PaymentService.process_order_payment (payment_service self) order
            selected_method in
        if negb (fst payment) then Py.ret (PaymentFailed order payment, self)
        else
          (* Step 5 *)
          let order := Order.set_status order "Paid" in
          (* Step 6 *)
          let* invoice :=
            Invoice.__init__ (Order.order_id order) (Order.customer_id order)
              (Order.order_lines order) (Order.subtotal order)
              (Order.tax_amount order) (Order.total_amount order) in
          let order := Order.set_invoice order invoice in
          (* Step 7 *)
          let* shipment := Shipment.__init__ (Order.order_id order) in
          let order := Order.set_shipment order shipment in
          (* Step 8 *)
          let* _ := OrderRepository.save order in
          (* Step 9 *)
          Py.ret (Completed order payment,
                  set_current_cart self (ShoppingCart.clear cart))
  | _, _ => Py.ret (NotLoggedIn, self)
  end.

(** The amounts [view_cart] shows for a cart that is not empty:
    subtotal, tax and total. *)
Definition view_cart_amounts (self : t) (cart : ShoppingCart.t)
  : M (float * float * float) :=
  let* subtotal := ShoppingCart.get_subtotal cart in
  let tax := PricingService.get_tax_amount (pricing_service self) subtotal in
  let total :=
    (subtotal + tax + PricingService.shipping_cost (pricing_service self))%float in
  Py.ret (subtotal, tax, total).
End ApplicationController.

(** ** Vocabulary of the statements *)

(** The list of dictionaries that [_load_all] reads from the orders file. *)
Definition stored (w : World) : list Json.Order.t :=
  match orders_file w with
  | Parsed records => records
  | Unparsed _ => []
  end.

(** How many stored dictionaries carry the order id [id]. *)
Definition count_id (id : string) (records : list Json.Order.t) : nat :=
  length (filter (fun d => Json.Order.order_id d = id) records).

(** An object read back from a dictionary carries the dictionary's values. *)
Definition invoice_represents (i : Invoice.t) (d : Json.Invoice.t) : Prop :=
  Invoice.invoice_id i = Json.Invoice.invoice_id d /\
  Invoice.order_id i = Json.Invoice.order_id d /\
  Invoice.customer_id i = Json.Invoice.customer_id d /\
  Invoice.invoice_date i = Json.Invoice.invoice_date d /\
  Invoice.due_date i = Json.Invoice.due_date d /\
  Invoice.subtotal i = Json.Invoice.subtotal d /\
  Invoice.tax_amount i = Json.Invoice.tax_amount d /\
  Invoice.total_amount i = Json.Invoice.total_amount d.

Definition shipment_represents (s : Shipment.t) (d : Json.Shipment.t) : Prop :=
  Shipment.to_dict s = d.

Definition order_represents (o : Order.t) (d : Json.Order.t) : Prop :=
  Order.order_id o = Json.Order.order_id d /\
  Order.customer_id o = Json.Order.customer_id d /\
  Order.subtotal o = Json.Order.subtotal d /\
  Order.tax_amount o = Json.Order.tax_amount d /\
  Order.shipping_cost o = Json.Order.shipping_cost d /\
  Order.total_amount o = Json.Order.total_amount d /\
  Order.status o = Json.Order.status d /\
  Order.created_at o = Json.Order.created_at d /\
  option_Forall2 invoice_represents (Order.invoice o) (Json.Order.invoice d) /\
  option_Forall2 shipment_represents (Order.shipment o) (Json.Order.shipment d).

(** The order line that checkout builds from a cart item, given the heap of
    products at that time. *)
Definition line_of_item (ps : gmap ref Product.t) (item : CartItem.t)
    (line : OrderLine.t) : Prop :=
  OrderLine.product line = CartItem.product item /\
  OrderLine.quantity line = CartItem.quantity item /\
  exists p, ps !! CartItem.product item = Some p /\
            OrderLine.unit_price line = Product.price p.

(** [product.price = p] on the product object [r] *)
Definition change_price (r : ref) (p : float) (w : World) : World :=
  Sys.set_products (alter (Product.set_price p) r (products w)) w.

(** What a run of [checkout] that reaches the payment step has done: [priced]
    is the local order after Step 3, [lines] the lines of its list and
    [payment] the answer of [process_order_payment]; [w] is the world at the
    call and [w'] the world at the return. *)
Record checkout_run (self : ApplicationController.t) (cart : ShoppingCart.t)
    (user : Customer.t) (w : World) (priced : Order.t) (lines : list OrderLine.t)
    (payment : bool * string) (w' : World) : Prop :=
  { run_lines : Forall2 (line_of_item (products w)) (ShoppingCart.items cart) lines;
    run_list : lists w' !! Order.order_lines priced = Some lines;
    run_products : products w' = products w;
    run_customer : Order.customer_id priced = Customer.customer_id user;
    run_status : Order.status priced = "Pending";
    run_invoice : Order.invoice priced = None;
    run_shipment : Order.shipment priced = None;
    run_totals :
      exists totals,
        Py.traverse OrderLine.get_line_total lines = Py.Ok totals /\
        Order.subtotal priced = Py.sum totals /\
        Order.total_amount priced =
          PricingService.get_total_with_tax_and_shipping
            (ApplicationController.pricing_service self) (Order.subtotal priced);
    run_payment :
      exists method w3 w4,
        In method (PaymentService.get_available_payment_methods
                     (ApplicationController.payment_service self)) /\
        PaymentService.process_order_payment
          (ApplicationController.payment_service self) priced method w3
        = Py.Ok (payment, w4) }.

(** The order as [checkout] leaves it after Steps 5 to 7. *)
Definition placed_order (priced : Order.t) (invoice : Invoice.t)
    (shipment : Shipment.t) : Order.t :=
  Order.set_shipment (Order.set_invoice (Order.set_status priced "Paid") invoice)
    shipment.

(** The lines a successful mock payment prints. *)
Definition payment_output (what tid : string) (amount : float) : list (list chunk) :=
  [[Text ("Processing " +:+ what +:+ " of $"); Money amount; Text "..."];
   [Text ("Payment approved! Transaction ID: " +:+ tid)]].

(** ** Sample session *)

Module Demo.
Definition product_a : Product.t :=
  Product.mk "p-a" "Product A" "first product" 0x1.dfd70a3d70a3dp+4%float 10.
Definition product_b : Product.t :=
  Product.mk "p-b" "Product B" "second product" 0x1.dfae147ae147bp+3%float 5.

Definition world (input : list string) : World :=
  mkWorld (fun n => "0f8fad5b-d9cb-469f-a165-7086728" +:+ pretty n) 0
    (fun n => "2025-11-04T10:00:0" +:+ pretty n) 0
    (<[1%positive := product_a]> (<[2%positive := product_b]> ∅)) ∅
    (Unparsed "") input [].

Definition ann : Customer.t :=
  Customer.mk "c-ann" "Ann" "ann@example.org" "secret"
    (Address.mk "1 Road" "Town" "1234" "Land") "2025-11-01T09:00:00".

Definition cart : ShoppingCart.t :=
  ShoppingCart.mk [CartItem.mk 1%positive 2; CartItem.mk 2%positive 1] "c-ann".

Definition tax_rate : float := 0x1.999999999999ap-4%float.   (* 0.10 *)
Definition shipping_cost : float := 5%float.                 (* 5.00 *)

Definition pricing : PricingService.t := PricingService.__init__ tax_rate shipping_cost.

Definition controller : ApplicationController.t :=
  ApplicationController.mk pricing PaymentService.__init__ (Some ann) (Some cart).

(** A gateway that declines, as a real one could. *)
Definition declining_gateway : PaymentGateway.t :=
  PaymentGateway.mk (fun amount order_id =>
    ([[Text "Card refused"]], (false, "CC-" +:+ Py.prefix 8 order_id +:+ "-DECLINED"))).

Definition declining_controller : ApplicationController.t :=
  ApplicationController.mk pricing
    (PaymentService.mk [("credit_card", declining_gateway)]) (Some ann) (Some cart).

(** An order with two lines, in a heap that holds them. *)
Definition lines : list OrderLine.t :=
  [OrderLine.mk 1%positive 2 0x1.dfd70a3d70a3dp+4%float;
   OrderLine.mk 2%positive 1 0x1.dfae147ae147bp+3%float].

Definition order_world : World :=
  Sys.set_lists (<[7%positive := lines]> ∅) (world []).

Definition order : Order.t :=
  Order.mk "0f8fad5b-0000" "c-ann" 7%positive 0 0 0 0 "Pending"
    "2025-11-04T10:00:00" None None.

Definition empty_order_world : World :=
  Sys.set_lists (<[7%positive := []]> ∅) (world []).

(** The dictionary of [order]. *)
Definition order_dict : Json.Order.t :=
  Json.Order.mk "0f8fad5b-0000" "c-ann"
    [Json.OrderLine.mk "p-a" "Product A" 2 0x1.dfd70a3d70a3dp+4%float
       0x1.dfd70a3d70a3dp+5%float;
     Json.OrderLine.mk "p-b" "Product B" 1 0x1.dfae147ae147bp+3%float
       0x1.dfae147ae147bp+3%float]
    0 0 0 0 "Pending" "2025-11-04T10:00:00" None None.

(** A second order of the same customer, and one of another customer. *)
Definition order_2 : Order.t :=
  Order.mk "7c9e6679-0000" "c-ann" 7%positive 0 0 0 0 "Pending"
    "2025-11-04T11:00:00" None None.

Definition order_bob : Order.t :=
  Order.mk "16fd2706-0000" "c-bob" 7%positive 0 0 0 0 "Pending"
    "2025-11-04T10:30:00" None None.

(** A line added to an order after checkout. *)
Definition extra_line : OrderLine.t :=
  OrderLine.mk 2%positive 3 0x1.dfae147ae147bp+3%float.

End Demo.

(** ** models.py: the other cart operations *)

(** The loop of [remove_item]: [Some items'] when an item of the product was
    found and popped, [None] when the loop ran to its end. *)
Fixpoint ShoppingCart_remove_item_loop (product_id : string)
    (items : list CartItem.t) : M (option (list CartItem.t)) :=
  match items with
  | [] => Py.ret None
  | item :: rest =>
      let* p := Sys.read_product (CartItem.product item) in
      if String.eqb (Product.product_id p) product_id
      then Py.ret (Some rest)
      else
        let* r := ShoppingCart_remove_item_loop product_id rest in
        Py.ret (cons item <$> r)
  end.

(** [ShoppingCart.remove_item]: the answer and the cart after the call. *)
Definition ShoppingCart_remove_item (self : ShoppingCart.t) (product_id : string)
  : M (bool * ShoppingCart.t) :=
  let* found := ShoppingCart_remove_item_loop product_id (ShoppingCart.items self) in
  match found with
  | Some items' => Py.ret (true, ShoppingCart.mk items' (ShoppingCart.customer_id self))
  | None => Py.ret (false, self)
  end.

Fixpoint ShoppingCart_update_item_quantity_loop (product_id : string)
    (new_quantity : Z) (items : list CartItem.t) : M (option (list CartItem.t)) :=
  match items with
  | [] => Py.ret None
  | item :: rest =>
      let* p := Sys.read_product (CartItem.product item) in
      if String.eqb (Product.product_id p) product_id
      then Py.ret (Some (CartItem.mk (CartItem.product item) new_quantity :: rest))
      else
        let* r := ShoppingCart_update_item_quantity_loop product_id new_quantity rest in
        Py.ret (cons item <$> r)
  end.

(** [ShoppingCart.update_item_quantity]: the answer and the cart after the call. *)
Definition ShoppingCart_update_item_quantity (self : ShoppingCart.t)
    (product_id : string) (new_quantity : Z) : M (bool * ShoppingCart.t) :=
  let* found :=
    ShoppingCart_update_item_quantity_loop product_id new_quantity
      (ShoppingCart.items self) in
  match found with
  | Some items' => Py.ret (true, ShoppingCart.mk items' (ShoppingCart.customer_id self))
  | None => Py.ret (false, self)
  end.

(** The product ids of the items of a cart, read from the heap of products;
    [None] when an item's product is not allocated. *)
Definition cart_product_ids (ps : gmap ref Product.t) (items : list CartItem.t)
  : option (list string) :=
  mapM (fun item => Product.product_id <$> ps !! CartItem.product item) items.

(** The item's product is allocated and has the product id [id]. *)
Definition item_has_id (ps : gmap ref Product.t) (item : CartItem.t) (id : string)
  : Prop :=
  Product.product_id <$> ps !! CartItem.product item = Some id.

(** ** services.py: the carrier adapter *)

Module CarrierAdapter.
Record t : Type := mk
  { mock_statuses : list string }.

Definition __init__ : t :=
  mk ["Order Confirmed"; "Processing"; "Shipped"; "In Transit";
      "Out for Delivery"; "Delivered"].

Inductive outcome (A : Type) : Type :=
| Returns (a : A)
| ZeroDivisionError
| IndexError.
Arguments Returns {A} a.
Arguments ZeroDivisionError {A}.
Arguments IndexError {A}.

(** [hash] is Python's [hash] on strings, which differs from one process to
    the next; [%] takes the sign of the divisor, as [Z.modulo] does. *)
Definition get_tracking_info (hash : string -> Z) (self : t)
    (tracking_number : string) : outcome (string * string) :=
  let n := Z.of_nat (length (mock_statuses self)) in
  if n =? 0 then ZeroDivisionError
  else
    let status_index := hash tracking_number `mod` n in
    match Py.index (mock_statuses self) status_index with
    | Py.Ok status => Returns (status, "2025-11-15")
    | Py.Raise _ => IndexError
    end.

(** [update_shipment_status]: the status returned and the shipment after
    the call. *)
Definition update_shipment_status (hash : string -> Z) (self : t)
    (shipment : Shipment.t) : outcome (string * Shipment.t) :=
  match get_tracking_info hash self (Shipment.tracking_number shipment) with
  | Returns (status, _) =>
      Returns (status,
               Shipment.mk (Shipment.shipment_id shipment) (Shipment.order_id shipment)
                 (Shipment.tracking_number shipment) status
                 (Shipment.created_at shipment))
  | ZeroDivisionError => ZeroDivisionError
  | IndexError => IndexError
  end.
End CarrierAdapter.

(** ** validators.py: quantities *)


(** ** ui.py: checkout from the payment on *)

(** The part of [checkout] that follows the choice of the payment method
    (the call of [process_order_payment] and Steps 5 to 9), for the order as
    priced in Step 3. *)
Definition checkout_from_payment (self : ApplicationController.t)
    (cart : ShoppingCart.t) (order : Order.t) (selected_method : string)
  : M (ApplicationController.checkout_exit * ApplicationController.t) :=
  let* payment :=
    PaymentService.process_order_payment
      (ApplicationController.payment_service self) order selected_method in
  if negb (fst payment)
  then Py.ret (ApplicationController.PaymentFailed order payment, self)
  else
    let order := Order.set_status order "Paid" in
    let* invoice :=
      Invoice.__init__ (Order.order_id order) (Order.customer_id order)
        (Order.order_lines order) (Order.subtotal order)
        (Order.tax_amount order) (Order.total_amount order) in
    let order := Order.set_invoice order invoice in
    let* shipment := Shipment.__init__ (Order.order_id order) in
    let order := Order.set_shipment order shipment in
    let* _ := OrderRepository.save order in
    Py.ret (ApplicationController.Completed order payment,
            ApplicationController.set_current_cart self (ShoppingCart.clear cart)).

(** ** The users file and the products file *)

(** The dictionaries of [Address.to_dict], [Customer.to_dict] and
    [Product.to_dict], with the keys as fields. *)
Module Dict.
Module Address.
Record t : Type := mk
  { street : string; city : string; postal_code : string; country : string }.
End Address.

Module Customer.
Record t : Type := mk
  { customer_id : string;
    name : string;
    email : string;
    password : string;
    address : Address.t;
    created_at : string }.
End Customer.

Module Product.
Record t : Type := mk
  { product_id : string;
    name : string;
    description : string;
    price : float;
    quantity_available : Z }.
End Product.
End Dict.

(** What [json.loads] makes of the text of a file of records. *)
Inductive json_file (A : Type) : Type :=
| NotJson (text : string)
    (** a text on which [json.loads] raises [JSONDecodeError], or the empty text *)
| JsonList (records : list A)
    (** a text that [json.loads] reads as this list of dictionaries *).
Arguments NotJson {A} text.
Arguments JsonList {A} records.

(** The world together with the users file and the products file. *)
Record Site : Type := mkSite
  { site_world : World;
    users_file : json_file Dict.Customer.t;
    products_file : json_file Dict.Product.t }.

Abbreviation MS := (Py.M Site).

Module Files.
Definition set_world (w : World) (s : Site) : Site :=
  mkSite w (users_file s) (products_file s).
Definition set_users_file (f : json_file Dict.Customer.t) (s : Site) : Site :=
  mkSite (site_world s) f (products_file s).
Definition set_products_file (f : json_file Dict.Product.t) (s : Site) : Site :=
  mkSite (site_world s) (users_file s) f.

(** A computation on the world, run on the world of the site. *)
Definition in_world {A} (c : M A) : MS A :=
  fun s => match c (site_world s) with
           | Py.Ok (a, w') => Py.Ok (a, set_world w' s)
           | Py.Raise e => Py.Raise e
           end.

(** What [_load_all] returns for a file. *)
Definition load {A} (f : json_file A) : list A :=
  match f with
  | NotJson "" => []          (* [... if content else []] *)
  | NotJson _ => []           (* [except json.JSONDecodeError] *)
  | JsonList records => records
  end.
End Files.

(** ** models.py: addresses, customers and products *)

Definition Address_to_dict (self : Address.t) : Dict.Address.t :=
  Dict.Address.mk (Address.street self) (Address.city self)
    (Address.postal_code self) (Address.country self).

Definition Address_from_dict (data : Dict.Address.t) : Address.t :=
  Address.mk (Dict.Address.street data) (Dict.Address.city data)
    (Dict.Address.postal_code data) (Dict.Address.country data).

(** [Customer(name, email, password, address)] *)
Definition Customer_init (name email password : string) (address : Address.t)
  : M Customer.t :=
  let* customer_id := Sys.uuid4 in
  let* created_at := Sys.now in
  Py.ret (Customer.mk customer_id name email password address created_at).

Definition Customer_to_dict (self : Customer.t) : Dict.Customer.t :=
  Dict.Customer.mk (Customer.customer_id self) (Customer.name self)
    (Customer.email self) (Customer.password self)
    (Address_to_dict (Customer.address self)) (Customer.created_at self).

(** Every key is present in a stored dictionary, so each [data.get(key,
    default)] yields the stored value. *)
Definition Customer_from_dict (data : Dict.Customer.t) : M Customer.t :=
  let address := Address_from_dict (Dict.Customer.address data) in
  let* customer :=
    Customer_init (Dict.Customer.name data) (Dict.Customer.email data)
      (Dict.Customer.password data) address in
  Py.ret (Customer.mk (Dict.Customer.customer_id data) (Customer.name customer)
            (Customer.email customer) (Customer.password customer)
            (Customer.address customer) (Dict.Customer.created_at data)).

(** A new [Product] object. *)
Definition Sys_new_product (p : Product.t) : M ref :=
  fun w => let r := fresh (dom (products w)) in
           Py.Ok (r, Sys.set_products (<[r := p]> (products w)) w).

(** [Product(name, description, price, quantity_available)] *)
Definition Product_init (name description : string) (price : float)
    (quantity_available : Z) : M ref :=
  let* product_id := Sys.uuid4 in
  Sys_new_product (Product.mk product_id name description price quantity_available).

Definition Product_to_dict (self : ref) : M Dict.Product.t :=
  let* p := Sys.read_product self in
  Py.ret (Dict.Product.mk (Product.product_id p) (Product.name p)
            (Product.description p) (Product.price p)
            (Product.quantity_available p)).

(** [float(x)] and [int(x)] of a stored number are that number. *)
Definition Product_from_dict (data : Dict.Product.t) : M ref :=
  let* product :=
    Product_init (Dict.Product.name data) (Dict.Product.description data)
      (Dict.Product.price data) (Dict.Product.quantity_available data) in
  let* p := Sys.read_product product in
  let* _ :=
    Py.modify (fun w =>
      Sys.set_products
        (<[product := Product.mk (Dict.Product.product_id data) (Product.name p)
                        (Product.description p) (Product.price p)
                        (Product.quantity_available p)]> (products w)) w) in
  Py.ret product.

(** ** repositories.py: customers and products *)

Module CustomerRepository.
Definition _load_all : MS (list Dict.Customer.t) :=
  let* content := Py.gets users_file in
  Py.ret (Files.load content).

Definition _write_all (customers : list Dict.Customer.t) : MS unit :=
  Py.modify (Files.set_users_file (JsonList customers)).

(** The loop of [save]: the index of the first stored customer with this
    email. *)
Fixpoint save_loop (email : string) (i : nat) (customers : list Dict.Customer.t)
  : option nat :=
  match customers with
  | [] => None
  | c :: rest =>
      if String.eqb (Dict.Customer.email c) email
      then Some i
      else save_loop email (S i) rest
  end.

Definition save (customer : Customer.t) : MS unit :=
  let* customers := _load_all in
  match save_loop (Customer.email customer) 0 customers with
  | Some i => _write_all (<[i := Customer_to_dict customer]> customers)
  | None => _write_all (customers ++ [Customer_to_dict customer])
  end.

Fixpoint find_by_email_loop (email : string) (customers : list Dict.Customer.t)
  : MS (option Customer.t) :=
  match customers with
  | [] => Py.ret None
  | c :: rest =>
      if String.eqb (Dict.Customer.email c) email
      then let* customer := Files.in_world (Customer_from_dict c) in
           Py.ret (Some customer)
      else find_by_email_loop email rest
  end.

Definition find_by_email (email : string) : MS (option Customer.t) :=
  let* customers := _load_all in
  find_by_email_loop email customers.

Fixpoint find_by_id_loop (customer_id : string) (customers : list Dict.Customer.t)
  : MS (option Customer.t) :=
  match customers with
  | [] => Py.ret None
  | c :: rest =>
      if String.eqb (Dict.Customer.customer_id c) customer_id
      then let* customer := Files.in_world (Customer_from_dict c) in
           Py.ret (Some customer)
      else find_by_id_loop customer_id rest
  end.

Definition find_by_id (customer_id : string) : MS (option Customer.t) :=
  let* customers := _load_all in
  find_by_id_loop customer_id customers.

Definition get_all : MS (list Customer.t) :=
  let* customers_data := _load_all in
  Py.mapM (fun c => Files.in_world (Customer_from_dict c)) customers_data.

Definition delete (email : string) : MS bool :=
  let* customers := _load_all in
  let original_count := length customers in
  let customers :=
    List.filter (fun c => negb (String.eqb (Dict.Customer.email c) email))
      customers in
  if (length customers <? original_count)%nat
  then let* _ := _write_all customers in Py.ret true
  else Py.ret false.
End CustomerRepository.

Module ProductRepository.
Definition _load_all : MS (list Dict.Product.t) :=
  let* content := Py.gets products_file in
  Py.ret (Files.load content).

Definition _write_all (products : list Dict.Product.t) : MS unit :=
  Py.modify (Files.set_products_file (JsonList products)).

Fixpoint save_loop (product_id : string) (i : nat) (products : list Dict.Product.t)
  : option nat :=
  match products with
  | [] => None
  | p :: rest =>
      if String.eqb (Dict.Product.product_id p) product_id
      then Some i
      else save_loop product_id (S i) rest
  end.

Definition save (product : ref) : MS unit :=
  let* products := _load_all in
  let* d := Files.in_world (Product_to_dict product) in
  match save_loop (Dict.Product.product_id d) 0 products with
  | Some i => _write_all (<[i := d]> products)
  | None => _write_all (products ++ [d])
  end.

Fixpoint find_by_id_loop (product_id : string) (products : list Dict.Product.t)
  : MS (option ref) :=
  match products with
  | [] => Py.ret None
  | p :: rest =>
      if String.eqb (Dict.Product.product_id p) product_id
      then let* product := Files.in_world (Product_from_dict p) in
           Py.ret (Some product)
      else find_by_id_loop product_id rest
  end.

Definition find_by_id (product_id : string) : MS (option ref) :=
  let* products := _load_all in
  find_by_id_loop product_id products.

Definition get_all : MS (list ref) :=
  let* products_data := _load_all in
  Py.mapM (fun p => Files.in_world (Product_from_dict p)) products_data.

Definition delete (product_id : string) : MS bool :=
  let* products := _load_all in
  let original_count := length products in
  let products :=
    List.filter (fun p => negb (String.eqb (Dict.Product.product_id p) product_id))
      products in
  if (length products <? original_count)%nat
  then let* _ := _write_all products in Py.ret true
  else Py.ret false.
End ProductRepository.

(** ** services.py: authentication and catalogue *)

Module AuthenticationService.
Definition register (name email password street city postal_code country : string)
  : MS (bool * string) :=
  let* existing_customer := CustomerRepository.find_by_email email in
  match existing_customer with
  | Some _ => Py.ret (false, "Email '" +:+ email +:+ "' is already registered.")
  | None =>
      let address := Address.mk street city postal_code country in
      let* new_customer :=
        Files.in_world (Customer_init name email password address) in
      let* _ := CustomerRepository.save new_customer in
      Py.ret (true, "Customer registered successfully! Customer ID: "
                      +:+ Customer.customer_id new_customer)
  end.

Definition login (email password : string) : MS (option Customer.t * string) :=
  let* customer := CustomerRepository.find_by_email email in
  match customer with
  | None => Py.ret (None, "Email '" +:+ email +:+ "' is not registered.")
  | Some c =>
      if negb (String.eqb (Customer.password c) password)
      then Py.ret (None, "Incorrect password.")
      else Py.ret (Some c, "Login successful!")
  end.
End AuthenticationService.

Module CatalogueService.
Definition get_all_products : MS (list ref) := ProductRepository.get_all.


End CatalogueService.

(** The customer records of the users file, as [_load_all] reads them. *)
Definition users (s : Site) : list Dict.Customer.t := Files.load (users_file s).

(** The product records of the products file, as [_load_all] reads them. *)
Definition catalogue (s : Site) : list Dict.Product.t := Files.load (products_file s).

(** ** Sample data for the further properties *)

Module Sample.
(** The sample world after the catalogue was read a second time: object 3
    is another [Product] object for product "p-a". *)
Definition world : World :=
  Sys.set_products (<[3%positive := Demo.product_a]> (products (Demo.world [])))
    (Demo.world []).

(** An invoice for [Demo.order], whose items is the list of its lines. *)
Definition invoice : Invoice.t :=
  Invoice.mk "a3bb189e-0000" "0f8fad5b-0000" "c-ann" "2025-11-04T10:05:00"
    "2025-11-04T10:05:01" 7%positive 0x1.2be147ae147aep+6%float
    0x1.dfced916872b0p+2%float 0x1.5dde353f7ced9p+6%float.

Definition invoice_dict : Json.Invoice.t :=
  Json.Invoice.mk "a3bb189e-0000" "0f8fad5b-0000" "c-ann" "2025-11-04T10:05:00"
    "2025-11-04T10:05:01" (Json.Order.order_lines Demo.order_dict)
    0x1.2be147ae147aep+6%float 0x1.dfced916872b0p+2%float
    0x1.5dde353f7ced9p+6%float.

(** A site with no user and no product registered yet. *)
Definition site : Site := mkSite (Demo.world []) (NotJson "") (JsonList []).

(** A site where Ann and Bob are registered. *)
Definition ann_dict : Dict.Customer.t :=
  Dict.Customer.mk "c-ann" "Ann" "ann@example.org" "secret"
    (Dict.Address.mk "1 Road" "Town" "1234" "Land") "2025-11-01T09:00:00".

Definition bob_dict : Dict.Customer.t :=
  Dict.Customer.mk "c-bob" "Bob" "bob@example.org" "hunter2"
    (Dict.Address.mk "2 Lane" "City" "5678" "Land") "2025-11-02T09:00:00".

Definition site_with_users : Site :=
  mkSite (Demo.world []) (JsonList [ann_dict; bob_dict]) (JsonList []).
End Sample.

(** * Properties *)

(** ** Python primitives *)

Example int_of_str_examples :
  Py.int_of_str " 2 " = Some 2 /\ Py.int_of_str "-1" = Some (-1) /\
  Py.int_of_str "1_0" = Some 10 /\ Py.int_of_str "1__0" = None /\
  Py.int_of_str "" = None /\ Py.int_of_str "2a" = None /\
  Py.int_of_str "+07" = Some 7.
Proof. repeat split; reflexivity. Qed.

Example index_examples :
  Py.index ["a"; "b"; "c"] 0 = Py.Ok "a" /\
  Py.index ["a"; "b"; "c"] (-1) = Py.Ok "c" /\
  Py.index ["a"; "b"; "c"] 3 = Py.Raise Py.IndexError /\
  Py.index (@nil string) (-1) = Py.Raise Py.IndexError.
Proof. repeat split; reflexivity. Qed.

Example float_of_int_examples :
  Py.float_of_int 3 = Py.Ok 3%float /\
  Py.float_of_int (2 ^ 53 + 1) = Py.Ok 9007199254740992%float /\
  Py.float_of_int (2 ^ 1024) = Py.Raise Py.OverflowError.
Proof. repeat split; vm_compute; reflexivity. Qed.

Section Monad.
Context {S A B : Type}.

Lemma bind_ok (c : Py.M S A) (k : A -> Py.M S B) s a s' :
  c s = Py.Ok (a, s') -> Py.bind c k s = k a s'.
Proof. intros H. unfold Py.bind. rewrite H. reflexivity. Qed.

Lemma bind_ok_inv (c : Py.M S A) (k : A -> Py.M S B) s r :
  Py.bind c k s = Py.Ok r ->
  exists a s', c s = Py.Ok (a, s') /\ k a s' = Py.Ok r.
Proof.
  unfold Py.bind. destruct (c s) as [[a s'] | e]; [eauto | discriminate].
Qed.

Lemma lift_ok_inv (r : Py.result A) (s : S) a s' :
  Py.lift r s = Py.Ok (a, s') -> r = Py.Ok a /\ s' = s.
Proof. destruct r; cbn; intros H; inversion H; auto. Qed.

Lemma deref_ok_inv (o : option A) (s : S) a s' :
  Py.deref o s = Py.Ok (a, s') -> o = Some a /\ s' = s.
Proof. destruct o; cbn; intros H; inversion H; auto. Qed.
End Monad.

(** ** Floating point *)

Lemma SFcompare_finite_refl s m e :
  SFcompare (S754_finite s m e) (S754_finite s m e) = Some Eq.
Proof.
  unfold SFcompare. rewrite Z.compare_refl.
  assert (H : Pos.compare_cont Eq m m = Eq) by apply Pos.compare_cont_refl.
  rewrite H. destruct s; reflexivity.
Qed.

(** With no lines the subtotal is [0] and the tax [0 * rate]; adding the
    shipping cost then gives the shipping cost, for a rate in [0, 1) and a
    shipping cost that is not negative (and hence not NaN). *)
Lemma float_empty_total (r s : float) :
  (0 <=? r)%float = true -> (r <? 1)%float = true -> (0 <=? s)%float = true ->
  (Py.zero + Py.zero * r + s =? s)%float = true.
Proof.
  intros Hr0 Hr1 Hs. unfold Py.zero.
  rewrite FloatAxioms.leb_spec in Hr0, Hs. rewrite FloatAxioms.ltb_spec in Hr1.
  rewrite FloatAxioms.eqb_spec, !FloatAxioms.add_spec, FloatAxioms.mul_spec.
  change (Prim2SF 0) with (S754_zero false) in *.
  change (Prim2SF 1) with (S754_finite false 4503599627370496 (-52)) in *.
  destruct (Prim2SF r) as [sr | sr | | sr mr er];
    destruct (Prim2SF s) as [ss | ss | | ss ms es];
    try destruct sr; try destruct ss; try discriminate;
    try reflexivity.
  all: cbn -[SFcompare]; unfold SFeqb; rewrite ?SFcompare_finite_refl; reflexivity.
Qed.

(** ** Order totals *)

Lemma calculate_totals_ok self tax_rate shipping_cost w lines totals :
  lists w !! Order.order_lines self = Some lines ->
  Py.traverse OrderLine.get_line_total lines = Py.Ok totals ->
  Order.calculate_totals self tax_rate shipping_cost w =
    Py.Ok (Order.mk (Order.order_id self) (Order.customer_id self)
             (Order.order_lines self) (Py.sum totals)
             (Py.sum totals * tax_rate)%float shipping_cost
             (Py.sum totals + Py.sum totals * tax_rate + shipping_cost)%float
             (Order.status self) (Order.created_at self)
             (Order.invoice self) (Order.shipment self), w).
Proof.
  intros Hl Ht. unfold Order.calculate_totals, Sys.read_list.
  unfold Py.bind at 1. rewrite Hl. cbn. unfold Py.bind, Py.lift.
  rewrite Ht. reflexivity.
Qed.

Lemma calculate_totals_inv self tax_rate shipping_cost w order' w' :
  Order.calculate_totals self tax_rate shipping_cost w = Py.Ok (order', w') ->
  exists lines totals,
    lists w !! Order.order_lines self = Some lines /\
    Py.traverse OrderLine.get_line_total lines = Py.Ok totals /\
    w' = w /\
    order' = Order.mk (Order.order_id self) (Order.customer_id self)
               (Order.order_lines self) (Py.sum totals)
               (Py.sum totals * tax_rate)%float shipping_cost
               (Py.sum totals + Py.sum totals * tax_rate + shipping_cost)%float
               (Order.status self) (Order.created_at self)
               (Order.invoice self) (Order.shipment self).
Proof.
  intros H. unfold Order.calculate_totals in H.
  apply bind_ok_inv in H as (lines & w1 & Hl & H).
  apply deref_ok_inv in Hl as [Hl ->].
  apply bind_ok_inv in H as (totals & w2 & Ht & H).
  apply lift_ok_inv in Ht as [Ht ->].
  exists lines, totals. cbn in H. inversion H; subst. repeat split; auto.
Qed.

(** C1. After [calculate_totals(tax_rate, shipping_cost)] the order's
    subtotal is the sum of its line totals, its tax is the subtotal times the
    rate, and its total is subtotal plus tax plus shipping cost; an order
    without lines gets subtotal 0 and a total equal to the shipping cost.
    The call returns whenever every line total can be computed. *)
Theorem calculate_totals_spec (self : Order.t) (tax_rate shipping_cost : float)
    (w : World) (lines : list OrderLine.t) (totals : list float) :
  lists w !! Order.order_lines self = Some lines ->
  Py.traverse OrderLine.get_line_total lines = Py.Ok totals ->
  (0 <=? tax_rate)%float = true -> (tax_rate <? 1)%float = true ->
  (0 <=? shipping_cost)%float = true ->
  exists order',
    Order.calculate_totals self tax_rate shipping_cost w = Py.Ok (order', w) /\
    Order.subtotal order' = Py.sum totals /\
    Order.tax_amount order' = (Order.subtotal order' * tax_rate)%float /\
    Order.shipping_cost order' = shipping_cost /\
    Order.total_amount order' =
      (Order.subtotal order' + Order.tax_amount order' + shipping_cost)%float /\
    (lines = [] ->
       Order.subtotal order' = 0%float /\
       (Order.total_amount order' =? shipping_cost)%float = true).
Proof.
  intros Hl Ht Hr0 Hr1 Hs. eexists. split.
  - eapply calculate_totals_ok; eassumption.
  - cbn. repeat split; try reflexivity.
    + subst lines. cbn in Ht. inversion Ht. reflexivity.
    + subst lines. cbn in Ht. inversion Ht. subst totals.
      apply (float_empty_total tax_rate shipping_cost); assumption.
Qed.

Lemma calculate_totals_spec_witness :
  exists order',
    Order.calculate_totals Demo.order Demo.tax_rate Demo.shipping_cost
      Demo.order_world = Py.Ok (order', Demo.order_world) /\
    Order.subtotal order' = 0x1.2be147ae147aep+6%float /\
    Order.total_amount order' = 0x1.5dde353f7ced9p+6%float.
Proof.
  destruct (calculate_totals_spec Demo.order Demo.tax_rate Demo.shipping_cost
              Demo.order_world Demo.lines
              [0x1.dfd70a3d70a3dp+5%float; 0x1.dfae147ae147bp+3%float])
    as (o' & Hrun & Hsub & Htax & Hship & Htot & _).
  - reflexivity.
  - vm_compute. reflexivity.
  - reflexivity.
  - reflexivity.
  - reflexivity.
  - exists o'. split; [exact Hrun |]. split.
    + rewrite Hsub. vm_compute. reflexivity.
    + rewrite Htot, Htax, Hsub. vm_compute. reflexivity.
Defined.

(** C10. The totals that [calculate_totals] stores on an order, called with
    the rate and the shipping cost of the pricing service, are the ones that
    the service's own [get_tax_amount] and [get_total_with_tax_and_shipping]
    compute from the order's subtotal. *)
Theorem pricing_computations_agree (service : PricingService.t) (order : Order.t)
    (w : World) (order' : Order.t) (w' : World) :
  Order.calculate_totals order (PricingService.tax_rate service)
      (PricingService.shipping_cost service) w = Py.Ok (order', w') ->
  Order.total_amount order' =
    PricingService.get_total_with_tax_and_shipping service (Order.subtotal order') /\
  Order.tax_amount order' =
    PricingService.get_tax_amount service (Order.subtotal order').
Proof.
  intros H. apply calculate_totals_inv in H as (lines & totals & _ & _ & _ & ->).
  split; reflexivity.
Qed.

Lemma pricing_computations_agree_witness :
  exists order',
    Order.calculate_totals Demo.order Demo.tax_rate Demo.shipping_cost
      Demo.order_world = Py.Ok (order', Demo.order_world) /\
    Order.total_amount order' =
      PricingService.get_total_with_tax_and_shipping Demo.pricing
        (Order.subtotal order') /\
    Order.total_amount order' = 0x1.5dde353f7ced9p+6%float.
Proof.
  eexists. split; [vm_compute; reflexivity |]. split.
  - eapply (pricing_computations_agree Demo.pricing Demo.order Demo.order_world).
    vm_compute. reflexivity.
  - reflexivity.
Defined.

(** ** Assembling the order lines *)

Lemma set_lists_id (w : World) : Sys.set_lists (lists w) w = w.
Proof. destruct w; reflexivity. Qed.

Lemma append_inv r x w u w' :
  Sys.append r x w = Py.Ok (u, w') ->
  exists l, lists w !! r = Some l /\
            w' = Sys.set_lists (<[r := l ++ [x]]> (lists w)) w.
Proof.
  intros H. unfold Sys.append in H.
  apply bind_ok_inv in H as (l & w1 & Hl & H).
  apply deref_ok_inv in Hl as [Hl ->].
  cbn in H. inversion H. eauto.
Qed.

Lemma append_ok r x w l :
  lists w !! r = Some l ->
  Sys.append r x w = Py.Ok (tt, Sys.set_lists (<[r := l ++ [x]]> (lists w)) w).
Proof.
  intros Hl. unfold Sys.append, Sys.read_list, Py.bind. rewrite Hl. reflexivity.
Qed.

Lemma add_lines_inv order items : forall w w' u lines0,
  ApplicationController.add_lines order items w = Py.Ok (u, w') ->
  lists w !! Order.order_lines order = Some lines0 ->
  exists new,
    Forall2 (line_of_item (products w)) items new /\
    w' = Sys.set_lists (<[Order.order_lines order := lines0 ++ new]> (lists w)) w.
Proof.
  induction items as [| item rest IH]; intros w w' u lines0 H Hl.
  - cbn in H. inversion H; subst. exists []. split; [constructor |].
    rewrite app_nil_r, insert_id by assumption. symmetry. apply set_lists_id.
  - cbn [ApplicationController.add_lines] in H.
    apply bind_ok_inv in H as (p & w1 & Hp & H).
    apply deref_ok_inv in Hp as [Hp ->].
    apply bind_ok_inv in H as (u1 & w1 & Ha & H).
    apply append_inv in Ha as (l & Hl' & ->).
    rewrite Hl in Hl'. inversion Hl'; subst l.
    eapply IH in H as (new & Hnew & ->);
      [| cbn; apply lookup_insert_eq].
    exists (OrderLine.mk (CartItem.product item) (CartItem.quantity item)
              (Product.price p) :: new). split.
    + constructor; [| exact Hnew].
      split; [reflexivity |]. split; [reflexivity |]. eauto.
    + cbn. rewrite insert_insert_eq, <- app_assoc. reflexivity.
Qed.

Lemma add_lines_ok order items : forall w lines0 new,
  lists w !! Order.order_lines order = Some lines0 ->
  Forall2 (line_of_item (products w)) items new ->
  ApplicationController.add_lines order items w =
    Py.Ok (tt, Sys.set_lists
                 (<[Order.order_lines order := lines0 ++ new]> (lists w)) w).
Proof.
  induction items as [| item rest IH]; intros w lines0 new Hl Hnew.
  - inversion Hnew; subst. cbn.
    rewrite app_nil_r, insert_id, set_lists_id by assumption. reflexivity.
  - inversion Hnew as [| ? line ? new' (Hprod & Hqty & p & Hp & Hprice) Hrest];
      subst.
    cbn [ApplicationController.add_lines].
    unfold Sys.read_product. unfold Py.bind at 1. rewrite Hp. cbn [Py.deref].
    unfold Order.add_line.
    erewrite bind_ok by (apply append_ok; exact Hl).
    erewrite IH; [| cbn; apply lookup_insert_eq | exact Hrest].
    cbn. rewrite insert_insert_eq, <- app_assoc.
    destruct line as [lp lq lu]. cbn in *. subst. reflexivity.
Qed.

(** The line totals of the assembled lines are the subtotals of the cart
    items. *)
Lemma cart_subtotals_of_lines w items lines totals :
  Forall2 (line_of_item (products w)) items lines ->
  Py.traverse OrderLine.get_line_total lines = Py.Ok totals ->
  Py.mapM CartItem.get_subtotal items w = Py.Ok (totals, w).
Proof.
  intros Hf. revert totals.
  induction Hf as [| item line items lines (Hprod & Hqty & p & Hp & Hprice) _ IH];
    intros totals Ht.
  - cbn in Ht. inversion Ht. reflexivity.
  - cbn in Ht. unfold OrderLine.get_line_total at 1 in Ht.
    rewrite Hprice, Hqty in Ht.
    destruct (Py.mul_float_int (Product.price p) (CartItem.quantity item))
      as [t |] eqn:Hm; [| discriminate].
    destruct (Py.traverse OrderLine.get_line_total lines) as [ts |] eqn:Hts;
      [| discriminate].
    inversion Ht; subst totals.
    cbn [Py.mapM]. unfold CartItem.get_subtotal, Sys.read_product.
    unfold Py.bind at 1. unfold Py.bind at 1. rewrite Hp. cbn [Py.deref].
    rewrite Hm. cbn [Py.lift].
    rewrite (bind_ok _ _ _ _ _ (IH ts eq_refl)). reflexivity.
Qed.

(** X30. The amounts of the cart preview are the totals that checkout stores on
    the order it assembles from the same cart: [order] is a new order, the
    lines are added from the cart and the totals calculated. *)
Theorem cart_preview_matches_order (self : ApplicationController.t)
    (cart : ShoppingCart.t) (order order' : Order.t) (w1 w2 w3 : World) u :
  lists w1 !! Order.order_lines order = Some [] ->
  ApplicationController.add_lines order (ShoppingCart.items cart) w1 = Py.Ok (u, w2) ->
  PricingService.calculate_order_total
    (ApplicationController.pricing_service self) order w2 = Py.Ok (order', w3) ->
  ApplicationController.view_cart_amounts self cart w1 =
    Py.Ok ((Order.subtotal order', Order.tax_amount order',
            Order.total_amount order'), w1).
Proof.
  intros Hl Hadd Hcalc.
  apply add_lines_inv with (lines0 := []) in Hadd as (new & Hnew & ->); [| exact Hl].
  apply calculate_totals_inv in Hcalc as (lines & totals & Hlines & Ht & _ & ->).
  cbn in Hlines. rewrite lookup_insert_eq in Hlines. inversion Hlines; subst lines.
  unfold ApplicationController.view_cart_amounts, ShoppingCart.get_subtotal.
  erewrite bind_ok; [| erewrite bind_ok;
                        [| eapply cart_subtotals_of_lines; eassumption]; reflexivity].
  reflexivity.
Qed.

(** ** Payment *)

Lemma process_order_payment_unknown self order payment_method w :
  PaymentService.lookup payment_method (PaymentService.payment_gateways self) = None ->
  PaymentService.process_order_payment self order payment_method w =
    Py.Ok ((false, "Invalid payment method: " +:+ payment_method), w).
Proof.
  intros H. unfold PaymentService.process_order_payment. rewrite H. reflexivity.
Qed.

(** Whatever the gateways, a payment changes nothing but the printed lines. *)
Lemma process_order_payment_inv self order payment_method w payment w' :
  PaymentService.process_order_payment self order payment_method w =
    Py.Ok (payment, w') ->
  exists out, w' = Sys.set_stdout out w.
Proof.
  unfold PaymentService.process_order_payment.
  destruct (PaymentService.lookup _ _) as [gateway |].
  - unfold PaymentGateway.call.
    destruct (PaymentGateway.process_payment gateway _ _) as [lines [success tid]].
    destruct success; cbn; intros H; inversion H; eauto.
  - cbn. intros H. inversion H; subst. exists (stdout w'). destruct w'; reflexivity.
Qed.

(** C5. With the registry of [PaymentService()], the three registered names
    are approved with a transaction id made of the gateway's tag, the first
    eight characters of the order id and "-SUCCESS"; every other name gets
    [(False, "Invalid payment method: ...")] and the world is left as it was:
    no gateway ran and nothing was printed. *)
Theorem process_order_payment_spec (order : Order.t) (payment_method : string)
    (w : World) :
  let service := PaymentService.__init__ in
  let fragment := Py.prefix 8 (Order.order_id order) in
  let amount := Order.total_amount order in
  (payment_method = "credit_card" ->
   PaymentService.process_order_payment service order payment_method w =
     Py.Ok ((true, "CC-" +:+ fragment +:+ "-SUCCESS"),
            Sys.set_stdout
              (stdout w ++
               payment_output "credit card payment"
                 ("CC-" +:+ fragment +:+ "-SUCCESS") amount) w)) /\
  (payment_method = "digital_wallet" ->
   PaymentService.process_order_payment service order payment_method w =
     Py.Ok ((true, "DW-" +:+ fragment +:+ "-SUCCESS"),
            Sys.set_stdout
              (stdout w ++
               payment_output "digital wallet payment"
                 ("DW-" +:+ fragment +:+ "-SUCCESS") amount) w)) /\
  (payment_method = "bank_transfer" ->
   PaymentService.process_order_payment service order payment_method w =
     Py.Ok ((true, "BT-" +:+ fragment +:+ "-SUCCESS"),
            Sys.set_stdout
              (stdout w ++
               payment_output "bank transfer"
                 ("BT-" +:+ fragment +:+ "-SUCCESS") amount) w)) /\
  (payment_method <> "credit_card" -> payment_method <> "digital_wallet" ->
   payment_method <> "bank_transfer" ->
   PaymentService.process_order_payment service order payment_method w =
     Py.Ok ((false, "Invalid payment method: " +:+ payment_method), w)).
Proof.
  cbn zeta. repeat split.
  - intros ->. cbn. rewrite <- app_assoc. reflexivity.
  - intros ->. cbn. rewrite <- app_assoc. reflexivity.
  - intros ->. cbn. rewrite <- app_assoc. reflexivity.
  - intros H1 H2 H3. apply process_order_payment_unknown. cbn -[String.eqb].
    rewrite !(proj2 (String.eqb_neq _ _)) by congruence. reflexivity.
Qed.

Lemma process_order_payment_spec_witness :
  PaymentService.process_order_payment PaymentService.__init__ Demo.order
    "credit_card" Demo.order_world =
    Py.Ok ((true, "CC-0f8fad5b-SUCCESS"),
           Sys.set_stdout
             [[Text "Processing credit card payment of $"; Money 0; Text "..."];
              [Text "Payment approved! Transaction ID: CC-0f8fad5b-SUCCESS"]]
             Demo.order_world) /\
  PaymentService.process_order_payment PaymentService.__init__ Demo.order
    "paypal" Demo.order_world =
    Py.Ok ((false, "Invalid payment method: paypal"), Demo.order_world).
Proof.
  destruct (process_order_payment_spec Demo.order "credit_card" Demo.order_world)
    as (Hcc & _).
  destruct (process_order_payment_spec Demo.order "paypal" Demo.order_world)
    as (_ & _ & _ & Hbad).
  split.
  - rewrite Hcc by reflexivity. reflexivity.
  - apply Hbad; discriminate.
Defined.

(** No registered method declines. *)
Lemma registered_methods_approve order payment_method w payment w' :
  In payment_method
    (PaymentService.get_available_payment_methods PaymentService.__init__) ->
  PaymentService.process_order_payment PaymentService.__init__ order
    payment_method w = Py.Ok (payment, w') ->
  fst payment = true.
Proof.
  cbn. intros [<- | [<- | [<- | []]]] H; cbn in H; inversion H; reflexivity.
Qed.

(** ** Reading and writing dictionaries *)

Lemma load_all_eq (w : World) :
  OrderRepository._load_all w = Py.Ok (stored w, w).
Proof.
  unfold OrderRepository._load_all, stored, Py.bind, Py.gets.
  destruct (orders_file w) as [text | records]; [destruct text |]; reflexivity.
Qed.

Lemma traverse_length {A B} (f : A -> Py.result B) l : forall l',
  Py.traverse f l = Py.Ok l' -> length l' = length l.
Proof.
  induction l as [| x l IH]; intros l' H; cbn in H.
  - inversion H. reflexivity.
  - destruct (f x); [| discriminate].
    destruct (Py.traverse f l) as [ys |]; [| discriminate].
    inversion H. cbn. f_equal. apply IH. reflexivity.
Qed.

Lemma invoice_to_dict_inv i w d w' :
  Invoice.to_dict i w = Py.Ok (d, w') -> w' = w.
Proof.
  unfold Invoice.to_dict. intros H.
  apply bind_ok_inv in H as (lines & w1 & Hl & H).
  apply deref_ok_inv in Hl as [_ ->].
  cbn in H. apply bind_ok_inv in H as (ds & w2 & Hd & H).
  apply lift_ok_inv in Hd as [_ ->]. cbn in H. inversion H. reflexivity.
Qed.

(** [to_dict] only reads, and writes the order's values under their keys. *)
Lemma order_to_dict_inv order w d w' :
  Order.to_dict order w = Py.Ok (d, w') ->
  w' = w /\
  exists lines,
    lists w !! Order.order_lines order = Some lines /\
    length (Json.Order.order_lines d) = length lines /\
    Json.Order.order_id d = Order.order_id order /\
    Json.Order.customer_id d = Order.customer_id order /\
    Json.Order.subtotal d = Order.subtotal order /\
    Json.Order.tax_amount d = Order.tax_amount order /\
    Json.Order.shipping_cost d = Order.shipping_cost order /\
    Json.Order.total_amount d = Order.total_amount order /\
    Json.Order.status d = Order.status order /\
    Json.Order.created_at d = Order.created_at order.
Proof.
  unfold Order.to_dict. intros H.
  apply bind_ok_inv in H as (lines & w1 & Hl & H).
  apply deref_ok_inv in Hl as [Hl ->].
  cbn in H. apply bind_ok_inv in H as (ds & w2 & Hd & H).
  apply lift_ok_inv in Hd as [Hd ->].
  apply bind_ok_inv in H as (inv & w3 & Hi & H).
  assert (w3 = w) as ->.
  { destruct (Order.invoice order) as [i |].
    - apply bind_ok_inv in Hi as (di & w4 & Hi & Hr).
      apply invoice_to_dict_inv in Hi as ->. cbn in Hr. inversion Hr. reflexivity.
    - cbn in Hi. inversion Hi. reflexivity. }
  cbn in H. inversion H; subst. split; [reflexivity |].
  exists lines. cbn. apply traverse_length in Hd. auto 12.
Qed.

(** [from_dict] always returns: the order carries the dictionary's values
    and a new, empty list of lines; the heap only grows. *)
Lemma order_from_dict_spec (d : Json.Order.t) (w : World) :
  exists order w',
    Order.from_dict d w = Py.Ok (order, w') /\
    order_represents order d /\
    lists w' !! Order.order_lines order = Some [] /\
    orders_file w' = orders_file w /\
    products w' = products w /\
    stdin w' = stdin w /\
    stdout w' = stdout w.
Proof.
  destruct d as [oid cid ls sub tax ship tot st cr inv shp].
  set (r := fresh (dom (lists w))).
  assert (Hfresh : forall m : gmap ref (list OrderLine.t),
             <[fresh (dom (<[r := []]> m)) := []]> (<[r := []]> m) !! r = Some []).
  { intros m. rewrite lookup_insert_ne; [apply lookup_insert_eq |].
    intros Heq. pose proof (is_fresh (dom (<[r := @nil OrderLine.t]> m))) as Hn.
    rewrite Heq in Hn. apply Hn. rewrite dom_insert. set_solver. }
  destruct inv as [[iid ioid icid idate idue iitems isub itax itot] |];
    destruct shp as [[sid soid strk sst scr] |];
    eexists; eexists; (split; [cbn; reflexivity |]);
    cbn; repeat split; try apply Hfresh; try apply lookup_insert_eq;
    try (constructor; repeat split; reflexivity); try constructor.
Qed.

(** ** Order repository *)

Lemma save_loop_Some id orders : forall k i,
  OrderRepository.save_loop id k orders = Some i ->
  exists before old after,
    orders = before ++ old :: after /\
    Forall (fun o => Json.Order.order_id o <> id) before /\
    Json.Order.order_id old = id /\
    i = (k + length before)%nat.
Proof.
  induction orders as [| o rest IH]; intros k i H; cbn in H; [discriminate |].
  destruct (String.eqb (Json.Order.order_id o) id) eqn:E.
  - inversion H; subst. apply String.eqb_eq in E.
    exists [], o, rest. cbn. repeat split; auto with lia.
  - apply String.eqb_neq in E.
    apply IH in H as (before & old & after & -> & Hb & Hold & ->).
    exists (o :: before), old, after. cbn. repeat split; auto with lia.
Qed.

Lemma save_loop_None id orders : forall k,
  OrderRepository.save_loop id k orders = None ->
  Forall (fun o => Json.Order.order_id o <> id) orders.
Proof.
  induction orders as [| o rest IH]; intros k H; cbn in H; [constructor |].
  destruct (String.eqb (Json.Order.order_id o) id) eqn:E; [discriminate |].
  apply String.eqb_neq in E. constructor; eauto.
Qed.

Lemma save_loop_app id before old after :
  Forall (fun o => Json.Order.order_id o <> id) before ->
  Json.Order.order_id old = id ->
  forall k, OrderRepository.save_loop id k (before ++ old :: after)
            = Some (k + length before)%nat.
Proof.
  intros Hb Hold. induction Hb as [| o before Ho _ IH]; intros k; cbn.
  - rewrite (proj2 (String.eqb_eq _ _) Hold). f_equal. lia.
  - rewrite (proj2 (String.eqb_neq _ _) Ho), IH. f_equal. lia.
Qed.

Lemma count_id_none id records :
  Forall (fun o => Json.Order.order_id o <> id) records -> count_id id records = 0%nat.
Proof.
  unfold count_id. induction 1 as [| o l Ho _ IH]; [reflexivity |].
  rewrite filter_cons_False by assumption. exact IH.
Qed.

Lemma count_id_split id before old after :
  Forall (fun o => Json.Order.order_id o <> id) before ->
  Json.Order.order_id old = id ->
  count_id id (before ++ old :: after) = S (count_id id after).
Proof.
  intros Hb Hold. pose proof (count_id_none id before Hb) as H0.
  unfold count_id in *. rewrite filter_app, length_app, H0.
  rewrite filter_cons_True by assumption. reflexivity.
Qed.

Lemma count_id_zero id records :
  count_id id records = 0%nat ->
  Forall (fun o => Json.Order.order_id o <> id) records.
Proof.
  unfold count_id. induction records as [| o l IH]; [constructor |].
  destruct (decide (Json.Order.order_id o = id)) as [E | E].
  - rewrite filter_cons_True by assumption. discriminate.
  - rewrite filter_cons_False by assumption. auto.
Qed.

Lemma stored_set_orders_file records w :
  stored (Sys.set_orders_file (Parsed records) w) = records.
Proof. reflexivity. Qed.

(** What [save] does, given the dictionary of the order. *)
Lemma save_ok order w d :
  Order.to_dict order w = Py.Ok (d, w) ->
  OrderRepository.save order w =
    Py.Ok (tt, Sys.set_orders_file
                 (Parsed
                    match OrderRepository.save_loop (Order.order_id order) 0 (stored w) with
                    | Some i => <[i := d]> (stored w)
                    | None => stored w ++ [d]
                    end) w).
Proof.
  intros Hd. unfold OrderRepository.save.
  rewrite (bind_ok _ _ _ _ _ (load_all_eq w)).
  destruct (OrderRepository.save_loop _ _ _);
    rewrite (bind_ok _ _ _ _ _ Hd); reflexivity.
Qed.

Lemma save_inv order w u w' :
  OrderRepository.save order w = Py.Ok (u, w') ->
  exists d, Order.to_dict order w = Py.Ok (d, w).
Proof.
  unfold OrderRepository.save. rewrite (bind_ok _ _ _ _ _ (load_all_eq w)).
  destruct (OrderRepository.save_loop _ _ _); intros H;
    apply bind_ok_inv in H as (d & w1 & Hd & _);
    pose proof (order_to_dict_inv _ _ _ _ Hd) as [-> _]; eauto.
Qed.

(** [to_dict] does not read the orders file. *)
Lemma order_to_dict_frame order w f :
  Order.to_dict order (Sys.set_orders_file f w) =
  match Order.to_dict order w with
  | Py.Ok (d, w') => Py.Ok (d, Sys.set_orders_file f w')
  | Py.Raise e => Py.Raise e
  end.
Proof.
  unfold Order.to_dict, Sys.read_list, Py.bind, Py.deref, Py.gets, Py.lift. cbn.
  destruct (lists w !! Order.order_lines order) as [lines |]; [| reflexivity].
  destruct (Py.traverse _ lines); [| reflexivity].
  destruct (Order.invoice order) as [i |]; [| reflexivity].
  unfold Invoice.to_dict, Sys.read_list, Py.bind, Py.deref, Py.gets, Py.lift. cbn.
  destruct (lists w !! Invoice.items i) as [items |]; [| reflexivity].
  destruct (Py.traverse _ items); reflexivity.
Qed.

(** C6. [save] is an upsert keyed by the order id: when a stored record has
    the id, the first such record is replaced where it stands and all other
    records stay; otherwise the record is appended.  Saving never adds a
    second record for an id, so in a store that holds each id at most once,
    saving an order a second time leaves exactly one record for its id,
    the one written last. *)
Theorem save_is_upsert (order : Order.t) (w : World) (d : Json.Order.t) :
  Order.to_dict order w = Py.Ok (d, w) ->
  let id := Order.order_id order in
  exists w',
    OrderRepository.save order w = Py.Ok (tt, w') /\
    w' = Sys.set_orders_file (Parsed (stored w')) w /\
    ((exists before old after,
         stored w = before ++ old :: after /\
         Forall (fun o => Json.Order.order_id o <> id) before /\
         Json.Order.order_id old = id /\
         stored w' = before ++ d :: after)
     \/
     (Forall (fun o => Json.Order.order_id o <> id) (stored w) /\
      stored w' = stored w ++ [d])) /\
    count_id id (stored w') = Nat.max 1 (count_id id (stored w)) /\
    forall order2 d2,
      Order.order_id order2 = id ->
      Order.to_dict order2 w' = Py.Ok (d2, w') ->
      exists w'' before after,
        OrderRepository.save order2 w' = Py.Ok (tt, w'') /\
        stored w'' = before ++ d2 :: after /\
        Forall (fun o => Json.Order.order_id o <> id) before /\
        length (stored w'') = length (stored w') /\
        count_id id (stored w'') = Nat.max 1 (count_id id (stored w)) /\
        ((count_id id (stored w) <= 1)%nat ->
         count_id id (stored w'') = 1%nat /\
         Forall (fun o => Json.Order.order_id o <> id) after).
Proof.
  intros Hd id.
  pose proof (order_to_dict_inv _ _ _ _ Hd) as (_ & _ & _ & _ & Hid & _).
  fold id in Hid.
  (* the first save *)
  assert (Hfirst : exists before after,
             (match OrderRepository.save_loop id 0 (stored w) with
              | Some i => <[i := d]> (stored w)
              | None => stored w ++ [d]
              end) = before ++ d :: after /\
             Forall (fun o => Json.Order.order_id o <> id) before /\
             count_id id after = Nat.pred (count_id id (stored w)) /\
             ((exists old, stored w = before ++ old :: after /\
                           Json.Order.order_id old = id)
              \/ (after = [] /\ stored w = before))).
  { destruct (OrderRepository.save_loop id 0 (stored w)) as [i |] eqn:E.
    - apply save_loop_Some in E as (before & old & after & Hs & Hb & Hold & ->).
      exists before, after. rewrite Hs. cbn [Nat.add].
      rewrite insert_app_r_alt by lia. rewrite Nat.sub_diag. cbn.
      rewrite (count_id_split id before old after) by assumption.
      split; [reflexivity |]. split; [assumption |]. split; [reflexivity |].
      left. eauto.
    - apply save_loop_None in E. exists (stored w), [].
      rewrite (count_id_none _ _ E).
      split; [reflexivity |]. split; [assumption |]. split; [reflexivity |].
      right. auto. }
  destruct Hfirst as (before & after & Hnew & Hb & Hcount & Hcases).
  eexists. split; [apply save_ok; exact Hd |].
  fold id. rewrite Hnew, !stored_set_orders_file.
  split; [reflexivity |]. split.
  { destruct Hcases as [(old & Hs & Hold) | (-> & Hs)].
    - left. exists before, old, after. auto.
    - right. rewrite Hs. auto. }
  split.
  { rewrite (count_id_split id before d after) by assumption.
    rewrite Hcount. destruct (count_id id (stored w)); reflexivity. }
  (* the second save *)
  intros order2 d2 Hid2 Hd2.
  pose proof (order_to_dict_inv _ _ _ _ Hd2) as (_ & _ & _ & _ & Hid2' & _).
  rewrite Hid2 in Hid2'.
  exists (Sys.set_orders_file (Parsed (before ++ d2 :: after)) w), before, after.
  split.
  { rewrite (save_ok _ _ _ Hd2). rewrite Hid2. fold id.
    rewrite !stored_set_orders_file.
    rewrite (save_loop_app id before d after Hb Hid 0). cbn [Nat.add].
    rewrite insert_app_r_alt by lia. rewrite Nat.sub_diag. reflexivity. }
  rewrite !stored_set_orders_file.
  split; [reflexivity |]. split; [exact Hb |].
  split; [rewrite !length_app; reflexivity |].
  rewrite (count_id_split id before d2 after) by assumption.
  rewrite Hcount. split.
  - destruct (count_id id (stored w)); reflexivity.
  - intros Hle. split.
    + destruct (count_id id (stored w)) as [| [| n]]; [reflexivity | reflexivity | lia].
    + apply count_id_zero. rewrite Hcount. lia.
Qed.

Lemma save_is_upsert_witness :
  exists w1 w2,
    OrderRepository.save Demo.order Demo.order_world = Py.Ok (tt, w1) /\
    OrderRepository.save Demo.order w1 = Py.Ok (tt, w2) /\
    stored w1 = [Demo.order_dict] /\
    stored w2 = [Demo.order_dict].
Proof.
  assert (Hd : Order.to_dict Demo.order Demo.order_world =
               Py.Ok (Demo.order_dict, Demo.order_world))
    by (vm_compute; reflexivity).
  destruct (save_is_upsert Demo.order Demo.order_world Demo.order_dict Hd)
    as (w1 & Hsave & Hw1 & _ & _ & Hagain).
  assert (Hs1 : stored w1 = [Demo.order_dict]).
  { rewrite (save_ok _ _ _ Hd) in Hsave. inversion Hsave. reflexivity. }
  assert (Hd1 : Order.to_dict Demo.order w1 = Py.Ok (Demo.order_dict, w1)).
  { rewrite Hw1, order_to_dict_frame, Hd. reflexivity. }
  destruct (Hagain Demo.order Demo.order_dict eq_refl Hd1)
    as (w2 & before & after & Hsave2 & _).
  exists w1, w2. repeat split; try assumption.
  rewrite (save_ok _ _ _ Hd1), Hs1 in Hsave2. inversion Hsave2. reflexivity.
Defined.

(** The records after [save]: the first record with the id replaced where it
    stands, or the record appended. *)
Lemma save_cases order w d :
  Order.to_dict order w = Py.Ok (d, w) ->
  exists w',
    OrderRepository.save order w = Py.Ok (tt, w') /\
    w' = Sys.set_orders_file (Parsed (stored w')) w /\
    ((exists before old after,
         stored w = before ++ old :: after /\
         Forall (fun o => Json.Order.order_id o <> Order.order_id order) before /\
         Json.Order.order_id old = Order.order_id order /\
         stored w' = before ++ d :: after)
     \/
     (Forall (fun o => Json.Order.order_id o <> Order.order_id order) (stored w) /\
      stored w' = stored w ++ [d])).
Proof.
  intros Hd. eexists. split; [apply save_ok; exact Hd |].
  rewrite !stored_set_orders_file. split; [reflexivity |].
  destruct (OrderRepository.save_loop (Order.order_id order) 0 (stored w))
    as [i |] eqn:E.
  - apply save_loop_Some in E as (before & old & after & Hs & Hb & Hold & ->).
    left. exists before, old, after.
    split; [exact Hs |]. split; [exact Hb |]. split; [exact Hold |].
    rewrite Hs. cbn [Nat.add]. rewrite insert_app_r_alt by lia.
    rewrite Nat.sub_diag. reflexivity.
  - apply save_loop_None in E. right. split; [exact E | reflexivity].
Qed.

(** X29. The ids of the store stay distinct under [save]. *)
Lemma save_keeps_ids_distinct order w u w' :
  NoDup (Json.Order.order_id <$> stored w) ->
  OrderRepository.save order w = Py.Ok (u, w') ->
  NoDup (Json.Order.order_id <$> stored w').
Proof.
  intros Hnd Hsave. destruct (save_inv _ _ _ _ Hsave) as (d & Hd).
  destruct (save_cases order w d Hd) as (w1 & Hsave1 & _ & Hcases).
  rewrite Hsave in Hsave1. inversion Hsave1; subst w1.
  pose proof (order_to_dict_inv _ _ _ _ Hd) as (_ & _ & _ & _ & Hid & _).
  destruct Hcases as [(before & old & after & Hs & _ & Hold & ->) | (Hall & ->)].
  - rewrite Hs in Hnd. rewrite fmap_app in *. cbn in *.
    rewrite Hid. rewrite Hold in Hnd. exact Hnd.
  - rewrite fmap_app. cbn. apply NoDup_app. split; [exact Hnd |]. split.
    + intros x Hx [Hy | []]%list_elem_of_In. subst x.
      apply list_elem_of_fmap in Hx as (o & Ho & Hin).
      rewrite Forall_forall in Hall. apply (Hall o); [exact Hin | congruence].
    + apply NoDup_singleton.
Qed.

Lemma find_by_id_loop_first id before d after w :
  Forall (fun o => Json.Order.order_id o <> id) before ->
  Json.Order.order_id d = id ->
  OrderRepository.find_by_id_loop id (before ++ d :: after) w =
    (let* order := Order.from_dict d in Py.ret (Some order)) w.
Proof.
  intros Hb Hd. induction Hb as [| o before Ho _ IH]; cbn [app OrderRepository.find_by_id_loop].
  - rewrite (proj2 (String.eqb_eq _ _) Hd). reflexivity.
  - rewrite (proj2 (String.eqb_neq _ _) Ho). exact IH.
Qed.




(** Two orders of one customer, saved with another customer's order between
    them, come back in the order they were saved. *)
Example find_by_customer_id_insertion_order :
  exists found w',
    (let* _ := OrderRepository.save Demo.order in
     let* _ := OrderRepository.save Demo.order_bob in
     let* _ := OrderRepository.save Demo.order_2 in
     OrderRepository.find_by_customer_id "c-ann") Demo.order_world
    = Py.Ok (found, w') /\
    Order.order_id <$> found = ["0f8fad5b-0000"; "7c9e6679-0000"].
Proof.
  eexists. eexists. split; [vm_compute; reflexivity | reflexivity].
Qed.



(** C9. An order saved and read back by its id keeps its id, customer,
    status and amounts, but comes back without lines: the stored record holds
    one dictionary per line, and the order read from it has an empty list. *)
Theorem save_then_find_loses_lines (order : Order.t) (w : World)
    (d : Json.Order.t) (lines : list OrderLine.t) :
  lists w !! Order.order_lines order = Some lines ->
  lines <> [] ->
  Order.to_dict order w = Py.Ok (d, w) ->
  exists w1 found w2,
    OrderRepository.save order w = Py.Ok (tt, w1) /\
    OrderRepository.find_by_id (Order.order_id order) w1 = Py.Ok (Some found, w2) /\
    Order.order_id found = Order.order_id order /\
    Order.customer_id found = Order.customer_id order /\
    Order.status found = Order.status order /\
    Order.subtotal found = Order.subtotal order /\
    Order.tax_amount found = Order.tax_amount order /\
    Order.shipping_cost found = Order.shipping_cost order /\
    Order.total_amount found = Order.total_amount order /\
    lists w2 !! Order.order_lines found = Some [] /\
    In d (stored w1) /\
    length (Json.Order.order_lines d) = length lines.
Proof.
  intros Hl Hne Hd.
  destruct (save_is_upsert order w d Hd) as (w1 & Hsave & Hw1 & Hcases & _).
  pose proof (order_to_dict_inv _ _ _ _ Hd)
    as (_ & lines' & Hl' & Hlen & Hid & Hcid & Hsub & Htax & Hship & Htot & Hst & _).
  rewrite Hl in Hl'. inversion Hl'; subst lines'.
  assert (Hsplit : exists before after,
             stored w1 = before ++ d :: after /\
             Forall (fun o => Json.Order.order_id o <> Order.order_id order) before).
  { destruct Hcases as [(before & old & after & _ & Hb & _ & ->) | (Hall & ->)].
    - eauto.
    - exists (stored w), []. auto. }
  destruct Hsplit as (before & after & Hs1 & Hb).
  destruct (order_from_dict_spec d w1)
    as (found & w2 & Hfrom & Hrep & Hempty & _).
  destruct Hrep as (Rid & Rcid & Rsub & Rtax & Rship & Rtot & Rst & _).
  exists w1, found, w2. split; [exact Hsave |]. split.
  { unfold OrderRepository.find_by_id.
    rewrite (bind_ok _ _ _ _ _ (load_all_eq w1)), Hs1.
    rewrite (find_by_id_loop_first _ _ _ _ _ Hb Hid).
    rewrite (bind_ok _ _ _ _ _ Hfrom). reflexivity. }
  repeat split; try congruence.
  rewrite Hs1. apply in_or_app. right. left. reflexivity.
Qed.

Lemma save_then_find_loses_lines_witness :
  exists w1 found w2,
    OrderRepository.save Demo.order Demo.order_world = Py.Ok (tt, w1) /\
    OrderRepository.find_by_id "0f8fad5b-0000" w1 = Py.Ok (Some found, w2) /\
    Order.customer_id found = "c-ann" /\
    lists w2 !! Order.order_lines found = Some [] /\
    In Demo.order_dict (stored w1) /\
    length (Json.Order.order_lines Demo.order_dict) = 2%nat.
Proof.
  destruct (save_then_find_loses_lines Demo.order Demo.order_world
              Demo.order_dict Demo.lines)
    as (w1 & found & w2 & Hsave & Hfind & _ & Hcid & _ & _ & _ & _ & _ & He & Hin & Hlen).
  - reflexivity.
  - discriminate.
  - vm_compute. reflexivity.
  - exists w1, found, w2. auto 10.
Defined.

(** ** Checkout *)

Lemma validate_menu_choice_valid choice_str max_option choice msg :
  InputValidator.validate_menu_choice choice_str max_option = (true, choice, msg) ->
  0 <= choice <= max_option.
Proof.
  unfold InputValidator.validate_menu_choice.
  destruct (String.eqb choice_str "" || String.eqb (Py.strip choice_str) "");
    [discriminate |].
  destruct (Py.int_of_str (Py.strip choice_str)) as [c |]; [| discriminate].
  destruct ((c <? 0) || (max_option <? c)) eqn:E; [discriminate |].
  intros H. inversion H; subst.
  apply orb_false_iff in E as [E1 E2]. lia.
Qed.

Lemma ask_choice_inv max_option fuel : forall w choice w',
  ApplicationController.ask_choice fuel max_option w = Py.Ok (choice, w') ->
  0 <= choice <= max_option /\ exists rest, w' = Sys.set_stdin rest w.
Proof.
  induction fuel as [| fuel IH]; intros w choice w' H; [discriminate |].
  cbn [ApplicationController.ask_choice] in H.
  apply bind_ok_inv in H as (line & w1 & Hin & H).
  unfold Sys.input in Hin. destruct (stdin w) as [| l rest]; [discriminate |].
  inversion Hin; subst line w1.
  destruct (InputValidator.validate_menu_choice (Py.strip l) max_option)
    as [[valid c] msg] eqn:Hv.
  destruct valid.
  - cbn in H. inversion H; subst.
    split; [eapply validate_menu_choice_valid; exact Hv | eauto].
  - apply IH in H as [Hc (rest' & ->)]. split; [exact Hc |]. exists rest'.
    reflexivity.
Qed.

Lemma select_choice_inv max_option w choice w' :
  ApplicationController.select_choice max_option w = Py.Ok (choice, w') ->
  0 <= choice <= max_option /\ exists rest, w' = Sys.set_stdin rest w.
Proof.
  unfold ApplicationController.select_choice. intros H.
  apply bind_ok_inv in H as (lines & w1 & Hg & H). cbn in Hg. inversion Hg; subst.
  eapply ask_choice_inv. exact H.
Qed.

Lemma index_In {A} (l : list A) i x : Py.index l i = Py.Ok x -> In x l.
Proof.
  unfold Py.index.
  destruct ((0 <=? _) && (_ <? _)); [| discriminate].
  destruct (l !! _) as [y |] eqn:E; [| discriminate].
  intros H. inversion H; subst. apply list_elem_of_In.
  eapply list_elem_of_lookup_2. exact E.
Qed.

Lemma order_init_inv cid w order w1 :
  Order.__init__ cid w = Py.Ok (order, w1) ->
  Order.customer_id order = cid /\
  Order.status order = "Pending" /\
  Order.invoice order = None /\
  Order.shipment order = None /\
  lists w !! Order.order_lines order = None /\
  w1 = Sys.set_time_count (S (time_count w))
         (Sys.set_lists (<[Order.order_lines order := []]> (lists w))
            (Sys.set_uuid_count (S (uuid_count w)) w)).
Proof.
  intros H. cbv [Order.__init__ Py.bind Sys.uuid4 Sys.new_list Sys.now Py.ret] in H.
  inversion H; subst; clear H. cbn.
  repeat split.
  apply not_elem_of_dom. apply is_fresh.
Qed.

Lemma invoice_init_inv order_id customer_id order_lines subtotal tax total w invoice w1 :
  Invoice.__init__ order_id customer_id order_lines subtotal tax total w
    = Py.Ok (invoice, w1) ->
  Invoice.order_id invoice = order_id /\
  Invoice.customer_id invoice = customer_id /\
  Invoice.items invoice = order_lines /\
  Invoice.subtotal invoice = subtotal /\
  Invoice.tax_amount invoice = tax /\
  Invoice.total_amount invoice = total /\
  w1 = Sys.set_time_count (S (S (time_count w)))
         (Sys.set_uuid_count (S (uuid_count w)) w).
Proof.
  intros H. cbv [Invoice.__init__ Py.bind Sys.uuid4 Sys.now Py.ret] in H.
  inversion H; subst; clear H. cbn. repeat split.
Qed.

Lemma shipment_init_inv order_id w shipment w1 :
  Shipment.__init__ order_id w = Py.Ok (shipment, w1) ->
  Shipment.order_id shipment = order_id /\
  Shipment.status shipment = "Pending" /\
  w1 = Sys.set_time_count (S (time_count w))
         (Sys.set_uuid_count (S (uuid_count w)) w).
Proof.
  intros H. cbv [Shipment.__init__ Py.bind Sys.uuid4 Sys.now Py.ret] in H.
  inversion H; subst; clear H. cbn. repeat split.
Qed.

(** Steps 1 to 4 of [checkout], up to the answer of the payment service. *)
Lemma checkout_steps_inv self user cart w order0 w1 u w2 priced w3 choice w4
    method payment w5 :
  Order.__init__ (Customer.customer_id user) w = Py.Ok (order0, w1) ->
  ApplicationController.add_lines order0 (ShoppingCart.items cart) w1 = Py.Ok (u, w2) ->
  PricingService.calculate_order_total
    (ApplicationController.pricing_service self) order0 w2 = Py.Ok (priced, w3) ->
  ApplicationController.select_choice
    (Z.of_nat (length (PaymentService.get_available_payment_methods
                         (ApplicationController.payment_service self)))) w3
    = Py.Ok (choice, w4) ->
  Py.index (PaymentService.get_available_payment_methods
              (ApplicationController.payment_service self)) (choice - 1)
    = Py.Ok method ->
  PaymentService.process_order_payment
    (ApplicationController.payment_service self) priced method w4
    = Py.Ok (payment, w5) ->
  exists lines,
    orders_file w5 = orders_file w /\
    uuids w5 = uuids w /\
    forall w',
      lists w' = lists w5 -> products w' = products w5 ->
      checkout_run self cart user w priced lines payment w'.
Proof.
  intros H1 H2 H3 H4 H5 H6.
  apply order_init_inv in H1 as (Hcid & Hst & Hinv & Hshp & Hnew & ->).
  apply add_lines_inv with (lines0 := []) in H2 as (lines & Hlines & ->);
    [| apply lookup_insert_eq].
  apply calculate_totals_inv in H3 as (lines' & totals & Hl' & Ht & -> & ->).
  change (<[Order.order_lines order0 := [] ++ lines]>
            (<[Order.order_lines order0 := []]> (lists w))
          !! Order.order_lines order0 = Some lines') in Hl'.
  rewrite lookup_insert_eq in Hl'. inversion Hl'; subst lines'. clear Hl'.
  apply select_choice_inv in H4 as (_ & rest & ->).
  apply index_In in H5.
  apply process_order_payment_inv in H6 as Hout. destruct Hout as (out & ->).
  exists lines. split; [reflexivity |]. split; [reflexivity |].
  intros w' Hl' Hp'. constructor.
  - exact Hlines.
  - rewrite Hl'. apply lookup_insert_eq.
  - rewrite Hp'. reflexivity.
  - exact Hcid.
  - exact Hst.
  - exact Hinv.
  - exact Hshp.
  - exists totals. split; [exact Ht |]. split; reflexivity.
  - exists method. eexists. eexists. split; [exact H5 | exact H6].
Qed.

Lemma checkout_inv self w user cart ex self' w' :
  ApplicationController.current_user self = Some user ->
  ApplicationController.current_cart self = Some cart ->
  ShoppingCart.is_empty cart = false ->
  ApplicationController.checkout self w = Py.Ok (ex, self', w') ->
  exists priced lines payment,
    checkout_run self cart user w priced lines payment w' /\
    ((fst payment = false /\
      ex = ApplicationController.PaymentFailed priced payment /\
      self' = self /\
      orders_file w' = orders_file w)
     \/
     (fst payment = true /\
      exists invoice shipment d before after,
        ex = ApplicationController.Completed
               (placed_order priced invoice shipment) payment /\
        self' = ApplicationController.set_current_cart self (ShoppingCart.clear cart) /\
        Invoice.items invoice = Order.order_lines priced /\
        Invoice.order_id invoice = Order.order_id priced /\
        Invoice.customer_id invoice = Order.customer_id priced /\
        Invoice.subtotal invoice = Order.subtotal priced /\
        Invoice.tax_amount invoice = Order.tax_amount priced /\
        Invoice.total_amount invoice = Order.total_amount priced /\
        Shipment.order_id shipment = Order.order_id priced /\
        Shipment.status shipment = "Pending" /\
        Order.to_dict (placed_order priced invoice shipment) w' = Py.Ok (d, w') /\
        stored w' = before ++ d :: after /\
        Forall (fun o => Json.Order.order_id o <> Order.order_id priced) before)).
Proof.
  intros Hu Hc He H. unfold ApplicationController.checkout in H.
  rewrite Hu, Hc, He in H.
  apply bind_ok_inv in H as (order0 & w1 & H1 & H).
  apply bind_ok_inv in H as (u & w2 & H2 & H).
  apply bind_ok_inv in H as (priced & w3 & H3 & H).
  apply bind_ok_inv in H as (choice & w4 & H4 & H).
  apply bind_ok_inv in H as (method & w5 & H5 & H).
  apply lift_ok_inv in H5 as [H5 ->].
  apply bind_ok_inv in H as (payment & w6 & H6 & H).
  destruct (checkout_steps_inv _ _ _ _ _ _ _ _ _ _ _ _ _ _ _ H1 H2 H3 H4 H5 H6)
    as (lines & Hfile & _ & Hrun).
  exists priced, lines, payment.
  destruct (fst payment) eqn:Hpay.
  - change (negb true) with false in H. cbv iota in H.
    apply bind_ok_inv in H as (invoice & w7 & H7 & H).
    apply invoice_init_inv in H7 as (Ii & Ic & Il & Is & It & Itot & ->).
    apply bind_ok_inv in H as (shipment & w8 & H8 & H).
    apply shipment_init_inv in H8 as (Si & Ss & ->).
    apply bind_ok_inv in H as (u' & w9 & H9 & H).
    unfold Py.ret in H. inversion H; subst ex self' w9. clear H.
    fold (placed_order priced invoice shipment) in H9.
    destruct (save_inv _ _ _ _ H9) as (d & Hd).
    destruct (save_is_upsert _ _ _ Hd) as (w10 & Hsave & Hw10 & Hcases & _).
    rewrite H9 in Hsave. inversion Hsave; subst w10. clear Hsave.
    split.
    { apply Hrun; rewrite Hw10; reflexivity. }
    right. split; [reflexivity |].
    assert (Hsplit : exists before after,
               stored w' = before ++ d :: after /\
               Forall (fun o => Json.Order.order_id o <> Order.order_id priced) before).
    { change (Order.order_id (placed_order priced invoice shipment))
        with (Order.order_id priced) in Hcases.
      destruct Hcases as [(before & old & after & _ & Hb & _ & ->) | (Hall & ->)].
      - eauto.
      - eexists _, []. eauto. }
    destruct Hsplit as (before & after & Hs & Hb).
    exists invoice, shipment, d, before, after.
    repeat (split; [first [reflexivity | assumption] |]).
    split.
    { rewrite Hw10, order_to_dict_frame, Hd. reflexivity. }
    split; assumption.
  - change (negb false) with true in H. cbv iota in H.
    unfold Py.ret in H. inversion H; subst ex self' w'. clear H.
    split; [apply Hrun; reflexivity |].
    left. auto.
Qed.

(** C2. A run of [checkout] for a logged-in user with a cart that is not
    empty ends at the failed payment or at the end of the sequence.  The
    order carries an invoice and a shipment exactly when
    [process_order_payment] answered with success.  On success the order is
    "Paid", its record is in the orders file and the cart is cleared; on
    failure the order is still "Pending" with no invoice and no shipment, the
    orders file is as before and the session, cart included, is unchanged. *)
Theorem checkout_payment_gate (self : ApplicationController.t) (w : World)
    (user : Customer.t) (cart : ShoppingCart.t)
    (ex : ApplicationController.checkout_exit)
    (self' : ApplicationController.t) (w' : World) :
  ApplicationController.current_user self = Some user ->
  ApplicationController.current_cart self = Some cart ->
  ShoppingCart.is_empty cart = false ->
  ApplicationController.checkout self w = Py.Ok (ex, self', w') ->
  exists order payment,
    (ex = ApplicationController.PaymentFailed order payment \/
     ex = ApplicationController.Completed order payment) /\
    (exists priced method w3 w4,
        In method (PaymentService.get_available_payment_methods
                     (ApplicationController.payment_service self)) /\
        PaymentService.process_order_payment
          (ApplicationController.payment_service self) priced method w3
        = Py.Ok (payment, w4) /\
        Order.order_id order = Order.order_id priced /\
        Order.total_amount order = Order.total_amount priced) /\
    (is_Some (Order.invoice order) /\ is_Some (Order.shipment order)
     <-> fst payment = true) /\
    (fst payment = true ->
     ex = ApplicationController.Completed order payment /\
     Order.status order = "Paid" /\
     (exists d, Order.to_dict order w' = Py.Ok (d, w') /\ In d (stored w')) /\
     ApplicationController.current_cart self' = Some (ShoppingCart.clear cart)) /\
    (fst payment = false ->
     ex = ApplicationController.PaymentFailed order payment /\
     Order.status order = "Pending" /\
     Order.invoice order = None /\
     Order.shipment order = None /\
     orders_file w' = orders_file w /\
     self' = self).
Proof.
  intros Hu Hc He H.
  destruct (checkout_inv _ _ _ _ _ _ _ Hu Hc He H)
    as (priced & lines & payment & Hrun & Hcases).
  destruct Hrun as [_ _ _ _ Hst Hinv Hshp _ (method & w3 & w4 & Hm & Hpay)].
  destruct Hcases as [(Hf & -> & -> & Hfile)
                     | (Ht & invoice & shipment & d & before & after & -> & -> &
                        _ & _ & _ & _ & _ & _ & _ & _ & Hd & Hs & _)].
  - exists priced, payment. split; [left; reflexivity |]. split.
    { exists priced, method, w3, w4. auto. }
    rewrite Hf, Hinv, Hshp. split; [| split].
    + split; [intros [[? Hx] _]; discriminate | discriminate].
    + discriminate.
    + auto 10.
  - exists (placed_order priced invoice shipment), payment.
    split; [right; reflexivity |]. split.
    { exists priced, method, w3, w4. auto. }
    rewrite Ht. split; [| split].
    + split; [reflexivity | intros _; cbn; eauto].
    + intros _. split; [reflexivity |]. split; [reflexivity |]. split.
      * exists d. split; [exact Hd |]. rewrite Hs.
        apply in_or_app. right. left. reflexivity.
      * reflexivity.
    + discriminate.
Qed.

Lemma checkout_payment_gate_witness :
  (exists order self' w',
      ApplicationController.checkout Demo.controller (Demo.world ["x"; " 1 "])
      = Py.Ok (ApplicationController.Completed order (true, "CC-0f8fad5b-SUCCESS"),
               self', w') /\
      is_Some (Order.invoice order) /\ is_Some (Order.shipment order) /\
      Order.status order = "Paid" /\
      ApplicationController.current_cart self' = Some (ShoppingCart.mk [] "c-ann")) /\
  (exists order w',
      ApplicationController.checkout Demo.declining_controller (Demo.world ["1"])
      = Py.Ok (ApplicationController.PaymentFailed order (false, "CC-0f8fad5b-DECLINED"),
               Demo.declining_controller, w') /\
      Order.status order = "Pending" /\
      Order.invoice order = None /\ Order.shipment order = None /\
      orders_file w' = Unparsed "").
Proof.
  split.
  - destruct (ApplicationController.checkout Demo.controller
                (Demo.world ["x"; " 1 "])) as [[[ex self'] w'] |] eqn:E;
      [| vm_compute in E; discriminate].
    destruct (checkout_payment_gate Demo.controller (Demo.world ["x"; " 1 "])
                Demo.ann Demo.cart ex self' w' eq_refl eq_refl eq_refl E)
      as (order & payment & Hex & _ & Hiff & Hok & _).
    assert (Hp : payment = (true, "CC-0f8fad5b-SUCCESS")).
    { vm_compute in E. destruct Hex as [-> | ->]; inversion E; reflexivity. }
    subst payment. destruct (Hok eq_refl) as (-> & Hst & _ & Hcart).
    exists order, self', w'. split; [reflexivity |].
    destruct (proj2 Hiff eq_refl) as [Hi Hs]. auto.
  - destruct (ApplicationController.checkout Demo.declining_controller
                (Demo.world ["1"])) as [[[ex self'] w'] |] eqn:E;
      [| vm_compute in E; discriminate].
    destruct (checkout_payment_gate Demo.declining_controller (Demo.world ["1"])
                Demo.ann Demo.cart ex self' w' eq_refl eq_refl eq_refl E)
      as (order & payment & Hex & _ & _ & _ & Hfail).
    assert (Hp : payment = (false, "CC-0f8fad5b-DECLINED")).
    { vm_compute in E. destruct Hex as [-> | ->]; inversion E; reflexivity. }
    subst payment. destruct (Hfail eq_refl) as (-> & Hst & Hi & Hs & Hfile & ->).
    exists order, w'. split; [reflexivity |]. auto.
Defined.

(** X28. With the gateways of [PaymentService()] the payment step of checkout
    never fails. *)
Lemma checkout_real_payment_succeeds tax_rate shipping_cost user cart w ex self' w' :
  let self := ApplicationController.mk
                (PricingService.__init__ tax_rate shipping_cost)
                PaymentService.__init__ (Some user) (Some cart) in
  ShoppingCart.is_empty cart = false ->
  ApplicationController.checkout self w = Py.Ok (ex, self', w') ->
  exists order payment,
    ex = ApplicationController.Completed order payment /\ fst payment = true.
Proof.
  intros self He H.
  destruct (checkout_inv self w user cart ex self' w' eq_refl eq_refl He H)
    as (priced & lines & payment & Hrun & Hcases).
  destruct Hrun as [_ _ _ _ _ _ _ _ (method & w3 & w4 & Hin & Hpay)].
  pose proof (registered_methods_approve _ _ _ _ _ Hin Hpay) as Ht.
  destruct Hcases
    as [(Hf & _) | (_ & invoice & shipment & d & before & after & -> & _)].
  - rewrite Ht in Hf. discriminate.
  - eexists _, payment. split; [reflexivity | exact Ht].
Qed.

(** ** Order lines and the invoice *)

Lemma read_list_ok r w l :
  lists w !! r = Some l -> Sys.read_list r w = Py.Ok (l, w).
Proof. intros H. unfold Sys.read_list. rewrite H. reflexivity. Qed.

(** C3. The order that [checkout] builds from a cart that is not empty has
    one line per cart item, in the order of the cart; each line carries the
    item's product and quantity and, as [unit_price], the price the product
    had when the lines were assembled.  Changing the price of any product
    afterwards leaves the lines of the order, and so their unit prices and
    line totals, as they were. *)
Theorem checkout_lines_freeze_prices (self : ApplicationController.t) (w : World)
    (user : Customer.t) (cart : ShoppingCart.t)
    (ex : ApplicationController.checkout_exit)
    (self' : ApplicationController.t) (w' : World) :
  ApplicationController.current_user self = Some user ->
  ApplicationController.current_cart self = Some cart ->
  ShoppingCart.is_empty cart = false ->
  ApplicationController.checkout self w = Py.Ok (ex, self', w') ->
  exists order payment lines,
    (ex = ApplicationController.PaymentFailed order payment \/
     ex = ApplicationController.Completed order payment) /\
    Sys.read_list (Order.order_lines order) w' = Py.Ok (lines, w') /\
    length lines = length (ShoppingCart.items cart) /\
    Forall2 (line_of_item (products w)) (ShoppingCart.items cart) lines /\
    forall (r : ref) (new_price : float),
      Sys.read_list (Order.order_lines order) (change_price r new_price w')
      = Py.Ok (lines, change_price r new_price w').
Proof.
  intros Hu Hc He H.
  destruct (checkout_inv _ _ _ _ _ _ _ Hu Hc He H)
    as (priced & lines & payment & Hrun & Hcases).
  destruct Hrun as [Hlines Hlist _ _ _ _ _ _ _].
  assert (Hex : exists order,
             (ex = ApplicationController.PaymentFailed order payment \/
              ex = ApplicationController.Completed order payment) /\
             Order.order_lines order = Order.order_lines priced).
  { destruct Hcases as [(_ & -> & _) | (_ & invoice & shipment & d & b & a & -> & _)].
    - exists priced. auto.
    - exists (placed_order priced invoice shipment). auto. }
  destruct Hex as (order & Hex & Hsame).
  exists order, payment, lines. rewrite Hsame.
  split; [exact Hex |]. split; [apply read_list_ok; exact Hlist |].
  split; [symmetry; eapply Forall2_length; exact Hlines |].
  split; [exact Hlines |].
  intros r new_price. apply read_list_ok. exact Hlist.
Qed.

Lemma checkout_lines_freeze_prices_witness :
  exists order payment self' w',
    ApplicationController.checkout Demo.controller (Demo.world ["1"])
    = Py.Ok (ApplicationController.Completed order payment, self', w') /\
    Sys.read_list (Order.order_lines order) w' = Py.Ok (Demo.lines, w') /\
    Sys.read_list (Order.order_lines order)
      (change_price 1%positive 99%float w')
    = Py.Ok (Demo.lines, change_price 1%positive 99%float w').
Proof.
  destruct (ApplicationController.checkout Demo.controller (Demo.world ["1"]))
    as [[[ex self'] w'] |] eqn:E; [| vm_compute in E; discriminate].
  destruct (checkout_lines_freeze_prices Demo.controller (Demo.world ["1"])
              Demo.ann Demo.cart ex self' w' eq_refl eq_refl eq_refl E)
    as (order & payment & lines & Hex & Hread & _ & Hlines & Hfrozen).
  assert (Hl : lines = Demo.lines).
  { clear - Hlines. cbn in Hlines.
    inversion Hlines as [| i1 l1 is1 ls1 (P1 & Q1 & p1 & Hp1 & U1) Hrest]; subst.
    inversion Hrest as [| i2 l2 is2 ls2 (P2 & Q2 & p2 & Hp2 & U2) Hnil]; subst.
    inversion Hnil; subst.
    vm_compute in Hp1. vm_compute in Hp2. inversion Hp1; inversion Hp2; subst.
    destruct l1, l2. cbn in *. subst. reflexivity. }
  subst lines.
  assert (Hc : exists o, ex = ApplicationController.Completed o payment).
  { vm_compute in E. destruct Hex as [-> | ->]; inversion E. eauto. }
  destruct Hc as (o & ->).
  destruct Hex as [Hex | Hex]; inversion Hex; subst o.
  exists order, payment, self', w'. split; [reflexivity |]. split; [exact Hread |].
  apply Hfrozen.
Defined.

(** The claim that the invoice holds a copy of the lines fails: after a
    checkout, appending a line to the order shows in the invoice's items. *)
Lemma invoice_items_follow_order_counterexample :
  exists order payment self' w1 invoice w2,
    ApplicationController.checkout Demo.controller (Demo.world ["1"])
    = Py.Ok (ApplicationController.Completed order payment, self', w1) /\
    Order.invoice order = Some invoice /\
    Order.add_line order Demo.extra_line w1 = Py.Ok (tt, w2) /\
    Sys.read_list (Invoice.items invoice) w1 = Py.Ok (Demo.lines, w1) /\
    Sys.read_list (Invoice.items invoice) w2
    = Py.Ok (Demo.lines ++ [Demo.extra_line], w2) /\
    Demo.lines <> Demo.lines ++ [Demo.extra_line].
Proof.
  do 6 eexists.
  split; [vm_compute; reflexivity |].
  split; [reflexivity |].
  split; [vm_compute; reflexivity |].
  split; [vm_compute; reflexivity |].
  split; [vm_compute; reflexivity |].
  discriminate.
Qed.

(** C4, as the code has it.  The invoice made at checkout stores the order's
    subtotal, tax and total by value: recalculating the order's totals later
    leaves the invoice as it is.  Its [items] is the list object of the
    order's lines, not a copy: both read the same lines, and a line appended
    to the order afterwards is read through the invoice as well. *)
Theorem invoice_shares_lines_and_copies_totals (self : ApplicationController.t)
    (w : World) (user : Customer.t) (cart : ShoppingCart.t) (order : Order.t)
    (payment : bool * string) (self' : ApplicationController.t) (w' : World) :
  ApplicationController.current_user self = Some user ->
  ApplicationController.current_cart self = Some cart ->
  ShoppingCart.is_empty cart = false ->
  ApplicationController.checkout self w
  = Py.Ok (ApplicationController.Completed order payment, self', w') ->
  exists invoice lines,
    Order.invoice order = Some invoice /\
    Invoice.subtotal invoice = Order.subtotal order /\
    Invoice.tax_amount invoice = Order.tax_amount order /\
    Invoice.total_amount invoice = Order.total_amount order /\
    Invoice.items invoice = Order.order_lines order /\
    Sys.read_list (Invoice.items invoice) w' = Py.Ok (lines, w') /\
    (forall tax_rate shipping_cost order2 w2,
        Order.calculate_totals order tax_rate shipping_cost w' = Py.Ok (order2, w2) ->
        Order.invoice order2 = Some invoice) /\
    (forall line u w2,
        Order.add_line order line w' = Py.Ok (u, w2) ->
        Sys.read_list (Invoice.items invoice) w2 = Py.Ok (lines ++ [line], w2) /\
        Sys.read_list (Order.order_lines order) w2 = Py.Ok (lines ++ [line], w2)).
Proof.
  intros Hu Hc He H.
  destruct (checkout_inv _ _ _ _ _ _ _ Hu Hc He H)
    as (priced & lines & pay & Hrun & Hcases).
  destruct Hrun as [_ Hlist _ _ _ _ _ _ _].
  destruct Hcases as [(_ & Hex & _)
                     | (_ & invoice & shipment & d & b & a & Hex & _ &
                        Hitems & _ & _ & Hsub & Htax & Htot & _)];
    [discriminate |].
  inversion Hex; subst order pay. clear Hex.
  exists invoice, lines. cbn.
  split; [reflexivity |]. split; [exact Hsub |]. split; [exact Htax |].
  split; [exact Htot |]. split; [exact Hitems |].
  split; [apply read_list_ok; rewrite Hitems; exact Hlist |]. split.
  - intros tax_rate shipping_cost order2 w2 Hcalc.
    apply calculate_totals_inv in Hcalc as (ls & totals & _ & _ & _ & ->).
    reflexivity.
  - intros line u w2 Hadd. unfold Order.add_line in Hadd. cbn in Hadd.
    apply append_inv in Hadd as (l & Hl & ->).
    rewrite Hlist in Hl. inversion Hl; subst l.
    rewrite Hitems.
    split; apply read_list_ok; apply lookup_insert_eq.
Qed.

Lemma invoice_shares_lines_and_copies_totals_witness :
  exists order payment self' w' invoice,
    ApplicationController.checkout Demo.controller (Demo.world ["1"])
    = Py.Ok (ApplicationController.Completed order payment, self', w') /\
    Order.invoice order = Some invoice /\
    Invoice.total_amount invoice = Order.total_amount order /\
    Invoice.items invoice = Order.order_lines order.
Proof.
  destruct (ApplicationController.checkout Demo.controller (Demo.world ["1"]))
    as [[[ex self'] w'] |] eqn:E; [| vm_compute in E; discriminate].
  assert (Hc : exists order payment,
             ex = ApplicationController.Completed order payment).
  { vm_compute in E. inversion E. eauto. }
  destruct Hc as (order & payment & ->).
  destruct (invoice_shares_lines_and_copies_totals Demo.controller
              (Demo.world ["1"]) Demo.ann Demo.cart order payment self' w'
              eq_refl eq_refl eq_refl E)
    as (invoice & lines & Hinv & _ & _ & Htot & Hitems & _).
  exists order, payment, self', w', invoice. auto.
Defined.

(** ** Checkout returns *)

Lemma ask_choice_ok max_option choice msg line rest junk : forall fuel w,
  (length junk < fuel)%nat ->
  stdin w = junk ++ line :: rest ->
  Forall (fun l => fst (fst (InputValidator.validate_menu_choice
                               (Py.strip l) max_option)) = false) junk ->
  InputValidator.validate_menu_choice (Py.strip line) max_option
    = (true, choice, msg) ->
  ApplicationController.ask_choice fuel max_option w
    = Py.Ok (choice, Sys.set_stdin rest w).
Proof.
  induction junk as [| j junk IH]; intros fuel w Hfuel Hin Hjunk Hvalid;
    (destruct fuel as [| fuel]; [cbn in Hfuel; lia |]);
    cbn [ApplicationController.ask_choice]; unfold Py.bind at 1, Sys.input;
    rewrite Hin; cbn [app].
  - rewrite Hvalid. reflexivity.
  - inversion Hjunk as [| ? ? Hj Hrest]; subst.
    destruct (InputValidator.validate_menu_choice (Py.strip j) max_option)
      as [[valid c] m]. cbn in Hj. subst valid.
    rewrite (IH fuel (Sys.set_stdin (junk ++ line :: rest) w)); auto.
    cbn in Hfuel. lia.
Qed.

Lemma index_ok {A} (l : list A) (choice : Z) :
  l <> [] -> 0 <= choice <= Z.of_nat (length l) ->
  exists x, Py.index l (choice - 1) = Py.Ok x.
Proof.
  intros Hne Hc. unfold Py.index.
  assert (Hlen : (0 < length l)%nat) by (destruct l; [congruence | cbn; lia]).
  set (n := Z.of_nat (length l)).
  set (j := if choice - 1 <? 0 then choice - 1 + n else choice - 1).
  assert (Hj : 0 <= j < n).
  { subst j n. destruct (choice - 1 <? 0) eqn:E;
      [apply Z.ltb_lt in E | apply Z.ltb_ge in E]; lia. }
  destruct ((0 <=? j) && (j <? n)) eqn:E.
  - destruct (l !! Z.to_nat j) as [x |] eqn:El; [eauto |].
    apply lookup_ge_None in El. subst n. lia.
  - apply andb_false_iff in E as [E | E];
      [apply Z.leb_gt in E | apply Z.ltb_ge in E]; lia.
Qed.

Lemma process_order_payment_returns self order payment_method w :
  exists payment w',
    PaymentService.process_order_payment self order payment_method w
    = Py.Ok (payment, w').
Proof.
  unfold PaymentService.process_order_payment.
  destruct (PaymentService.lookup _ _) as [gateway |]; [| cbn; eauto].
  unfold PaymentGateway.call.
  destruct (PaymentGateway.process_payment gateway _ _) as [lines [success tid]].
  destruct success; cbn; eauto.
Qed.

Lemma lines_to_dict_ok ps items lines totals :
  Forall2 (line_of_item ps) items lines ->
  Py.traverse OrderLine.get_line_total lines = Py.Ok totals ->
  exists ds, Py.traverse (OrderLine.to_dict ps) lines = Py.Ok ds.
Proof.
  intros Hf. revert totals.
  induction Hf as [| item line items lines (Hprod & _ & p & Hp & _) _ IH];
    intros totals Ht; cbn in *; [eauto |].
  destruct (OrderLine.get_line_total line) as [t |] eqn:Hline; [| discriminate].
  destruct (Py.traverse OrderLine.get_line_total lines) as [ts |]; [| discriminate].
  destruct (IH ts eq_refl) as (ds & ->).
  unfold OrderLine.to_dict. rewrite Hprod, Hp, Hline. eauto.
Qed.

Lemma order_to_dict_ok order w lines totals items :
  lists w !! Order.order_lines order = Some lines ->
  Forall2 (line_of_item (products w)) items lines ->
  Py.traverse OrderLine.get_line_total lines = Py.Ok totals ->
  (forall i, Order.invoice order = Some i -> Invoice.items i = Order.order_lines order) ->
  exists d, Order.to_dict order w = Py.Ok (d, w).
Proof.
  intros Hl Hf Ht Hi.
  destruct (lines_to_dict_ok _ _ _ _ Hf Ht) as (ds & Hds).
  unfold Order.to_dict, Sys.read_list, Py.bind, Py.gets, Py.lift.
  rewrite Hl. cbn. rewrite Hds.
  destruct (Order.invoice order) as [i |] eqn:Ei; [| eauto].
  unfold Invoice.to_dict, Sys.read_list, Py.bind, Py.gets, Py.lift.
  rewrite (Hi i eq_refl), Hl. cbn. rewrite Hds. eauto.
Qed.

(** [checkout] returns for a logged-in user with a cart that is not empty
    when the products of the cart exist, every quantity converts to a float,
    the next line of input that is not rejected is a valid choice, and the
    payment service has a gateway registered. *)
Theorem checkout_returns (self : ApplicationController.t) (w : World)
    (user : Customer.t) (cart : ShoppingCart.t)
    (lines : list OrderLine.t) (totals : list float)
    (junk : list string) (line : string) (rest : list string)
    (choice : Z) (msg : string) :
  let methods :=
    PaymentService.get_available_payment_methods
      (ApplicationController.payment_service self) in
  ApplicationController.current_user self = Some user ->
  ApplicationController.current_cart self = Some cart ->
  ShoppingCart.is_empty cart = false ->
  Forall2 (line_of_item (products w)) (ShoppingCart.items cart) lines ->
  Py.traverse OrderLine.get_line_total lines = Py.Ok totals ->
  methods <> [] ->
  stdin w = junk ++ line :: rest ->
  Forall (fun l => fst (fst (InputValidator.validate_menu_choice (Py.strip l)
                               (Z.of_nat (length methods)))) = false) junk ->
  InputValidator.validate_menu_choice (Py.strip line) (Z.of_nat (length methods))
    = (true, choice, msg) ->
  exists ex self' w',
    ApplicationController.checkout self w = Py.Ok (ex, self', w') /\
    stdin w' = rest.
Proof.
  intros methods Hu Hc He Hlines Ht Hne Hin Hjunk Hvalid.
  unfold ApplicationController.checkout. rewrite Hu, Hc, He.
  destruct (Order.__init__ (Customer.customer_id user) w) as [[order0 w1] |] eqn:H1;
    [| discriminate H1].
  rewrite (bind_ok _ _ _ _ _ H1).
  apply order_init_inv in H1 as (Hcid & Hst & Hinv & Hshp & Hnew & ->).
  set (r := Order.order_lines order0) in *.
  erewrite bind_ok;
    [| apply add_lines_ok with (lines0 := []) (new := lines);
       [apply lookup_insert_eq | exact Hlines]].
  cbn [app]. unfold PricingService.calculate_order_total.
  erewrite bind_ok;
    [| eapply calculate_totals_ok; [apply lookup_insert_eq | exact Ht]].
  fold methods.
  erewrite bind_ok;
    [| unfold ApplicationController.select_choice; erewrite bind_ok by reflexivity;
       eapply ask_choice_ok with (junk := junk);
       [| exact Hin | exact Hjunk | exact Hvalid];
       change (stdin _) with (stdin w); rewrite Hin, length_app; cbn; lia].
  destruct (index_ok methods choice Hne
              (validate_menu_choice_valid _ _ _ _ Hvalid)) as (method & Hm).
  rewrite Hm. unfold Py.lift at 1. unfold Py.bind at 1.
  match goal with
  | |- context [Py.bind (PaymentService.process_order_payment ?s ?o ?m) _ ?w0] =>
      destruct (process_order_payment_returns s o m w0) as (payment & w5 & Hpay);
      pose proof (process_order_payment_inv _ _ _ _ _ _ Hpay) as (out & Hw5)
  end.
  rewrite (bind_ok _ _ _ _ _ Hpay). subst w5.
  destruct (fst payment); cbn [negb].
  - match goal with
    | |- context [Py.bind (Invoice.__init__ ?a ?b ?c ?d ?e ?f) _ ?w0] =>
        destruct (Invoice.__init__ a b c d e f w0) as [[invoice w7] |] eqn:H7;
        [| discriminate H7]
    end.
    rewrite (bind_ok _ _ _ _ _ H7).
    apply invoice_init_inv in H7 as (_ & _ & Hitems & _ & _ & _ & ->).
    match goal with
    | |- context [Py.bind (Shipment.__init__ ?a) _ ?w0] =>
        destruct (Shipment.__init__ a w0) as [[shipment w8] |] eqn:H8;
        [| discriminate H8]
    end.
    rewrite (bind_ok _ _ _ _ _ H8).
    apply shipment_init_inv in H8 as (_ & _ & ->).
    match goal with
    | |- context [Py.bind (OrderRepository.save ?o) _ ?w0] =>
        destruct (order_to_dict_ok o w0 lines totals (ShoppingCart.items cart))
          as (d & Hd);
        [apply lookup_insert_eq | exact Hlines | exact Ht
        | intros i Hi; cbn in Hi; inversion Hi; subst i; exact Hitems |]
    end.
    rewrite (bind_ok _ _ _ _ _ (save_ok _ _ _ Hd)).
    eexists _, _, _. split; reflexivity.
  - eexists _, _, _. split; reflexivity.
Qed.

Lemma checkout_returns_witness :
  exists ex self' w',
    ApplicationController.checkout Demo.controller (Demo.world ["x"; "9"; " 1 "; "y"])
    = Py.Ok (ex, self', w') /\
    stdin w' = ["y"].
Proof.
  apply (checkout_returns Demo.controller (Demo.world ["x"; "9"; " 1 "; "y"])
           Demo.ann Demo.cart Demo.lines
           [0x1.dfd70a3d70a3dp+5%float; 0x1.dfae147ae147bp+3%float]
           ["x"; "9"] " 1 " ["y"] 1 "").
  - reflexivity.
  - reflexivity.
  - reflexivity.
  - repeat constructor; eexists; (split; [vm_compute; reflexivity | reflexivity]).
  - vm_compute. reflexivity.
  - discriminate.
  - reflexivity.
  - repeat constructor.
  - reflexivity.
Defined.

(** * Further properties *)

(** ** Order repository: lookups *)





(** X3. [save] touches only the records of the saved order's id: for every
    other id, the stored records with that id are the same, in the same
    order, before and after, and the heap is unchanged. *)
Theorem save_keeps_other_orders (order : Order.t) (w : World) (u : unit)
    (w' : World) (other : string) :
  OrderRepository.save order w = Py.Ok (u, w') ->
  other <> Order.order_id order ->
  filter (fun d => Json.Order.order_id d = other) (stored w')
  = filter (fun d => Json.Order.order_id d = other) (stored w) /\
  lists w' = lists w /\ products w' = products w.
Proof.
  intros Hsave Hother. destruct (save_inv _ _ _ _ Hsave) as (d & Hd).
  destruct (save_cases order w d Hd) as (w1 & Hsave1 & Hw1 & Hcases).
  rewrite Hsave in Hsave1. inversion Hsave1; subst w1.
  pose proof (order_to_dict_inv _ _ _ _ Hd) as (_ & _ & _ & _ & Hid & _).
  split; [| rewrite Hw1; split; reflexivity].
  destruct Hcases as [(before & old & after & Hs & _ & Hold & ->) | (_ & ->)].
  - rewrite Hs, !filter_app, !filter_cons_False by congruence. reflexivity.
  - rewrite filter_app, filter_cons_False by congruence. cbn.
    apply app_nil_r.
Qed.

Lemma save_keeps_other_orders_witness :
  exists w1 w2,
    OrderRepository.save Demo.order Demo.order_world = Py.Ok (tt, w1) /\
    OrderRepository.save Demo.order_bob w1 = Py.Ok (tt, w2) /\
    filter (fun d => Json.Order.order_id d = "0f8fad5b-0000") (stored w2)
    = [Demo.order_dict].
Proof.
  destruct (OrderRepository.save Demo.order Demo.order_world)
    as [[[] w1] |] eqn:E1; [| vm_compute in E1; discriminate].
  destruct (OrderRepository.save Demo.order_bob w1)
    as [[[] w2] |] eqn:E2;
    [| vm_compute in E1; inversion E1; subst w1; vm_compute in E2; discriminate].
  exists w1, w2. split; [reflexivity |]. split; [exact E2 |].
  destruct (save_keeps_other_orders Demo.order_bob w1 tt w2 "0f8fad5b-0000" E2)
    as (Hsame & _); [discriminate |].
  rewrite Hsame. vm_compute in E1. inversion E1. reflexivity.
Defined.

(** ** Checkout and the repository *)

Lemma invoice_to_dict_represents i w d w' :
  Invoice.to_dict i w = Py.Ok (d, w') -> invoice_represents i d.
Proof.
  unfold Invoice.to_dict. intros H.
  apply bind_ok_inv in H as (lines & w1 & Hl & H).
  apply bind_ok_inv in H as (ps & w2 & Hp & H).
  apply bind_ok_inv in H as (ds & w3 & Hd & H).
  cbn in H. inversion H; subst. repeat split.
Qed.

Lemma order_to_dict_parts order w d w' :
  Order.to_dict order w = Py.Ok (d, w') ->
  option_Forall2 invoice_represents (Order.invoice order) (Json.Order.invoice d) /\
  Json.Order.shipment d = Shipment.to_dict <$> Order.shipment order.
Proof.
  unfold Order.to_dict. intros H.
  apply bind_ok_inv in H as (lines & w1 & Hl & H).
  apply bind_ok_inv in H as (ps & w2 & Hp & H).
  apply bind_ok_inv in H as (ds & w3 & Hd & H).
  apply bind_ok_inv in H as (inv & w4 & Hi & H).
  cbn in H. inversion H; subst. cbn. split; [| reflexivity].
  destruct (Order.invoice order) as [i |].
  - apply bind_ok_inv in Hi as (di & w5 & Hi & Hr).
    cbn in Hr. inversion Hr; subst. constructor.
    eapply invoice_to_dict_represents. exact Hi.
  - cbn in Hi. inversion Hi. constructor.
Qed.

Lemma shipment_to_dict_inj s1 s2 :
  Shipment.to_dict s1 = Shipment.to_dict s2 -> s1 = s2.
Proof.
  destruct s1, s2. unfold Shipment.to_dict. cbn. intros H. inversion H. reflexivity.
Qed.

(** X4. An order that [checkout] completed is found again by its id: the
    order read back is "Paid", belongs to the customer, has the same amounts,
    the same shipment and an invoice with the same id and amounts, and has
    no lines. *)
Theorem checkout_order_is_found (self : ApplicationController.t) (w : World)
    (user : Customer.t) (cart : ShoppingCart.t) (order : Order.t)
    (payment : bool * string) (self' : ApplicationController.t) (w' : World) :
  ApplicationController.current_user self = Some user ->
  ApplicationController.current_cart self = Some cart ->
  ShoppingCart.is_empty cart = false ->
  ApplicationController.checkout self w
  = Py.Ok (ApplicationController.Completed order payment, self', w') ->
  exists found w2 invoice found_invoice,
    OrderRepository.find_by_id (Order.order_id order) w' = Py.Ok (Some found, w2) /\
    Order.order_id found = Order.order_id order /\
    Order.customer_id found = Customer.customer_id user /\
    Order.status found = "Paid" /\
    Order.subtotal found = Order.subtotal order /\
    Order.tax_amount found = Order.tax_amount order /\
    Order.shipping_cost found = Order.shipping_cost order /\
    Order.total_amount found = Order.total_amount order /\
    Order.shipment found = Order.shipment order /\
    Order.invoice order = Some invoice /\
    Order.invoice found = Some found_invoice /\
    Invoice.invoice_id found_invoice = Invoice.invoice_id invoice /\
    Invoice.total_amount found_invoice = Invoice.total_amount invoice /\
    lists w2 !! Order.order_lines found = Some [].
Proof.
  intros Hu Hc He H.
  destruct (checkout_inv _ _ _ _ _ _ _ Hu Hc He H)
    as (priced & lines & pay & Hrun & Hcases).
  destruct Hrun as [_ _ _ Hcust _ _ _ _ _].
  destruct Hcases as [(_ & Hex & _)
                     | (_ & invoice & shipment & d & before & after & Hex & _ &
                        _ & _ & _ & _ & _ & _ & _ & _ & Hd & Hs & Hb)];
    [discriminate |].
  inversion Hex; subst order pay. clear Hex.
  pose proof (order_to_dict_inv _ _ _ _ Hd)
    as (_ & ls & _ & _ & Hid & Hcid & Hsub & Htax & Hship & Htot & Hst & _).
  pose proof (order_to_dict_parts _ _ _ _ Hd) as (Hinv & Hshp).
  destruct (order_from_dict_spec d w')
    as (found & w2 & Hfrom & Hrep & Hempty & _).
  destruct Hrep as (Rid & Rcid & Rsub & Rtax & Rship & Rtot & Rst & _ & Rinv & Rshp).
  cbn in Hinv, Hshp. inversion Hinv as [? di Hi Heq1 Heq2 |]; subst.
  rewrite <- Heq2 in Rinv. inversion Rinv as [fi ? Hfi Heq3 Heq4 |]; subst.
  rewrite Hshp in Rshp. inversion Rshp as [fs ? Hfs Heq5 Heq6 |]; subst.
  apply shipment_to_dict_inj in Hfs. subst fs.
  exists found, w2, invoice, fi. split.
  { unfold OrderRepository.find_by_id.
    rewrite (bind_ok _ _ _ _ _ (load_all_eq w')), Hs.
    rewrite (find_by_id_loop_first _ _ _ _ _ Hb Hid).
    rewrite (bind_ok _ _ _ _ _ Hfrom). reflexivity. }
  destruct Hi as (I1 & _ & _ & _ & _ & _ & _ & I8).
  destruct Hfi as (F1 & _ & _ & _ & _ & _ & _ & F8).
  cbn in *. repeat split; try congruence.
Qed.

Lemma checkout_order_is_found_witness :
  exists order payment self' w' found w2,
    ApplicationController.checkout Demo.controller (Demo.world ["2"])
    = Py.Ok (ApplicationController.Completed order payment, self', w') /\
    OrderRepository.find_by_id (Order.order_id order) w' = Py.Ok (Some found, w2) /\
    Order.status found = "Paid" /\
    Order.shipment found = Order.shipment order.
Proof.
  destruct (ApplicationController.checkout Demo.controller (Demo.world ["2"]))
    as [[[ex self'] w'] |] eqn:E; [| vm_compute in E; discriminate].
  assert (Hc : exists order payment,
             ex = ApplicationController.Completed order payment).
  { vm_compute in E. inversion E. eauto. }
  destruct Hc as (order & payment & ->).
  destruct (checkout_order_is_found Demo.controller (Demo.world ["2"]) Demo.ann
              Demo.cart order payment self' w' eq_refl eq_refl eq_refl E)
    as (found & w2 & i & fi & Hfind & _ & _ & Hst & _ & _ & _ & _ & Hshp & _).
  exists order, payment, self', w', found, w2. auto.
Defined.

(** X5. Only a completed checkout writes: when [checkout] returns at any of
    its other exits (not logged in, empty cart, failed payment) the orders
    file, the products and the session are as they were at the call. *)
Theorem checkout_writes_only_when_completed (self : ApplicationController.t)
    (w : World) (ex : ApplicationController.checkout_exit)
    (self' : ApplicationController.t) (w' : World) :
  ApplicationController.checkout self w = Py.Ok (ex, self', w') ->
  (forall order payment, ex <> ApplicationController.Completed order payment) ->
  orders_file w' = orders_file w /\ products w' = products w /\ self' = self.
Proof.
  intros H Hnot.
  destruct (ApplicationController.current_user self) as [user |] eqn:Hu;
    [destruct (ApplicationController.current_cart self) as [cart |] eqn:Hc;
     [destruct (ShoppingCart.is_empty cart) eqn:He |] |].
  - unfold ApplicationController.checkout in H. rewrite Hu, Hc, He in H.
    cbn in H. inversion H. auto.
  - destruct (checkout_inv _ _ _ _ _ _ _ Hu Hc He H)
      as (priced & lines & payment & Hrun & Hcases).
    destruct Hrun as [_ _ Hp _ _ _ _ _ _].
    destruct Hcases as [(_ & _ & -> & Hfile) | (_ & i & s & d & b & a & -> & _)].
    + auto.
    + exfalso. eapply Hnot. reflexivity.
  - unfold ApplicationController.checkout in H. rewrite Hu, Hc in H.
    cbn in H. inversion H. auto.
  - unfold ApplicationController.checkout in H. rewrite Hu in H.
    cbn in H. inversion H. auto.
Qed.

Lemma checkout_writes_only_when_completed_witness :
  (exists w',
      ApplicationController.checkout
        (ApplicationController.__init__ Demo.tax_rate Demo.shipping_cost)
        Demo.order_world
      = Py.Ok (ApplicationController.NotLoggedIn,
               ApplicationController.__init__ Demo.tax_rate Demo.shipping_cost, w') /\
      orders_file w' = orders_file Demo.order_world) /\
  (exists ex self' w',
      ApplicationController.checkout Demo.declining_controller (Demo.world ["1"])
      = Py.Ok (ex, self', w') /\
      orders_file w' = Unparsed "" /\ self' = Demo.declining_controller).
Proof.
  split.
  - exists Demo.order_world. split; [reflexivity |].
    apply (checkout_writes_only_when_completed
             (ApplicationController.__init__ Demo.tax_rate Demo.shipping_cost)
             Demo.order_world ApplicationController.NotLoggedIn
             (ApplicationController.__init__ Demo.tax_rate Demo.shipping_cost)
             Demo.order_world eq_refl).
    discriminate.
  - destruct (ApplicationController.checkout Demo.declining_controller
                (Demo.world ["1"])) as [[[ex self'] w'] |] eqn:E;
      [| vm_compute in E; discriminate].
    exists ex, self', w'. split; [reflexivity |].
    destruct (checkout_writes_only_when_completed _ _ _ _ _ E) as (Hf & _ & Hs).
    + vm_compute in E. inversion E. discriminate.
    + rewrite Hf. auto.
Defined.

(** ** The payment menu *)

(** [checkout] is its first steps followed by [checkout_from_payment]. *)
Lemma checkout_front_eq (self : ApplicationController.t) (w : World)
    (user : Customer.t) (cart : ShoppingCart.t)
    (lines : list OrderLine.t) (totals : list float)
    (junk : list string) (line : string) (rest : list string)
    (choice : Z) (msg : string) :
  let methods :=
    PaymentService.get_available_payment_methods
      (ApplicationController.payment_service self) in
  ApplicationController.current_user self = Some user ->
  ApplicationController.current_cart self = Some cart ->
  ShoppingCart.is_empty cart = false ->
  Forall2 (line_of_item (products w)) (ShoppingCart.items cart) lines ->
  Py.traverse OrderLine.get_line_total lines = Py.Ok totals ->
  methods <> [] ->
  stdin w = junk ++ line :: rest ->
  Forall (fun l => fst (fst (InputValidator.validate_menu_choice (Py.strip l)
                               (Z.of_nat (length methods)))) = false) junk ->
  InputValidator.validate_menu_choice (Py.strip line) (Z.of_nat (length methods))
    = (true, choice, msg) ->
  exists priced w4 method,
    Py.index methods (choice - 1) = Py.Ok method /\
    ApplicationController.checkout self w
    = checkout_from_payment self cart priced method w4.
Proof.
  intros methods Hu Hc He Hlines Ht Hne Hin Hjunk Hvalid.
  destruct (index_ok methods choice Hne
              (validate_menu_choice_valid _ _ _ _ Hvalid)) as (method & Hm).
  unfold ApplicationController.checkout. rewrite Hu, Hc, He.
  destruct (Order.__init__ (Customer.customer_id user) w) as [[order0 w1] |] eqn:H1;
    [| discriminate H1].
  rewrite (bind_ok _ _ _ _ _ H1).
  apply order_init_inv in H1 as (Hcid & Hst & Hinv & Hshp & Hnew & ->).
  erewrite bind_ok;
    [| apply add_lines_ok with (lines0 := []) (new := lines);
       [apply lookup_insert_eq | exact Hlines]].
  cbn [app]. unfold PricingService.calculate_order_total.
  erewrite bind_ok;
    [| eapply calculate_totals_ok; [apply lookup_insert_eq | exact Ht]].
  fold methods.
  erewrite bind_ok;
    [| unfold ApplicationController.select_choice; erewrite bind_ok by reflexivity;
       eapply ask_choice_ok with (junk := junk);
       [| exact Hin | exact Hjunk | exact Hvalid];
       change (stdin _) with (stdin w); rewrite Hin, length_app; cbn; lia].
  rewrite Hm. unfold Py.lift at 1. unfold Py.bind at 1.
  eexists _, _, method. split; [reflexivity |].
  unfold checkout_from_payment. reflexivity.
Qed.

Lemma checkout_from_payment_paid self cart priced method w4 tid w5 ex self' w' :
  PaymentService.process_order_payment
    (ApplicationController.payment_service self) priced method w4
  = Py.Ok ((true, tid), w5) ->
  checkout_from_payment self cart priced method w4 = Py.Ok (ex, self', w') ->
  exists invoice shipment,
    ex = ApplicationController.Completed (placed_order priced invoice shipment)
           (true, tid).
Proof.
  intros Hpay H. unfold checkout_from_payment in H.
  rewrite (bind_ok _ _ _ _ _ Hpay) in H.
  change (negb (fst (true, tid))) with false in H. cbv iota in H.
  apply bind_ok_inv in H as (invoice & w7 & _ & H).
  apply bind_ok_inv in H as (shipment & w8 & _ & H).
  apply bind_ok_inv in H as (u & w9 & _ & H).
  unfold Py.ret in H. inversion H. exists invoice, shipment. reflexivity.
Qed.

Lemma index_minus_one {A} (l : list A) (x : A) :
  Py.index (l ++ [x]) (0 - 1) = Py.Ok x.
Proof.
  unfold Py.index. rewrite length_app. cbn [length].
  change (0 - 1 <? 0) with true. cbv iota.
  replace (0 - 1 + Z.of_nat (length l + 1)) with (Z.of_nat (length l)) by lia.
  replace ((0 <=? Z.of_nat (length l))
           && (Z.of_nat (length l) <? Z.of_nat (length l + 1))) with true
    by (symmetry; apply andb_true_iff; split;
        [apply Z.leb_le | apply Z.ltb_lt]; lia).
  rewrite Nat2Z.id, lookup_app_r by lia. rewrite Nat.sub_diag. reflexivity.
Qed.

(** The bank transfer of [PaymentService()] approves every order. *)
Lemma bank_transfer_approves (order : Order.t) (w : World) :
  PaymentService.process_order_payment PaymentService.__init__ order
    "bank_transfer" w
  = Py.Ok ((true, "BT-" +:+ Py.prefix 8 (Order.order_id order) +:+ "-SUCCESS"),
           Sys.set_stdout
             (stdout w ++
              payment_output "bank transfer"
                ("BT-" +:+ Py.prefix 8 (Order.order_id order) +:+ "-SUCCESS")
                (Order.total_amount order)) w).
Proof. cbn. rewrite <- app_assoc. reflexivity. Qed.

(** X6. The payment menu offers the choices 1 to 3, but the validator also
    accepts 0, and [payment_methods[choice - 1]] then reads index -1: with
    the gateways of [PaymentService()], a checkout whose accepted input is
    the choice 0 completes and is paid through the last method, the bank
    transfer. *)
Theorem checkout_choice_zero_pays_by_bank_transfer
    (self : ApplicationController.t) (w : World)
    (user : Customer.t) (cart : ShoppingCart.t)
    (lines : list OrderLine.t) (totals : list float)
    (junk : list string) (line : string) (rest : list string) (msg : string) :
  ApplicationController.payment_service self = PaymentService.__init__ ->
  ApplicationController.current_user self = Some user ->
  ApplicationController.current_cart self = Some cart ->
  ShoppingCart.is_empty cart = false ->
  Forall2 (line_of_item (products w)) (ShoppingCart.items cart) lines ->
  Py.traverse OrderLine.get_line_total lines = Py.Ok totals ->
  stdin w = junk ++ line :: rest ->
  Forall (fun l => fst (fst (InputValidator.validate_menu_choice (Py.strip l) 3))
                   = false) junk ->
  InputValidator.validate_menu_choice (Py.strip line) 3 = (true, 0, msg) ->
  exists order self' w',
    ApplicationController.checkout self w
    = Py.Ok (ApplicationController.Completed order
               (true, "BT-" +:+ Py.prefix 8 (Order.order_id order) +:+ "-SUCCESS"),
             self', w').
Proof.
  intros Hsvc Hu Hc He Hlines Ht Hin Hjunk Hvalid.
  assert (Hmethods : PaymentService.get_available_payment_methods
                       (ApplicationController.payment_service self)
                     = ["credit_card"; "digital_wallet"; "bank_transfer"])
    by (rewrite Hsvc; reflexivity).
  pose proof (checkout_returns self w user cart lines totals junk line rest 0 msg)
    as R.
  cbv zeta in R. rewrite Hmethods in R.
  destruct (R Hu Hc He Hlines Ht ltac:(discriminate) Hin Hjunk Hvalid)
    as (ex & self' & w' & Hret & _).
  pose proof (checkout_front_eq self w user cart lines totals junk line rest 0 msg)
    as F.
  cbv zeta in F. rewrite Hmethods in F.
  destruct (F Hu Hc He Hlines Ht ltac:(discriminate) Hin Hjunk Hvalid)
    as (priced & w4 & method & Hm & Hfront).
  change ["credit_card"; "digital_wallet"; "bank_transfer"]
    with (["credit_card"; "digital_wallet"] ++ ["bank_transfer"]) in Hm.
  rewrite index_minus_one in Hm. inversion Hm; subst method.
  rewrite Hfront in Hret.
  pose proof (bank_transfer_approves priced w4) as Hbt.
  rewrite <- Hsvc in Hbt.
  destruct (checkout_from_payment_paid _ _ _ _ _ _ _ _ _ _ Hbt Hret)
    as (invoice & shipment & ->).
  exists (placed_order priced invoice shipment), self', w'.
  rewrite Hfront. exact Hret.
Qed.

Lemma checkout_choice_zero_pays_by_bank_transfer_witness :
  exists order self' w',
    ApplicationController.checkout Demo.controller (Demo.world ["4"; "0"])
    = Py.Ok (ApplicationController.Completed order (true, "BT-0f8fad5b-SUCCESS"),
             self', w').
Proof.
  destruct (checkout_choice_zero_pays_by_bank_transfer Demo.controller
              (Demo.world ["4"; "0"]) Demo.ann Demo.cart Demo.lines
              [0x1.dfd70a3d70a3dp+5%float; 0x1.dfae147ae147bp+3%float]
              ["4"] "0" [] "")
    as (order & self' & w' & H).
  - reflexivity.
  - reflexivity.
  - reflexivity.
  - reflexivity.
  - repeat constructor; eexists; (split; [vm_compute; reflexivity | reflexivity]).
  - vm_compute. reflexivity.
  - reflexivity.
  - repeat constructor.
  - reflexivity.
  - exists order, self', w'. rewrite H. f_equal. f_equal. f_equal. f_equal.
    vm_compute in H. inversion H. reflexivity.
Defined.

(** ** The shopping cart *)

Lemma cart_product_ids_Forall2 ps items ids :
  cart_product_ids ps items = Some ids <-> Forall2 (item_has_id ps) items ids.
Proof. unfold cart_product_ids. apply mapM_Some. Qed.

Lemma item_has_id_inv ps item id :
  item_has_id ps item id ->
  exists p, ps !! CartItem.product item = Some p /\ Product.product_id p = id.
Proof.
  unfold item_has_id. intros H. apply fmap_Some in H as (p & Hp & ->). eauto.
Qed.

Lemma cart_ids_split ps items ids pid :
  Forall2 (item_has_id ps) items ids ->
  (pid ∈ ids) ->
  exists before item after idsb idsa,
    items = before ++ item :: after /\
    ids = idsb ++ pid :: idsa /\
    Forall2 (item_has_id ps) before idsb /\
    (pid ∉ idsb) /\
    item_has_id ps item pid /\
    Forall2 (item_has_id ps) after idsa.
Proof.
  induction 1 as [| item id items ids Hid Hrest IH]; intros Hin.
  - apply elem_of_nil in Hin. destruct Hin.
  - destruct (decide (id = pid)) as [-> | Hne].
    + exists [], item, items, [], ids.
      split; [reflexivity |]. split; [reflexivity |]. split; [constructor |].
      split; [apply not_elem_of_nil |]. split; assumption.
    + apply elem_of_cons in Hin as [-> | Hin]; [congruence |].
      destruct (IH Hin) as (before & it & after & idsb & idsa &
                            -> & -> & Hb & Hnb & Hit & Ha).
      exists (item :: before), it, after, (id :: idsb), idsa.
      split; [reflexivity |]. split; [reflexivity |].
      split; [constructor; assumption |].
      split; [| split; assumption].
      intros [E | E]%elem_of_cons; [congruence | contradiction].
Qed.

Lemma read_product_ok r w p :
  products w !! r = Some p -> Sys.read_product r w = Py.Ok (p, w).
Proof. intros H. unfold Sys.read_product. rewrite H. reflexivity. Qed.

Lemma add_item_loop_found w product p quantity item after before idsb :
  products w !! product = Some p ->
  Forall2 (item_has_id (products w)) before idsb ->
  (Product.product_id p ∉ idsb) ->
  item_has_id (products w) item (Product.product_id p) ->
  ShoppingCart.add_item_loop product quantity (before ++ item :: after) w
  = Py.Ok (Some (before ++ CartItem.mk (CartItem.product item)
                             (CartItem.quantity item + quantity) :: after), w).
Proof.
  intros Hp Hb Hnot Hitem.
  induction Hb as [| x id before idsb Hx _ IH]; cbn [app ShoppingCart.add_item_loop].
  - apply item_has_id_inv in Hitem as (pi & Hpi & Hid).
    rewrite (bind_ok _ _ _ _ _ (read_product_ok _ _ _ Hpi)).
    rewrite (bind_ok _ _ _ _ _ (read_product_ok _ _ _ Hp)).
    rewrite (proj2 (String.eqb_eq _ _) Hid). reflexivity.
  - apply item_has_id_inv in Hx as (px & Hpx & Hid).
    rewrite (bind_ok _ _ _ _ _ (read_product_ok _ _ _ Hpx)).
    rewrite (bind_ok _ _ _ _ _ (read_product_ok _ _ _ Hp)).
    apply not_elem_of_cons in Hnot as [Hne Hnot].
    rewrite (proj2 (String.eqb_neq _ _)) by congruence.
    rewrite (bind_ok _ _ _ _ _ (IH Hnot)). reflexivity.
Qed.

Lemma add_item_loop_absent w product p quantity items ids :
  products w !! product = Some p ->
  Forall2 (item_has_id (products w)) items ids ->
  (Product.product_id p ∉ ids) ->
  ShoppingCart.add_item_loop product quantity items w = Py.Ok (None, w).
Proof.
  intros Hp Hb Hnot.
  induction Hb as [| x id items ids Hx _ IH]; cbn [ShoppingCart.add_item_loop];
    [reflexivity |].
  apply item_has_id_inv in Hx as (px & Hpx & Hid).
  rewrite (bind_ok _ _ _ _ _ (read_product_ok _ _ _ Hpx)).
  rewrite (bind_ok _ _ _ _ _ (read_product_ok _ _ _ Hp)).
  apply not_elem_of_cons in Hnot as [Hne Hnot].
  rewrite (proj2 (String.eqb_neq _ _)) by congruence.
  rewrite (bind_ok _ _ _ _ _ (IH Hnot)). reflexivity.
Qed.

(** X7. [add_item] merges by product id.  When an item of the cart has the
    product id of the added product, the first such item gets the quantity
    added and the cart keeps its items and their order; otherwise one item is
    appended.  The product ids of the cart change only by the appended id, so
    a cart whose product ids are distinct keeps them distinct. *)
Theorem add_item_spec (self : ShoppingCart.t) (product : ref) (quantity : Z)
    (w : World) (p : Product.t) (ids : list string) :
  products w !! product = Some p ->
  cart_product_ids (products w) (ShoppingCart.items self) = Some ids ->
  let pid := Product.product_id p in
  exists cart' ids',
    ShoppingCart.add_item self product quantity w = Py.Ok (cart', w) /\
    ShoppingCart.customer_id cart' = ShoppingCart.customer_id self /\
    cart_product_ids (products w) (ShoppingCart.items cart') = Some ids' /\
    ((pid ∈ ids) ->
     ids' = ids /\
     exists before item after idsb,
       ShoppingCart.items self = before ++ item :: after /\
       cart_product_ids (products w) before = Some idsb /\ (pid ∉ idsb) /\
       item_has_id (products w) item pid /\
       ShoppingCart.items cart'
       = before ++ CartItem.mk (CartItem.product item)
                     (CartItem.quantity item + quantity) :: after) /\
    ((pid ∉ ids) ->
     ids' = ids ++ [pid] /\
     ShoppingCart.items cart'
     = ShoppingCart.items self ++ [CartItem.mk product quantity]) /\
    (NoDup ids -> NoDup ids').
Proof.
  intros Hp Hids pid. apply cart_product_ids_Forall2 in Hids.
  unfold ShoppingCart.add_item.
  destruct (decide (pid ∈ ids)) as [Hin | Hnot].
  - destruct (cart_ids_split _ _ _ _ Hids Hin)
      as (before & item & after & idsb & idsa & Hs & Hi & Hb & Hnb & Hit & Ha).
    rewrite Hs.
    rewrite (bind_ok _ _ _ _ _
               (add_item_loop_found w product p quantity item after before idsb
                  Hp Hb Hnb Hit)).
    eexists _, ids. split; [reflexivity |]. split; [reflexivity |]. split.
    { apply cart_product_ids_Forall2. cbn. rewrite Hi.
      apply Forall2_app; [exact Hb |]. constructor; [exact Hit | exact Ha]. }
    split; [| split; [contradiction | auto]].
    intros _. split; [reflexivity |].
    exists before, item, after, idsb. repeat split; auto.
    apply cart_product_ids_Forall2. exact Hb.
  - rewrite (bind_ok _ _ _ _ _
               (add_item_loop_absent w product p quantity _ ids Hp Hids Hnot)).
    eexists _, (ids ++ [pid]). split; [reflexivity |]. split; [reflexivity |]. split.
    { apply cart_product_ids_Forall2. cbn.
      apply Forall2_app; [exact Hids |]. constructor; [| constructor].
      unfold item_has_id. cbn. rewrite Hp. reflexivity. }
    split; [contradiction |]. split; [auto |].
    intros Hnd. apply NoDup_app. split; [exact Hnd |]. split.
    + intros x Hx Hx'. apply list_elem_of_singleton in Hx'. subst x. contradiction.
    + apply NoDup_singleton.
Qed.

Lemma add_item_spec_witness :
  ShoppingCart.add_item Demo.cart 3%positive 4 Sample.world
  = Py.Ok (ShoppingCart.mk [CartItem.mk 1%positive 6; CartItem.mk 2%positive 1]
             "c-ann", Sample.world).
Proof.
  destruct (add_item_spec Demo.cart 3%positive 4 Sample.world Demo.product_a
              ["p-a"; "p-b"] eq_refl eq_refl)
    as (cart' & ids' & Hrun & _).
  rewrite Hrun. vm_compute in Hrun. inversion Hrun. reflexivity.
Defined.

Lemma remove_item_loop_found w pid item after before idsb :
  Forall2 (item_has_id (products w)) before idsb ->
  (pid ∉ idsb) ->
  item_has_id (products w) item pid ->
  ShoppingCart_remove_item_loop pid (before ++ item :: after) w
  = Py.Ok (Some (before ++ after), w).
Proof.
  intros Hb Hnot Hitem.
  induction Hb as [| x id before idsb Hx _ IH];
    cbn [app ShoppingCart_remove_item_loop].
  - apply item_has_id_inv in Hitem as (pi & Hpi & Hid).
    rewrite (bind_ok _ _ _ _ _ (read_product_ok _ _ _ Hpi)).
    rewrite (proj2 (String.eqb_eq _ _) Hid). reflexivity.
  - apply item_has_id_inv in Hx as (px & Hpx & Hid).
    rewrite (bind_ok _ _ _ _ _ (read_product_ok _ _ _ Hpx)).
    apply not_elem_of_cons in Hnot as [Hne Hnot].
    rewrite (proj2 (String.eqb_neq _ _)) by congruence.
    rewrite (bind_ok _ _ _ _ _ (IH Hnot)). reflexivity.
Qed.

Lemma remove_item_loop_absent w pid items ids :
  Forall2 (item_has_id (products w)) items ids ->
  (pid ∉ ids) ->
  ShoppingCart_remove_item_loop pid items w = Py.Ok (None, w).
Proof.
  intros Hb Hnot.
  induction Hb as [| x id items ids Hx _ IH];
    cbn [ShoppingCart_remove_item_loop]; [reflexivity |].
  apply item_has_id_inv in Hx as (px & Hpx & Hid).
  rewrite (bind_ok _ _ _ _ _ (read_product_ok _ _ _ Hpx)).
  apply not_elem_of_cons in Hnot as [Hne Hnot].
  rewrite (proj2 (String.eqb_neq _ _)) by congruence.
  rewrite (bind_ok _ _ _ _ _ (IH Hnot)). reflexivity.
Qed.

(** X8. [remove_item] answers [False] and leaves the cart as it is when no
    item has the product id.  Otherwise it answers [True] and pops the first
    item with that id, keeping the other items in order; in a cart whose
    product ids are distinct, no item with the id is left. *)
Theorem remove_item_spec (self : ShoppingCart.t) (product_id : string)
    (w : World) (ids : list string) :
  cart_product_ids (products w) (ShoppingCart.items self) = Some ids ->
  exists answer cart',
    ShoppingCart_remove_item self product_id w = Py.Ok ((answer, cart'), w) /\
    ((product_id ∉ ids) -> answer = false /\ cart' = self) /\
    ((product_id ∈ ids) ->
     answer = true /\
     ShoppingCart.customer_id cart' = ShoppingCart.customer_id self /\
     exists before item after idsb idsa,
       ShoppingCart.items self = before ++ item :: after /\
       ShoppingCart.items cart' = before ++ after /\
       item_has_id (products w) item product_id /\
       cart_product_ids (products w) before = Some idsb /\
       (product_id ∉ idsb) /\
       cart_product_ids (products w) after = Some idsa /\
       ids = idsb ++ product_id :: idsa /\
       (NoDup ids -> (product_id ∉ idsb ++ idsa))).
Proof.
  intros Hids. apply cart_product_ids_Forall2 in Hids.
  unfold ShoppingCart_remove_item.
  destruct (decide (product_id ∈ ids)) as [Hin | Hnot].
  - destruct (cart_ids_split _ _ _ _ Hids Hin)
      as (before & item & after & idsb & idsa & Hs & Hi & Hb & Hnb & Hit & Ha).
    rewrite Hs.
    rewrite (bind_ok _ _ _ _ _
               (remove_item_loop_found w product_id item after before idsb
                  Hb Hnb Hit)).
    eexists _, _. split; [reflexivity |]. split; [contradiction |].
    intros _. split; [reflexivity |]. split; [reflexivity |].
    exists before, item, after, idsb, idsa.
    split; [reflexivity |]. split; [reflexivity |]. split; [exact Hit |].
    split; [apply cart_product_ids_Forall2; exact Hb |]. split; [exact Hnb |].
    split; [apply cart_product_ids_Forall2; exact Ha |]. split; [exact Hi |].
    intros Hnd. rewrite Hi in Hnd. apply NoDup_app in Hnd as (_ & Hdisj & Hnd).
    apply NoDup_cons in Hnd as [Hna _].
    intros [E | E]%elem_of_app; contradiction.
  - rewrite (bind_ok _ _ _ _ _
               (remove_item_loop_absent w product_id _ ids Hids Hnot)).
    eexists _, _. split; [reflexivity |]. split; [auto | contradiction].
Qed.

Lemma remove_item_spec_witness :
  ShoppingCart_remove_item Demo.cart "p-a" Sample.world
  = Py.Ok ((true, ShoppingCart.mk [CartItem.mk 2%positive 1] "c-ann"), Sample.world)
  /\
  ShoppingCart_remove_item Demo.cart "p-z" Sample.world
  = Py.Ok ((false, Demo.cart), Sample.world).
Proof.
  destruct (remove_item_spec Demo.cart "p-a" Sample.world ["p-a"; "p-b"] eq_refl)
    as (a1 & c1 & Hrun1 & _).
  destruct (remove_item_spec Demo.cart "p-z" Sample.world ["p-a"; "p-b"] eq_refl)
    as (a2 & c2 & Hrun2 & Habsent & _).
  split.
  - rewrite Hrun1. vm_compute in Hrun1. inversion Hrun1. reflexivity.
  - rewrite Hrun2. destruct Habsent as [-> ->]; [| reflexivity].
    intros H. vm_compute in H.
    repeat (apply elem_of_cons in H as [H | H]; [discriminate |]).
    apply elem_of_nil in H. exact H.
Defined.

Lemma update_item_quantity_loop_found w pid q item after before idsb :
  Forall2 (item_has_id (products w)) before idsb ->
  (pid ∉ idsb) ->
  item_has_id (products w) item pid ->
  ShoppingCart_update_item_quantity_loop pid q (before ++ item :: after) w
  = Py.Ok (Some (before ++ CartItem.mk (CartItem.product item) q :: after), w).
Proof.
  intros Hb Hnot Hitem.
  induction Hb as [| x id before idsb Hx _ IH];
    cbn [app ShoppingCart_update_item_quantity_loop].
  - apply item_has_id_inv in Hitem as (pi & Hpi & Hid).
    rewrite (bind_ok _ _ _ _ _ (read_product_ok _ _ _ Hpi)).
    rewrite (proj2 (String.eqb_eq _ _) Hid). reflexivity.
  - apply item_has_id_inv in Hx as (px & Hpx & Hid).
    rewrite (bind_ok _ _ _ _ _ (read_product_ok _ _ _ Hpx)).
    apply not_elem_of_cons in Hnot as [Hne Hnot].
    rewrite (proj2 (String.eqb_neq _ _)) by congruence.
    rewrite (bind_ok _ _ _ _ _ (IH Hnot)). reflexivity.
Qed.

Lemma update_item_quantity_loop_absent w pid q items ids :
  Forall2 (item_has_id (products w)) items ids ->
  (pid ∉ ids) ->
  ShoppingCart_update_item_quantity_loop pid q items w = Py.Ok (None, w).
Proof.
  intros Hb Hnot.
  induction Hb as [| x id items ids Hx _ IH];
    cbn [ShoppingCart_update_item_quantity_loop]; [reflexivity |].
  apply item_has_id_inv in Hx as (px & Hpx & Hid).
  rewrite (bind_ok _ _ _ _ _ (read_product_ok _ _ _ Hpx)).
  apply not_elem_of_cons in Hnot as [Hne Hnot].
  rewrite (proj2 (String.eqb_neq _ _)) by congruence.
  rewrite (bind_ok _ _ _ _ _ (IH Hnot)). reflexivity.
Qed.

(** X9. [update_item_quantity] answers [False] and leaves the cart as it is
    when no item has the product id.  Otherwise it answers [True] and gives
    the first item with that id the new quantity, whatever its value, keeping
    every item's product and the order of the items, hence the product ids. *)
Theorem update_item_quantity_spec (self : ShoppingCart.t) (product_id : string)
    (new_quantity : Z) (w : World) (ids : list string) :
  cart_product_ids (products w) (ShoppingCart.items self) = Some ids ->
  exists answer cart',
    ShoppingCart_update_item_quantity self product_id new_quantity w
    = Py.Ok ((answer, cart'), w) /\
    cart_product_ids (products w) (ShoppingCart.items cart') = Some ids /\
    ((product_id ∉ ids) -> answer = false /\ cart' = self) /\
    ((product_id ∈ ids) ->
     answer = true /\
     ShoppingCart.customer_id cart' = ShoppingCart.customer_id self /\
     exists before item after idsb,
       ShoppingCart.items self = before ++ item :: after /\
       ShoppingCart.items cart'
       = before ++ CartItem.mk (CartItem.product item) new_quantity :: after /\
       item_has_id (products w) item product_id /\
       cart_product_ids (products w) before = Some idsb /\
       (product_id ∉ idsb)).
Proof.
  intros Hids. apply cart_product_ids_Forall2 in Hids.
  unfold ShoppingCart_update_item_quantity.
  destruct (decide (product_id ∈ ids)) as [Hin | Hnot].
  - destruct (cart_ids_split _ _ _ _ Hids Hin)
      as (before & item & after & idsb & idsa & Hs & Hi & Hb & Hnb & Hit & Ha).
    rewrite Hs.
    rewrite (bind_ok _ _ _ _ _
               (update_item_quantity_loop_found w product_id new_quantity item
                  after before idsb Hb Hnb Hit)).
    eexists _, _. split; [reflexivity |]. split.
    { apply cart_product_ids_Forall2. cbn. rewrite Hi.
      apply Forall2_app; [exact Hb |]. constructor; [exact Hit | exact Ha]. }
    split; [contradiction |].
    intros _. split; [reflexivity |]. split; [reflexivity |].
    exists before, item, after, idsb.
    split; [reflexivity |]. split; [reflexivity |]. split; [exact Hit |].
    split; [apply cart_product_ids_Forall2; exact Hb | exact Hnb].
  - rewrite (bind_ok _ _ _ _ _
               (update_item_quantity_loop_absent w product_id new_quantity _ ids
                  Hids Hnot)).
    eexists _, _. split; [reflexivity |].
    split; [apply cart_product_ids_Forall2; exact Hids |].
    split; [auto | contradiction].
Qed.

Lemma update_item_quantity_spec_witness :
  ShoppingCart_update_item_quantity Demo.cart "p-b" (-2) Sample.world
  = Py.Ok ((true, ShoppingCart.mk [CartItem.mk 1%positive 2; CartItem.mk 2%positive (-2)]
                    "c-ann"), Sample.world).
Proof.
  destruct (update_item_quantity_spec Demo.cart "p-b" (-2) Sample.world
              ["p-a"; "p-b"] eq_refl)
    as (a & c & Hrun & _).
  rewrite Hrun. vm_compute in Hrun. inversion Hrun. reflexivity.
Defined.

(** ** Shipments and invoices *)

Lemma upper_ascii_idem c : Py.upper_ascii (Py.upper_ascii c) = Py.upper_ascii c.
Proof.
  destruct c as [[] [] [] [] [] [] [] []]; reflexivity.
Qed.

Lemma upper_idem s : Py.upper (Py.upper s) = Py.upper s.
Proof.
  induction s as [| c s IH]; cbn; [reflexivity |].
  rewrite upper_ascii_idem, IH. reflexivity.
Qed.

Lemma upper_length s : String.length (Py.upper s) = String.length s.
Proof. induction s as [| c s IH]; cbn; [reflexivity | rewrite IH; reflexivity]. Qed.

Lemma prefix_length n s : (String.length (Py.prefix n s) <= n)%nat.
Proof.
  unfold Py.prefix. revert s. induction n as [| n IH]; intros s.
  - destruct s; cbn; lia.
  - destruct s as [| c s]; cbn; [lia |]. specialize (IH s). lia.
Qed.

Lemma string_app_length s1 s2 :
  String.length (s1 +:+ s2) = (String.length s1 + String.length s2)%nat.
Proof. induction s1 as [| c s1 IH]; simpl; [reflexivity | f_equal; exact IH]. Qed.

Lemma upper_app s1 s2 : Py.upper (s1 +:+ s2) = Py.upper s1 +:+ Py.upper s2.
Proof. induction s1 as [| c s1 IH]; simpl; [reflexivity | rewrite IH; reflexivity]. Qed.

(** X10. A new shipment is "Pending", belongs to the order it was made for and
    consumes one id and one clock reading.  Its tracking number is "TRACK-"
    followed by the first eight characters of its id in upper case: at most
    fourteen characters, none of them a lower-case letter, and the same for
    any two ids that agree on their first eight characters. *)
Theorem shipment_init_spec (order_id : string) (w : World) :
  exists shipment,
    Shipment.__init__ order_id w
    = Py.Ok (shipment,
             Sys.set_time_count (S (time_count w))
               (Sys.set_uuid_count (S (uuid_count w)) w)) /\
    Shipment.shipment_id shipment = uuids w (uuid_count w) /\
    Shipment.order_id shipment = order_id /\
    Shipment.status shipment = "Pending" /\
    Shipment.get_latest_status shipment = "Pending" /\
    Shipment.created_at shipment = times w (time_count w) /\
    Shipment.tracking_number shipment
    = "TRACK-" +:+ Py.upper (Py.prefix 8 (Shipment.shipment_id shipment)) /\
    (String.length (Shipment.tracking_number shipment) <= 14)%nat /\
    Py.upper (Shipment.tracking_number shipment) = Shipment.tracking_number shipment /\
    (forall w2 shipment2 w2',
        Shipment.__init__ order_id w2 = Py.Ok (shipment2, w2') ->
        Py.prefix 8 (Shipment.shipment_id shipment2)
        = Py.prefix 8 (Shipment.shipment_id shipment) ->
        Shipment.tracking_number shipment2 = Shipment.tracking_number shipment).
Proof.
  eexists. split; [cbv [Shipment.__init__ Py.bind Sys.uuid4 Sys.now Py.ret];
                   reflexivity |].
  cbn [Shipment.shipment_id Shipment.order_id Shipment.status Shipment.created_at
       Shipment.tracking_number Shipment.get_latest_status].
  repeat (split; [reflexivity |]). split; [| split].
  - pose proof (prefix_length 8 (uuids w (uuid_count w))) as H.
    rewrite string_app_length, upper_length. cbn [String.length]. lia.
  - rewrite upper_app, upper_idem. reflexivity.
  - intros w2 s2 w2' H2 Hp. cbv [Shipment.__init__ Py.bind Sys.uuid4 Sys.now Py.ret] in H2.
    inversion H2; subst.
    cbn [Shipment.shipment_id Shipment.tracking_number] in *.
    rewrite Hp. reflexivity.
Qed.

(** X11. A shipment survives the round trip through its dictionary exactly:
    [from_dict(to_dict(s))] is [s] again and [to_dict(from_dict(d))] is [d];
    the id and the clock reading that the constructor draws are overwritten. *)
Theorem shipment_round_trip (s : Shipment.t) (d : Json.Shipment.t) (w : World) :
  (exists w', Shipment.from_dict (Shipment.to_dict s) w = Py.Ok (s, w') /\
              lists w' = lists w /\ products w' = products w /\
              orders_file w' = orders_file w) /\
  (exists s' w', Shipment.from_dict d w = Py.Ok (s', w') /\ Shipment.to_dict s' = d).
Proof.
  split.
  - destruct s. eexists.
    split; [cbv [Shipment.from_dict Shipment.to_dict Shipment.__init__ Py.bind
                  Sys.uuid4 Sys.now Py.ret]; reflexivity |].
    repeat split.
  - destruct d. eexists _, _.
    split; [cbv [Shipment.from_dict Shipment.__init__ Py.bind
                  Sys.uuid4 Sys.now Py.ret]; reflexivity | reflexivity].
Qed.

(** X12. An invoice read back from its dictionary keeps its ids, dates and
    amounts but not its items: the dictionary holds one entry per line, and
    the invoice read from it has a new, empty list. *)
Theorem invoice_round_trip_loses_items (invoice : Invoice.t) (w : World)
    (d : Json.Invoice.t) (lines : list OrderLine.t) :
  lists w !! Invoice.items invoice = Some lines ->
  Invoice.to_dict invoice w = Py.Ok (d, w) ->
  exists found w',
    Invoice.from_dict d w = Py.Ok (found, w') /\
    Invoice.invoice_id found = Invoice.invoice_id invoice /\
    Invoice.order_id found = Invoice.order_id invoice /\
    Invoice.customer_id found = Invoice.customer_id invoice /\
    Invoice.invoice_date found = Invoice.invoice_date invoice /\
    Invoice.due_date found = Invoice.due_date invoice /\
    Invoice.subtotal found = Invoice.subtotal invoice /\
    Invoice.tax_amount found = Invoice.tax_amount invoice /\
    Invoice.total_amount found = Invoice.total_amount invoice /\
    length (Json.Invoice.items d) = length lines /\
    lists w' !! Invoice.items found = Some [] /\
    lists w' !! Invoice.items invoice = Some lines.
Proof.
  intros Hl Hd. unfold Invoice.to_dict in Hd.
  apply bind_ok_inv in Hd as (lines' & w1 & Hl' & Hd).
  apply deref_ok_inv in Hl' as [Hl' ->]. rewrite Hl in Hl'. inversion Hl'; subst lines'.
  apply bind_ok_inv in Hd as (ps & w2 & Hp & Hd). cbn in Hp. inversion Hp; subst.
  apply bind_ok_inv in Hd as (ds & w3 & Hds & Hd).
  apply lift_ok_inv in Hds as [Hds ->]. cbn in Hd. inversion Hd; subst d.
  eexists _, _.
  split; [cbv [Invoice.from_dict Invoice.__init__ Py.bind Sys.new_list
                Sys.uuid4 Sys.now Py.ret]; reflexivity |].
  cbn [Invoice.invoice_id Invoice.order_id Invoice.customer_id Invoice.invoice_date
       Invoice.due_date Invoice.subtotal Invoice.tax_amount Invoice.total_amount
       Invoice.items Json.Invoice.invoice_id Json.Invoice.order_id
       Json.Invoice.customer_id Json.Invoice.invoice_date Json.Invoice.due_date
       Json.Invoice.subtotal Json.Invoice.tax_amount Json.Invoice.total_amount
       Json.Invoice.items lists Sys.set_lists Sys.set_uuid_count Sys.set_time_count].
  repeat (split; [reflexivity |]).
  split; [eapply traverse_length; exact Hds |].
  split; [apply lookup_insert_eq |].
  rewrite lookup_insert_ne; [exact Hl |].
  intros Heq. pose proof (is_fresh (dom (lists w2))) as Hfresh.
  rewrite Heq in Hfresh. apply Hfresh. apply elem_of_dom. eauto.
Qed.

Lemma invoice_round_trip_loses_items_witness :
  exists found w',
    Invoice.from_dict Sample.invoice_dict Demo.order_world = Py.Ok (found, w') /\
    Invoice.invoice_id found = "a3bb189e-0000" /\
    length (Json.Invoice.items Sample.invoice_dict) = 2%nat /\
    lists w' !! Invoice.items found = Some [].
Proof.
  destruct (invoice_round_trip_loses_items Sample.invoice Demo.order_world
              Sample.invoice_dict Demo.lines)
    as (found & w' & Hrun & Hid & _ & _ & _ & _ & _ & _ & _ & Hlen & Hempty & _).
  - reflexivity.
  - vm_compute. reflexivity.
  - exists found, w'. auto.
Defined.

(** ** The carrier adapter *)

(** The index [hash(...) % 6] is within the list of [CarrierAdapter()]. *)
Lemma carrier_lookup_returns (hash : string -> Z) (tracking_number : string) :
  exists status,
    CarrierAdapter.get_tracking_info hash CarrierAdapter.__init__ tracking_number
    = CarrierAdapter.Returns (status, "2025-11-15") /\
    In status (CarrierAdapter.mock_statuses CarrierAdapter.__init__).
Proof.
  unfold CarrierAdapter.get_tracking_info.
  cbn [CarrierAdapter.mock_statuses CarrierAdapter.__init__ length].
  change (Z.of_nat 6) with 6. change (6 =? 0) with false. cbv iota.
  pose proof (Z.mod_pos_bound (hash tracking_number) 6 ltac:(lia)) as Hb.
  set (i := hash tracking_number `mod` 6) in *.
  assert (Hi : i = 0 \/ i = 1 \/ i = 2 \/ i = 3 \/ i = 4 \/ i = 5) by lia.
  destruct Hi as [-> | [-> | [-> | [-> | [-> | ->]]]]];
    eexists; (split; [reflexivity | cbn; auto 10]).
Qed.

(** X13. Whatever Python's [hash] gives for a tracking number, the carrier
    lookup of [CarrierAdapter()] returns: the index [hash(...) % 6] is always
    within the list.  The status is one of the six carrier statuses, never
    "Pending", and the estimated delivery is always "2025-11-15". *)
Theorem get_tracking_info_spec (hash : string -> Z) (tracking_number : string) :
  exists status,
    CarrierAdapter.get_tracking_info hash CarrierAdapter.__init__ tracking_number
    = CarrierAdapter.Returns (status, "2025-11-15") /\
    In status (CarrierAdapter.mock_statuses CarrierAdapter.__init__) /\
    status <> "Pending".
Proof.
  destruct (carrier_lookup_returns hash tracking_number) as (status & Hrun & Hin).
  exists status. split; [exact Hrun |]. split; [exact Hin |].
  cbn [CarrierAdapter.mock_statuses CarrierAdapter.__init__ In] in Hin.
  intros ->.
  destruct Hin as [H | [H | [H | [H | [H | [H | []]]]]]]; discriminate H.
Qed.

(** X14. [update_shipment_status] always returns: it replaces the status of
    the shipment by the carrier's status for its tracking number and leaves
    the rest of the shipment as it was, so a second update changes nothing. *)
Theorem update_shipment_status_spec (hash : string -> Z) (shipment : Shipment.t) :
  exists status shipment',
    CarrierAdapter.update_shipment_status hash CarrierAdapter.__init__ shipment
    = CarrierAdapter.Returns (status, shipment') /\
    Shipment.status shipment' = status /\
    In status (CarrierAdapter.mock_statuses CarrierAdapter.__init__) /\
    Shipment.shipment_id shipment' = Shipment.shipment_id shipment /\
    Shipment.order_id shipment' = Shipment.order_id shipment /\
    Shipment.tracking_number shipment' = Shipment.tracking_number shipment /\
    Shipment.created_at shipment' = Shipment.created_at shipment /\
    CarrierAdapter.update_shipment_status hash CarrierAdapter.__init__ shipment'
    = CarrierAdapter.Returns (status, shipment').
Proof.
  destruct (carrier_lookup_returns hash (Shipment.tracking_number shipment))
    as (status & Hinfo & Hin).
  unfold CarrierAdapter.update_shipment_status. rewrite Hinfo.
  eexists _, _. split; [reflexivity |].
  cbn [Shipment.status Shipment.shipment_id Shipment.order_id
       Shipment.tracking_number Shipment.created_at].
  repeat (split; [first [reflexivity | exact Hin] |]).
  rewrite Hinfo. reflexivity.
Qed.

(** ** Validators *)




(** ** Customers *)

Lemma in_world_ok {A} (c : M A) (s : Site) a w' :
  c (site_world s) = Py.Ok (a, w') ->
  Files.in_world c s = Py.Ok (a, Files.set_world w' s).
Proof. intros H. unfold Files.in_world. rewrite H. reflexivity. Qed.

Lemma customer_load_all_eq (s : Site) :
  CustomerRepository._load_all s = Py.Ok (users s, s).
Proof. reflexivity. Qed.

Lemma customer_to_dict_inj c1 c2 :
  Customer_to_dict c1 = Customer_to_dict c2 -> c1 = c2.
Proof.
  destruct c1 as [i1 n1 e1 p1 [a1 b1 c1 d1] t1], c2 as [i2 n2 e2 p2 [a2 b2 c2 d2] t2].
  unfold Customer_to_dict, Address_to_dict. cbn. intros H. inversion H. reflexivity.
Qed.

(** Reading a customer from a dictionary draws one id and one clock reading
    and gives the customer whose dictionary it is. *)
Lemma customer_from_dict_spec (d : Dict.Customer.t) (w : World) :
  exists c,
    Customer_from_dict d w
    = Py.Ok (c, Sys.set_time_count (S (time_count w))
                  (Sys.set_uuid_count (S (uuid_count w)) w)) /\
    Customer_to_dict c = d.
Proof.
  destruct d as [i n e p [a b c d] t]. eexists.
  split; [cbv [Customer_from_dict Customer_init Py.bind Sys.uuid4 Sys.now Py.ret];
          reflexivity | reflexivity].
Qed.

(** X17. A customer survives the round trip through its dictionary exactly,
    address included: [from_dict(to_dict(c))] is [c] again; the id and the
    clock reading that the constructor draws are overwritten. *)
Theorem customer_round_trip (c : Customer.t) (w : World) :
  exists w',
    Customer_from_dict (Customer_to_dict c) w = Py.Ok (c, w') /\
    lists w' = lists w /\ products w' = products w /\
    orders_file w' = orders_file w.
Proof.
  destruct (customer_from_dict_spec (Customer_to_dict c) w) as (c' & Hrun & Hd).
  apply customer_to_dict_inj in Hd. subst c'.
  eexists. split; [exact Hrun |]. repeat split.
Qed.

Lemma first_with_email email (records : list Dict.Customer.t) :
  Forall (fun d => Dict.Customer.email d <> email) records \/
  exists before d after,
    records = before ++ d :: after /\
    Forall (fun o => Dict.Customer.email o <> email) before /\
    Dict.Customer.email d = email.
Proof.
  induction records as [| c rest IH]; [left; constructor |].
  destruct (decide (Dict.Customer.email c = email)) as [E | E].
  - right. exists [], c, rest. auto.
  - destruct IH as [IH | (before & d & after & -> & Hb & Hd)].
    + left. constructor; assumption.
    + right. exists (c :: before), d, after. auto.
Qed.


Lemma customer_save_loop_absent email records :
  Forall (fun o => Dict.Customer.email o <> email) records ->
  forall k, CustomerRepository.save_loop email k records = None.
Proof.
  induction 1 as [| o l Ho _ IH]; intros k; cbn; [reflexivity |].
  rewrite (proj2 (String.eqb_neq _ _) Ho). apply IH.
Qed.

Lemma find_by_email_loop_found email before d after s :
  Forall (fun o => Dict.Customer.email o <> email) before ->
  Dict.Customer.email d = email ->
  CustomerRepository.find_by_email_loop email (before ++ d :: after) s
  = (let* customer := Files.in_world (Customer_from_dict d) in
     Py.ret (Some customer)) s.
Proof.
  intros Hb Hd.
  induction Hb as [| o before Ho _ IH];
    cbn [app CustomerRepository.find_by_email_loop].
  - rewrite (proj2 (String.eqb_eq _ _) Hd). reflexivity.
  - rewrite (proj2 (String.eqb_neq _ _) Ho). exact IH.
Qed.

Lemma find_by_email_loop_absent email records s :
  Forall (fun o => Dict.Customer.email o <> email) records ->
  CustomerRepository.find_by_email_loop email records s = Py.Ok (None, s).
Proof.
  induction 1 as [| o l Ho _ IH]; cbn; [reflexivity |].
  rewrite (proj2 (String.eqb_neq _ _) Ho). exact IH.
Qed.

(** The site after a customer was read from the users file. *)
Lemma find_by_email_found email before d after s :
  users s = before ++ d :: after ->
  Forall (fun o => Dict.Customer.email o <> email) before ->
  Dict.Customer.email d = email ->
  exists c s',
    CustomerRepository.find_by_email email s = Py.Ok (Some c, s') /\
    Customer_to_dict c = d /\
    users_file s' = users_file s /\ products_file s' = products_file s /\
    uuids (site_world s') = uuids (site_world s) /\
    times (site_world s') = times (site_world s).
Proof.
  intros Hs Hb Hd.
  destruct (customer_from_dict_spec d (site_world s)) as (c & Hrun & Hc).
  exists c. eexists. unfold CustomerRepository.find_by_email.
  rewrite (bind_ok _ _ _ _ _ (customer_load_all_eq s)), Hs.
  rewrite (find_by_email_loop_found _ _ _ _ _ Hb Hd).
  rewrite (bind_ok _ _ _ _ _ (in_world_ok _ _ _ _ Hrun)).
  split; [reflexivity |]. split; [exact Hc |]. repeat split.
Qed.

Lemma find_by_email_absent email s :
  Forall (fun o => Dict.Customer.email o <> email) (users s) ->
  CustomerRepository.find_by_email email s = Py.Ok (None, s).
Proof.
  intros H. unfold CustomerRepository.find_by_email.
  rewrite (bind_ok _ _ _ _ _ (customer_load_all_eq s)).
  apply find_by_email_loop_absent. exact H.
Qed.

Lemma customer_save_ok customer s :
  CustomerRepository.save customer s
  = Py.Ok (tt, Files.set_users_file
                 (JsonList
                    match CustomerRepository.save_loop (Customer.email customer) 0
                            (users s) with
                    | Some i => <[i := Customer_to_dict customer]> (users s)
                    | None => users s ++ [Customer_to_dict customer]
                    end) s).
Proof.
  unfold CustomerRepository.save.
  rewrite (bind_ok _ _ _ _ _ (customer_load_all_eq s)).
  destruct (CustomerRepository.save_loop _ _ _); reflexivity.
Qed.

(** The run of [register] with an email that is not stored yet, and the
    users file it writes. *)
Lemma register_appends_record (name email password street city postal_code country
    : string) (s : Site) :
  Forall (fun d => Dict.Customer.email d <> email) (users s) ->
  exists s',
    AuthenticationService.register name email password street city postal_code
      country s
    = Py.Ok ((true, "Customer registered successfully! Customer ID: "
                      +:+ uuids (site_world s) (uuid_count (site_world s))), s') /\
    users_file s'
    = JsonList
        (users s
         ++ [Customer_to_dict
               (Customer.mk (uuids (site_world s) (uuid_count (site_world s)))
                  name email password (Address.mk street city postal_code country)
                  (times (site_world s) (time_count (site_world s))))]) /\
    products_file s' = products_file s.
Proof.
  intros Hfree. unfold AuthenticationService.register.
  rewrite (bind_ok _ _ _ _ _ (find_by_email_absent _ _ Hfree)).
  erewrite bind_ok;
    [| apply in_world_ok;
       cbv [Customer_init Py.bind Sys.uuid4 Sys.now Py.ret]; reflexivity].
  erewrite bind_ok by apply customer_save_ok.
  cbn [Customer.email].
  change (users (Files.set_world _ s)) with (users s).
  rewrite (customer_save_loop_absent _ _ Hfree).
  eexists. split; [reflexivity |]. split; reflexivity.
Qed.

(** X18. [register] with an email that no stored customer has returns
    [True] and appends one record to the users file: the new customer has
    the next id and clock reading, the given name, email, password and
    address, and the message ends with the id.  The other records and the
    products file are left as they are. *)
Theorem register_new_email (name email password street city postal_code country
    : string) (s : Site) :
  Forall (fun d => Dict.Customer.email d <> email) (users s) ->
  let w := site_world s in
  let id := uuids w (uuid_count w) in
  exists s',
    AuthenticationService.register name email password street city postal_code
      country s
    = Py.Ok ((true, "Customer registered successfully! Customer ID: " +:+ id), s') /\
    users s'
    = users s ++ [Dict.Customer.mk id name email password
                    (Dict.Address.mk street city postal_code country)
                    (times w (time_count w))] /\
    products_file s' = products_file s.
Proof.
  intros Hfree w id.
  destruct (register_appends_record name email password street city postal_code
              country s Hfree) as (s' & Hrun & Hu & Hp).
  exists s'. split; [exact Hrun |]. split; [| exact Hp].
  unfold users at 1. rewrite Hu. reflexivity.
Qed.

Lemma register_new_email_witness :
  exists s',
    AuthenticationService.register "Ann" "ann@example.org" "secret" "1 Road"
      "Town" "1234" "Land" Sample.site
    = Py.Ok ((true, "Customer registered successfully! Customer ID: "
                      +:+ "0f8fad5b-d9cb-469f-a165-70867280"), s') /\
    length (users s') = 1%nat.
Proof.
  destruct (register_new_email "Ann" "ann@example.org" "secret" "1 Road"
              "Town" "1234" "Land" Sample.site)
    as (s' & Hrun & Hu & _).
  - constructor.
  - exists s'. split; [exact Hrun |]. rewrite Hu. reflexivity.
Defined.

(** The run of [register] when the first record with the email is known. *)
Lemma register_refuses_taken (name email password street city postal_code country
    : string) (s : Site) before d after :
  users s = before ++ d :: after ->
  Forall (fun o => Dict.Customer.email o <> email) before ->
  Dict.Customer.email d = email ->
  exists s',
    AuthenticationService.register name email password street city postal_code
      country s
    = Py.Ok ((false, "Email '" +:+ email +:+ "' is already registered."), s') /\
    users_file s' = users_file s /\
    products_file s' = products_file s.
Proof.
  intros Hs Hb Hd.
  destruct (find_by_email_found email before d after s Hs Hb Hd)
    as (c & s' & Hfind & _ & Hu & Hp & _).
  exists s'. unfold AuthenticationService.register.
  rewrite (bind_ok _ _ _ _ _ Hfind). auto.
Qed.

(** X19. [register] with an email that a stored customer already has returns
    [False] with the message naming the email, and writes nothing: the users
    file and the products file are as before. *)
Theorem register_taken_email (name email password street city postal_code country
    : string) (s : Site) :
  Exists (fun d => Dict.Customer.email d = email) (users s) ->
  exists s',
    AuthenticationService.register name email password street city postal_code
      country s
    = Py.Ok ((false, "Email '" +:+ email +:+ "' is already registered."), s') /\
    users_file s' = users_file s /\
    products_file s' = products_file s.
Proof.
  intros Hex.
  destruct (first_with_email email (users s))
    as [Hnone | (before & d & after & Hs & Hb & Hd)].
  - exfalso. apply Exists_exists in Hex as (d & Hin & Hd).
    rewrite Forall_forall in Hnone. exact (Hnone d Hin Hd).
  - exact (register_refuses_taken name email password street city postal_code
             country s before d after Hs Hb Hd).
Qed.

Lemma register_taken_email_witness :
  exists s',
    AuthenticationService.register "Ann B" "ann@example.org" "other" "3 Way"
      "Town" "1234" "Land" Sample.site_with_users
    = Py.Ok ((false, "Email 'ann@example.org' is already registered."), s') /\
    users_file s' = users_file Sample.site_with_users.
Proof.
  destruct (register_taken_email "Ann B" "ann@example.org" "other" "3 Way"
              "Town" "1234" "Land" Sample.site_with_users)
    as (s' & Hrun & Hu & _).
  - left. reflexivity.
  - exists s'. split; [exact Hrun | exact Hu].
Defined.

(** The run of [login] when the first record with the email is known. *)
Lemma login_known_email (email password : string) (s : Site) before d after :
  users s = before ++ d :: after ->
  Forall (fun o => Dict.Customer.email o <> email) before ->
  Dict.Customer.email d = email ->
  exists c s',
    Customer_to_dict c = d /\
    users_file s' = users_file s /\ products_file s' = products_file s /\
    AuthenticationService.login email password s
    = Py.Ok (if String.eqb (Dict.Customer.password d) password
             then (Some c, "Login successful!")
             else (None, "Incorrect password."), s').
Proof.
  intros Hs Hb Hd.
  destruct (find_by_email_found email before d after s Hs Hb Hd)
    as (c & s' & Hfind & Hc & Hu & Hp & _).
  exists c, s'. split; [exact Hc |]. split; [exact Hu |]. split; [exact Hp |].
  unfold AuthenticationService.login. rewrite (bind_ok _ _ _ _ _ Hfind).
  rewrite <- Hc. cbn [Customer_to_dict Dict.Customer.password].
  destruct (String.eqb (Customer.password c) password); reflexivity.
Qed.

(** X20. [login] looks at the first stored customer with the email.  With no
    such customer it answers that the email is not registered and leaves the
    site as it was; with one, it returns that customer when the password is
    the stored one and "Incorrect password." otherwise.  It never writes. *)
Theorem login_spec (email password : string) (s : Site) :
  (Forall (fun d => Dict.Customer.email d <> email) (users s) ->
   AuthenticationService.login email password s
   = Py.Ok ((None, "Email '" +:+ email +:+ "' is not registered."), s)) /\
  (forall before d after,
      users s = before ++ d :: after ->
      Forall (fun o => Dict.Customer.email o <> email) before ->
      Dict.Customer.email d = email ->
      exists c s',
        Customer_to_dict c = d /\
        users_file s' = users_file s /\ products_file s' = products_file s /\
        AuthenticationService.login email password s
        = Py.Ok (if String.eqb (Dict.Customer.password d) password
                 then (Some c, "Login successful!")
                 else (None, "Incorrect password."), s')).
Proof.
  split.
  - intros Hnone. unfold AuthenticationService.login.
    rewrite (bind_ok _ _ _ _ _ (find_by_email_absent _ _ Hnone)). reflexivity.
  - intros before d after Hs Hb Hd.
    exact (login_known_email email password s before d after Hs Hb Hd).
Qed.

Lemma login_spec_witness :
  AuthenticationService.login "ann@example.org" "secret" Sample.site
  = Py.Ok ((None, "Email 'ann@example.org' is not registered."), Sample.site).
Proof.
  destruct (login_spec "ann@example.org" "secret" Sample.site) as (Hnone & _).
  apply Hnone. constructor.
Defined.

(** X21. Register, then log in: after a successful registration, [login]
    with the same email and password returns the registered customer, with
    the id named in the registration message and the registered name and
    address, and [login] with any other password is refused. *)
Theorem register_then_login (name email password street city postal_code country
    : string) (s : Site) (wrong : string) :
  Forall (fun d => Dict.Customer.email d <> email) (users s) ->
  wrong <> password ->
  let w := site_world s in
  let id := uuids w (uuid_count w) in
  exists s1 s2 s3,
    AuthenticationService.register name email password street city postal_code
      country s
    = Py.Ok ((true, "Customer registered successfully! Customer ID: " +:+ id), s1) /\
    AuthenticationService.login email password s1
    = Py.Ok ((Some (Customer.mk id name email password
                      (Address.mk street city postal_code country)
                      (times w (time_count w))),
              "Login successful!"), s2) /\
    AuthenticationService.login email wrong s1
    = Py.Ok ((None, "Incorrect password."), s3).
Proof.
  intros Hfree Hwrong w id.
  destruct (register_appends_record name email password street city postal_code
              country s Hfree) as (s1 & Hreg & Hfile & _).
  set (d := Dict.Customer.mk id name email password
              (Dict.Address.mk street city postal_code country)
              (times w (time_count w))) in *.
  assert (Hu : users s1 = users s ++ [d])
    by (unfold users at 1; rewrite Hfile; reflexivity).
  destruct (login_known_email email password s1 (users s) d [] Hu Hfree eq_refl)
    as (c & s2 & Hc & _ & _ & Hlogin).
  destruct (login_known_email email wrong s1 (users s) d [] Hu Hfree eq_refl)
    as (c' & s3 & _ & _ & _ & Hlogin').
  exists s1, s2, s3. split; [exact Hreg |]. split.
  - rewrite Hlogin. cbn [d Dict.Customer.password]. rewrite String.eqb_refl.
    f_equal. f_equal. f_equal. f_equal.
    apply customer_to_dict_inj. rewrite Hc. reflexivity.
  - rewrite Hlogin'. cbn [d Dict.Customer.password].
    rewrite (proj2 (String.eqb_neq _ _)) by congruence. reflexivity.
Qed.

Lemma register_then_login_witness :
  exists s1 s2 c,
    AuthenticationService.register "Ann" "ann@example.org" "secret" "1 Road"
      "Town" "1234" "Land" Sample.site
    = Py.Ok ((true, "Customer registered successfully! Customer ID: "
                      +:+ "0f8fad5b-d9cb-469f-a165-70867280"), s1) /\
    AuthenticationService.login "ann@example.org" "secret" s1
    = Py.Ok ((Some c, "Login successful!"), s2) /\
    Customer.name c = "Ann".
Proof.
  destruct (register_then_login "Ann" "ann@example.org" "secret" "1 Road"
              "Town" "1234" "Land" Sample.site "guess")
    as (s1 & s2 & s3 & Hreg & Hlogin & _).
  - constructor.
  - discriminate.
  - exists s1, s2. eexists. split; [exact Hreg |]. split; [exact Hlogin |].
    reflexivity.
Defined.

(** X22. The emails of the users file stay distinct: whatever [register]
    answers, a users file without two records of the same email is again one
    afterwards. *)
Theorem register_keeps_emails_distinct (name email password street city
    postal_code country : string) (s : Site) (answer : bool * string) (s' : Site) :
  NoDup (Dict.Customer.email <$> users s) ->
  AuthenticationService.register name email password street city postal_code
    country s = Py.Ok (answer, s') ->
  NoDup (Dict.Customer.email <$> users s').
Proof.
  intros Hnd Hreg.
  destruct (first_with_email email (users s)) as [Hfree | (b & d & a & Hs & Hb & Hd)].
  - destruct (register_appends_record name email password street city postal_code
                country s Hfree) as (s1 & Hreg1 & Hu & _).
    rewrite Hreg in Hreg1. inversion Hreg1; subst.
    unfold users at 1. rewrite Hu. cbn [Files.load]. rewrite fmap_app.
    apply NoDup_app. split; [exact Hnd |]. split; [| apply NoDup_singleton].
    intros x Hx Hx'. cbn in Hx'. apply list_elem_of_singleton in Hx'. subst x.
    apply list_elem_of_fmap in Hx as (c & Hc & Hin).
    rewrite Forall_forall in Hfree. apply (Hfree c Hin). congruence.
  - destruct (register_refuses_taken name email password street city postal_code
                country s b d a Hs Hb Hd) as (s1 & Hreg1 & Hu & _).
    rewrite Hreg in Hreg1. inversion Hreg1; subst.
    unfold users. rewrite Hu. exact Hnd.
Qed.

Lemma register_keeps_emails_distinct_witness :
  exists s',
    AuthenticationService.register "Ann" "ann@example.org" "secret" "1 Road"
      "Town" "1234" "Land" Sample.site
    = Py.Ok ((true, "Customer registered successfully! Customer ID: "
                      +:+ "0f8fad5b-d9cb-469f-a165-70867280"), s') /\
    NoDup (Dict.Customer.email <$> users s').
Proof.
  destruct (AuthenticationService.register "Ann" "ann@example.org" "secret"
              "1 Road" "Town" "1234" "Land" Sample.site)
    as [[answer s'] |] eqn:Hreg; [| vm_compute in Hreg; discriminate].
  assert (Ha : answer = (true, "Customer registered successfully! Customer ID: "
                                 +:+ "0f8fad5b-d9cb-469f-a165-70867280")).
  { vm_compute in Hreg. inversion Hreg. reflexivity. }
  subst answer. exists s'. split; [reflexivity |].
  eapply (register_keeps_emails_distinct "Ann" "ann@example.org" "secret" "1 Road"
            "Town" "1234" "Land" Sample.site); [constructor | exact Hreg].
Defined.


Lemma filter_keeps_all {A} (f : A -> bool) (l : list A) :
  Forall (fun x => f x = true) l -> List.filter f l = l.
Proof.
  induction 1 as [| x l Hx _ IH]; cbn; [reflexivity |]. rewrite Hx, IH. reflexivity.
Qed.

Lemma filter_drops_some {A} (f : A -> bool) (l : list A) :
  Exists (fun x => f x = false) l -> (length (List.filter f l) < length l)%nat.
Proof.
  induction 1 as [x l Hx | x l _ IH]; cbn.
  - rewrite Hx. pose proof (List.filter_length_le f l). lia.
  - destruct (f x); cbn; lia.
Qed.

(** X24. [CustomerRepository.delete] removes every record of the email and
    keeps the others in order.  It answers [True] exactly when a record had
    the email; when none had, it answers [False] and does not write the file.
    Afterwards [find_by_email] finds nobody under the email. *)
Theorem customer_delete_spec (email : string) (s : Site) :
  exists answer s',
    CustomerRepository.delete email s = Py.Ok (answer, s') /\
    users s'
    = List.filter (fun c => negb (String.eqb (Dict.Customer.email c) email))
        (users s) /\
    Forall (fun d => Dict.Customer.email d <> email) (users s') /\
    (answer = true <-> Exists (fun d => Dict.Customer.email d = email) (users s)) /\
    (answer = false -> s' = s) /\
    site_world s' = site_world s /\ products_file s' = products_file s /\
    CustomerRepository.find_by_email email s' = Py.Ok (None, s').
Proof.
  unfold CustomerRepository.delete.
  rewrite (bind_ok _ _ _ _ _ (customer_load_all_eq s)).
  set (keep := fun c => negb (String.eqb (Dict.Customer.email c) email)).
  assert (Hkept : Forall (fun d => Dict.Customer.email d <> email)
                    (List.filter keep (users s))).
  { rewrite Forall_forall. intros d Hin. rewrite list_elem_of_In in Hin.
    apply List.filter_In in Hin as [_ Hk]. unfold keep in Hk.
    apply negb_true_iff, String.eqb_neq in Hk. exact Hk. }
  destruct (first_with_email email (users s))
    as [Hfree | (before & d & after & Hs & Hb & Hd)].
  - assert (Hall : List.filter keep (users s) = users s).
    { apply filter_keeps_all. eapply Forall_impl; [exact Hfree |].
      intros c Hc. unfold keep. apply negb_true_iff, String.eqb_neq. exact Hc. }
    rewrite Hall, Nat.ltb_irrefl.
    exists false, s. split; [reflexivity |]. split; [reflexivity |].
    split; [exact Hfree |]. split.
    { split; [discriminate |]. intros Hex.
      apply Exists_exists in Hex as (c & Hin & Hc).
      rewrite Forall_forall in Hfree. exfalso. exact (Hfree c Hin Hc). }
    split; [reflexivity |]. split; [reflexivity |]. split; [reflexivity |].
    apply find_by_email_absent. exact Hfree.
  - assert (Hlt : (length (List.filter keep (users s)) < length (users s))%nat).
    { apply filter_drops_some. rewrite Hs. apply Exists_app. right. left.
      unfold keep. apply negb_false_iff, String.eqb_eq. exact Hd. }
    apply Nat.ltb_lt in Hlt. rewrite Hlt.
    eexists true, _. split; [reflexivity |]. split; [reflexivity |].
    split; [exact Hkept |]. split.
    { split; [| reflexivity]. intros _. rewrite Hs. apply Exists_app. right. left.
      exact Hd. }
    split; [discriminate |]. split; [reflexivity |]. split; [reflexivity |].
    apply find_by_email_absent. exact Hkept.
Qed.

(** *** Products: objects, dictionaries and the products file *)




Lemma product_load_all_eq (s : Site) :
  ProductRepository._load_all s = Py.Ok (catalogue s, s).
Proof. reflexivity. Qed.

Lemma first_with_product_id id (records : list Dict.Product.t) :
  Forall (fun d => Dict.Product.product_id d <> id) records \/
  exists before d after,
    records = before ++ d :: after /\
    Forall (fun o => Dict.Product.product_id o <> id) before /\
    Dict.Product.product_id d = id.
Proof.
  induction records as [| c rest IH]; [left; constructor |].
  destruct (decide (Dict.Product.product_id c = id)) as [E | E].
  - right. exists [], c, rest. auto.
  - destruct IH as [IH | (before & d & after & -> & Hb & Hd)].
    + left. constructor; assumption.
    + right. exists (c :: before), d, after. auto.
Qed.




Lemma product_find_loop_absent id records :
  Forall (fun o => Dict.Product.product_id o <> id) records ->
  ProductRepository.find_by_id_loop id records = Py.ret None.
Proof.
  induction 1 as [| o l Ho _ IH]; cbn; [reflexivity |].
  apply String.eqb_neq in Ho. rewrite Ho. exact IH.
Qed.


Lemma product_find_by_id_absent id s :
  Forall (fun o => Dict.Product.product_id o <> id) (catalogue s) ->
  ProductRepository.find_by_id id s = Py.Ok (None, s).
Proof.
  intros H. unfold ProductRepository.find_by_id.
  rewrite (bind_ok _ _ _ _ _ (product_load_all_eq s)).
  rewrite (product_find_loop_absent _ _ H). reflexivity.
Qed.









(** X27. [ProductRepository.delete] removes every record of the product id and
    keeps the others in order.  It answers [True] exactly when a record had
    the id; when none had, it answers [False] and does not write the file.
    Afterwards [find_by_id] finds nothing under the id and creates no
    object. *)
Theorem product_delete_spec (product_id : string) (s : Site) :
  exists answer s',
    ProductRepository.delete product_id s = Py.Ok (answer, s') /\
    catalogue s'
    = List.filter
        (fun p => negb (String.eqb (Dict.Product.product_id p) product_id))
        (catalogue s) /\
    Forall (fun d => Dict.Product.product_id d <> product_id) (catalogue s') /\
    (answer = true
     <-> Exists (fun d => Dict.Product.product_id d = product_id) (catalogue s)) /\
    (answer = false -> s' = s) /\
    site_world s' = site_world s /\ users_file s' = users_file s /\
    ProductRepository.find_by_id product_id s' = Py.Ok (None, s').
Proof.
  unfold ProductRepository.delete.
  rewrite (bind_ok _ _ _ _ _ (product_load_all_eq s)).
  set (keep := fun p => negb (String.eqb (Dict.Product.product_id p) product_id)).
  assert (Hkept : Forall (fun d => Dict.Product.product_id d <> product_id)
                    (List.filter keep (catalogue s))).
  { rewrite Forall_forall. intros d Hin. rewrite list_elem_of_In in Hin.
    apply List.filter_In in Hin as [_ Hk]. unfold keep in Hk.
    apply negb_true_iff, String.eqb_neq in Hk. exact Hk. }
  destruct (first_with_product_id product_id (catalogue s))
    as [Hfree | (before & d & after & Hs & Hb & Hd)].
  - assert (Hall : List.filter keep (catalogue s) = catalogue s).
    { apply filter_keeps_all. eapply Forall_impl; [exact Hfree |].
      intros c Hc. unfold keep. apply negb_true_iff, String.eqb_neq. exact Hc. }
    cbv zeta. fold keep. rewrite Hall, Nat.ltb_irrefl.
    exists false, s. split; [reflexivity |]. split; [reflexivity |].
    split; [exact Hfree |]. split.
    { split; [discriminate |]. intros Hex.
      apply Exists_exists in Hex as (c & Hin & Hc).
      rewrite Forall_forall in Hfree. exfalso. exact (Hfree c Hin Hc). }
    split; [reflexivity |]. split; [reflexivity |]. split; [reflexivity |].
    apply product_find_by_id_absent. exact Hfree.
  - assert (Hlt : (length (List.filter keep (catalogue s)) < length (catalogue s))%nat).
    { apply filter_drops_some. rewrite Hs. apply Exists_app. right. left.
      unfold keep. apply negb_false_iff, String.eqb_eq. exact Hd. }
    apply Nat.ltb_lt in Hlt. cbv zeta. fold keep. rewrite Hlt.
    eexists true, _. split; [reflexivity |]. split; [reflexivity |].
    split; [exact Hkept |]. split.
    { split; [| reflexivity]. intros _. rewrite Hs. apply Exists_app. right. left.
      exact Hd. }
    split; [discriminate |]. split; [reflexivity |]. split; [reflexivity |].
    apply product_find_by_id_absent. exact Hkept.
Qed.

(** *** Sample runs of the properties of checkout, the store and the preview *)

Lemma checkout_real_payment_succeeds_witness :
  exists ex self' w' order payment,
    ApplicationController.checkout Demo.controller (Demo.world ["2"])
    = Py.Ok (ex, self', w') /\
    ex = ApplicationController.Completed order payment /\ fst payment = true.
Proof.
  destruct (ApplicationController.checkout Demo.controller (Demo.world ["2"]))
    as [[[ex self'] w'] | e] eqn:E; [| vm_compute in E; discriminate].
  destruct (checkout_real_payment_succeeds Demo.tax_rate Demo.shipping_cost
              Demo.ann Demo.cart (Demo.world ["2"]) ex self' w' eq_refl E)
    as (order & payment & Hex & Hpaid).
  exists ex, self', w', order, payment. auto.
Defined.

Lemma save_keeps_ids_distinct_witness :
  exists w1 w2,
    OrderRepository.save Demo.order Demo.order_world = Py.Ok (tt, w1) /\
    OrderRepository.save Demo.order_2 w1 = Py.Ok (tt, w2) /\
    NoDup (Json.Order.order_id <$> stored w2).
Proof.
  destruct (OrderRepository.save Demo.order Demo.order_world)
    as [[[] w1] | e] eqn:E1; [| vm_compute in E1; discriminate].
  destruct (OrderRepository.save Demo.order_2 w1)
    as [[[] w2] | e] eqn:E2;
    [| vm_compute in E1; inversion E1; subst w1; vm_compute in E2; discriminate].
  exists w1, w2. split; [reflexivity |]. split; [exact E2 |].
  apply (save_keeps_ids_distinct Demo.order_2 w1 tt w2); [| exact E2].
  apply (save_keeps_ids_distinct Demo.order Demo.order_world tt w1); [| exact E1].
  vm_compute. constructor.
Defined.

Lemma cart_preview_matches_order_witness :
  exists order' w2 w3,
    ApplicationController.add_lines Demo.order (ShoppingCart.items Demo.cart)
      Demo.empty_order_world = Py.Ok (tt, w2) /\
    PricingService.calculate_order_total Demo.pricing Demo.order w2
    = Py.Ok (order', w3) /\
    ApplicationController.view_cart_amounts Demo.controller Demo.cart
      Demo.empty_order_world
    = Py.Ok ((Order.subtotal order', Order.tax_amount order',
              Order.total_amount order'), Demo.empty_order_world) /\
    Order.total_amount order' = 0x1.5dde353f7ced9p+6%float.
Proof.
  destruct (ApplicationController.add_lines Demo.order (ShoppingCart.items Demo.cart)
              Demo.empty_order_world) as [[[] w2] | e] eqn:E1;
    [| vm_compute in E1; discriminate].
  destruct (PricingService.calculate_order_total Demo.pricing Demo.order w2)
    as [[order' w3] | e] eqn:E2;
    [| vm_compute in E1; inversion E1; subst w2; vm_compute in E2; discriminate].
  exists order', w2, w3. split; [reflexivity |]. split; [exact E2 |].
  split.
  - apply (cart_preview_matches_order Demo.controller Demo.cart Demo.order order'
             Demo.empty_order_world w2 w3 tt); [reflexivity | exact E1 | exact E2].
  - vm_compute in E1. inversion E1; subst w2. vm_compute in E2.
    inversion E2. reflexivity.
Defined.
